(** * Raw2Ready front end: form validation, request construction,
      slide navigation and browser persistence

    A shallow embedding of the React components of the Raw2Ready front end
    ([FormPage.jsx], the presentation page and [services/api.js]).
    Component state ([useState] cells) is a record, every handler is a
    function from the state (and the outcome of the one [fetch] it awaits)
    to the next state together with the effects it performed: requests
    issued, navigation, writes to [localStorage].

    JavaScript strings are [string]s of 8-bit code units; white space is
    the ASCII part of the ECMAScript [WhiteSpace]/[LineTerminator] set. *)

From Stdlib Require Import String Ascii ZArith QArith List Lia Bool.
From Stdlib Require Import DecimalString DecimalPos DecimalZ Qpower.
From stdpp Require Import gmap strings list fin_maps.

Local Open Scope string_scope.
Local Open Scope bool_scope.

(* ===================================================================== *)
(** ** JavaScript string primitives *)
(* ===================================================================== *)

Module JsString.

(** TAB, LF, VT, FF, CR and SPACE. *)
Definition isWhiteSpace (c : ascii) : bool :=
  match N_of_ascii c with
  | 9%N | 10%N | 11%N | 12%N | 13%N | 32%N => true
  | _ => false
  end.

(** [String.prototype.trimStart]. *)
Fixpoint trimStart (s : string) : string :=
  match s with
  | EmptyString => EmptyString
  | String c s' => if isWhiteSpace c then trimStart s' else s
  end.

(** [String.prototype.trimEnd]. *)
Fixpoint trimEnd (s : string) : string :=
  match s with
  | EmptyString => EmptyString
  | String c s' =>
      let t := trimEnd s' in
      if isWhiteSpace c && String.eqb t EmptyString then EmptyString
      else String c t
  end.

(** [String.prototype.trim]. *)
Definition trim (s : string) : string := trimEnd (trimStart s).

(** [ToBoolean] on a string: only the empty string is falsy. *)
Definition truthy (s : string) : bool := negb (String.eqb s EmptyString).

(** [s || d] when both operands are strings. *)
Definition or_else (s d : string) : string := if truthy s then s else d.

(** [s || null]: the string when truthy, otherwise the absent value. *)
Definition or_null (s : string) : option string :=
  if truthy s then Some s else None.

(** [Array.prototype.includes] on an array of strings. *)
Definition includes (l : list string) (x : string) : bool :=
  existsb (String.eqb x) l.

End JsString.

Import JsString.

(* ===================================================================== *)
(** ** JSON values, exceptions and HTTP replies *)
(* ===================================================================== *)

(** A parsed JSON document.  Numbers are restricted to integers: the
    values the front end inspects ([detail], [suggested_business_name])
    are strings, arrays or objects.  The properties of an object are
    listed in order, each key once. *)
#[warnings="-register-all"]
Inductive json : Type :=
| JNull
| JBool (b : bool)
| JNum (n : Z)
| JStr (s : string)
| JArr (items : list json)
| JObj (props : list (string * json)).

(** A thrown JavaScript error: [err.name] and [err.message]. *)
Record js_error : Type := mkError { err_name : string; err_message : string }.

(** A computation that either completes with a value or throws. *)
Inductive outcome (A : Type) : Type :=
| Done (a : A)
| Throw (e : js_error).
Arguments Done {A} a.
Arguments Throw {A} e.

Definition bind {A B : Type} (m : outcome A) (k : A -> outcome B) : outcome B :=
  match m with
  | Done a => k a
  | Throw e => Throw e
  end.

Notation "'let*' x ':=' m 'in' k" := (bind m (fun x => k))
  (at level 10, x name, m at level 100, k at level 200).

(** What the single [await fetch(...)] of a handler produced. *)
Inductive reply : Type :=
| NoResponse (message : string)
    (* fetch rejected with a TypeError carrying this message *)
| Response (status : Z) (body : option json)
    (* a response arrived; the body is None when response.json()
       rejects because the body is not JSON *).

Module Js.

(** First entry of an association list with key [k]. *)
Fixpoint assoc (k : string) (props : list (string * json)) : option json :=
  match props with
  | [] => None
  | (k', v) :: rest => if String.eqb k k' then Some v else assoc k rest
  end.

(** [v.k] for a property name that no built-in prototype defines:
    [None] is [undefined]; reading a property of [null] throws. *)
Definition prop (v : json) (k : string) : outcome (option json) :=
  match v with
  | JNull => Throw (mkError "TypeError" "Cannot read properties of null")
  | JObj props => Done (assoc k props)
  | _ => Done None
  end.

(** [ToBoolean]; [None] is [undefined]. *)
Definition truthy (v : option json) : bool :=
  match v with
  | None | Some JNull => false
  | Some (JBool b) => b
  | Some (JNum n) => negb (n =? 0)%Z
  | Some (JStr s) => JsString.truthy s
  | Some (JArr _) | Some (JObj _) => true
  end.

(** Decimal rendering of an integer, as in a template literal. *)
Definition Z_to_string (n : Z) : string :=
  DecimalString.NilZero.string_of_int (Z.to_int n).

(** [Array.prototype.join]. *)
Fixpoint join (sep : string) (parts : list string) : string :=
  match parts with
  | [] => ""
  | [p] => p
  | p :: rest => p ++ sep ++ join sep rest
  end.

(** [ToString]: an array is its elements joined by commas, [null]
    elements rendering as the empty string; an object is the fixed text
    [[object Object]]. *)
Fixpoint ToString (v : json) : string :=
  match v with
  | JNull => "null"
  | JBool true => "true"
  | JBool false => "false"
  | JNum n => Z_to_string n
  | JStr s => s
  | JArr items =>
      join "," (map (fun e => match e with JNull => "" | _ => ToString e end) items)
  | JObj _ => "[object Object]"
  end.

(** [new Error(v)]: the message is [ToString v]. *)
Definition new_Error (v : json) : js_error := mkError "Error" (ToString v).

(** [response.ok]. *)
Definition ok (status : Z) : bool := (200 <=? status)%Z && (status <=? 299)%Z.

End Js.

(** [try { body } catch (e) { handler e }]. *)
Definition try_catch {A : Type} (body : outcome A) (handler : js_error -> outcome A)
  : outcome A :=
  match body with
  | Done a => Done a
  | Throw e => handler e
  end.

(** [localStorage]: string keys to string values. *)
Abbreviation Storage := (gmap string string).

(** [localStorage.getItem]: [None] is [null]. *)
Definition getItem (store : Storage) (key : string) : option string := store !! key.

(** [localStorage.setItem]. *)
Definition setItem (key value : string) (store : Storage) : Storage :=
  <[key := value]> store.

(** [if (saved)] for the result of [getItem]: [null] and the empty string
    are falsy. *)
Definition saved_truthy (saved : option string) : bool :=
  match saved with
  | Some s => JsString.truthy s
  | None => false
  end.

(* ===================================================================== *)
(** ** The form page ([FormPage.jsx]) *)
(* ===================================================================== *)

Module FormPage.

(** The [formData] state object: thirteen string properties. *)
Record FormData : Type := mkFormData {
  businessName : string;
  city : string;
  country : string;
  targetAudience : string;
  budget : string;
  businessType : string;
  rawIdea : string;
  problem : string;
  model : string;
  timeCommitment : string;
  outputTone : string;
  stageOfIdea : string;
  timeHorizon : string
}.

(** The [name] attribute of the inputs wired to [handleChange]. *)
Inductive field : Type :=
| BusinessName | City | Country | TargetAudience | Budget | BusinessType
| RawIdea | Problem | Model | TimeCommitment | OutputTone | StageOfIdea
| TimeHorizon.

Definition field_name (f : field) : string :=
  match f with
  | BusinessName => "businessName"
  | City => "city"
  | Country => "country"
  | TargetAudience => "targetAudience"
  | Budget => "budget"
  | BusinessType => "businessType"
  | RawIdea => "rawIdea"
  | Problem => "problem"
  | Model => "model"
  | TimeCommitment => "timeCommitment"
  | OutputTone => "outputTone"
  | StageOfIdea => "stageOfIdea"
  | TimeHorizon => "timeHorizon"
  end.

Definition all_fields : list field :=
  [BusinessName; City; Country; TargetAudience; Budget; BusinessType;
   RawIdea; Problem; Model; TimeCommitment; OutputTone; StageOfIdea;
   TimeHorizon].

(** [formData[name]]. *)
Definition get_field (f : field) (d : FormData) : string :=
  match f with
  | BusinessName => businessName d
  | City => city d
  | Country => country d
  | TargetAudience => targetAudience d
  | Budget => budget d
  | BusinessType => businessType d
  | RawIdea => rawIdea d
  | Problem => problem d
  | Model => model d
  | TimeCommitment => timeCommitment d
  | OutputTone => outputTone d
  | StageOfIdea => stageOfIdea d
  | TimeHorizon => timeHorizon d
  end.

(** [{ ...prev, [name]: value }]. *)
Definition set_field (f : field) (v : string) (d : FormData) : FormData :=
  mkFormData
    (match f with BusinessName => v | _ => businessName d end)
    (match f with City => v | _ => city d end)
    (match f with Country => v | _ => country d end)
    (match f with TargetAudience => v | _ => targetAudience d end)
    (match f with Budget => v | _ => budget d end)
    (match f with BusinessType => v | _ => businessType d end)
    (match f with RawIdea => v | _ => rawIdea d end)
    (match f with Problem => v | _ => problem d end)
    (match f with Model => v | _ => model d end)
    (match f with TimeCommitment => v | _ => timeCommitment d end)
    (match f with OutputTone => v | _ => outputTone d end)
    (match f with StageOfIdea => v | _ => stageOfIdea d end)
    (match f with TimeHorizon => v | _ => timeHorizon d end).

(** The object literal returned by [loadSavedFormData] when nothing usable
    is stored. *)
Definition defaultFormData : FormData :=
  mkFormData "" "" "" "" "" "" "" "" "chatgpt-latest" "" "" "" "".

(** The [formData] object as a JSON value, properties in the order of the
    default literal. *)
Definition formData_to_json (d : FormData) : json :=
  JObj (map (fun f => (field_name f, JStr (get_field f d))) all_fields).

(** The component state: one cell per [useState]. *)
Record State : Type := mkState {
  formData : FormData;
  termsAccepted : bool;
  errors : gmap string string;
  isLoading : bool;
  apiError : option string
}.

Definition set_errors (e : gmap string string) (st : State) : State :=
  mkState (formData st) (termsAccepted st) e (isLoading st) (apiError st).

(** Body posted to [/api/analyze]. *)
Record AnalyzeRequest : Type := mkAnalyzeRequest {
  req_business_name : string;
  req_location_city : string;
  req_country : string;
  req_target_audience : option string;
  req_budget : option string;
  req_business_type : option string;
  req_raw_idea : string;
  req_problem : option string;
  req_file_content : option string;
  req_photos_description : option string;
  req_model_selection : string;
  req_time_commitment : option string;
  req_output_tone : option string;
  req_language : string;
  req_stage_of_idea : option string;
  req_time_horizon : option string
}.

(** The [businessContext] object handed to the results page. *)
Record BusinessContext : Type := mkBusinessContext {
  ctx_business_name : string;
  ctx_raw_idea : string;
  ctx_problem : option string;
  ctx_target_audience : option string;
  ctx_location_city : option string;
  ctx_country : option string;
  ctx_budget : option string;
  ctx_business_type : option string
}.

(** What one run of [handleSubmit] did besides updating the state. *)
Record Effects : Type := mkEffects {
  requests : list AnalyzeRequest;
  navigated : option (json * BusinessContext)
}.

Definition NETWORK_MESSAGE : string :=
  "Could not reach the server. Make sure the backend is running (e.g. uvicorn on port 8000) and you are using the dev server (npm run dev).".

Section WithCountries.

(** The table exported by [utils/countries]; the module itself is not
    among the sources, so the table is a parameter. *)
Variable countries : list string.

(** [validateForm]: builds [newErrors], stores it with [setErrors] and
    returns whether it has no keys. *)
Definition validateForm (st : State) : State * bool :=
  let d := formData st in
  let newErrors : gmap string string := ∅ in
  let newErrors :=
    if negb (JsString.truthy (trim (country d))) then
      <["country" := "Country is required"]> newErrors
    else if negb (includes countries (country d)) then
      <["country" := "Please select a country from the dropdown"]> newErrors
    else newErrors in
  let newErrors :=
    if negb (JsString.truthy (trim (city d)))
    then <["city" := "City is required"]> newErrors else newErrors in
  let newErrors :=
    if negb (JsString.truthy (trim (rawIdea d)))
    then <["rawIdea" := "Raw idea is required"]> newErrors else newErrors in
  let newErrors :=
    if negb (JsString.truthy (timeCommitment d))
    then <["timeCommitment" := "Time commitment is required"]> newErrors
    else newErrors in
  let newErrors :=
    if negb (termsAccepted st)
    then <["terms" := "You must accept the terms and conditions"]> newErrors
    else newErrors in
  (set_errors newErrors st, Nat.eqb (size newErrors) 0).

(** [getModelSelection]. *)
Definition getModelSelection (d : FormData) : string :=
  if String.eqb (model d) "gemini" then "google-gemini-flash" else "chatgpt-latest".

(** The [requestBody] literal of [handleSubmit]. *)
Definition requestBody (d : FormData) : AnalyzeRequest :=
  {| req_business_name := or_else (trim (businessName d)) "My Business";
     req_location_city := or_else (trim (city d)) "";
     req_country := trim (country d);
     req_target_audience := or_null (trim (targetAudience d));
     req_budget := or_null (trim (budget d));
     req_business_type := or_null (businessType d);
     req_raw_idea := trim (rawIdea d);
     req_problem := or_null (trim (problem d));
     req_file_content := None;
     req_photos_description := None;
     req_model_selection := getModelSelection d;
     req_time_commitment := or_null (timeCommitment d);
     req_output_tone := or_null (outputTone d);
     req_language := "en";
     req_stage_of_idea := or_null (stageOfIdea d);
     req_time_horizon := or_null (timeHorizon d) |}.

(** [analysisData.suggested_business_name?.trim()]: [None] is
    [undefined]; a value that is neither nullish nor a string has no
    [trim] method. *)
Definition suggested_name (analysisData : json) : outcome (option string) :=
  let* v := Js.prop analysisData "suggested_business_name" in
  match v with
  | None | Some JNull => Done None
  | Some (JStr s) => Done (Some (trim s))
  | Some _ => Throw (mkError "TypeError" "trim is not a function")
  end.

(** [businessNameForPresentation]. *)
Definition businessNameForPresentation (suggested : option string) (d : FormData)
  : string :=
  let typed := or_else (trim (businessName d)) "My Business" in
  match suggested with
  | Some s => or_else s typed
  | None => typed
  end.

(** The [businessContext] literal of [handleSubmit]. *)
Definition businessContext (name : string) (d : FormData) : BusinessContext :=
  {| ctx_business_name := name;
     ctx_raw_idea := trim (rawIdea d);
     ctx_problem := or_null (trim (problem d));
     ctx_target_audience := or_null (trim (targetAudience d));
     ctx_location_city := or_null (trim (city d));
     ctx_country := or_null (trim (country d));
     ctx_budget := or_null (trim (budget d));
     ctx_business_type := or_null (businessType d) |}.

(** The body of the [try] block once the request has been sent: either the
    navigation payload or the error that reaches [catch]. *)
Definition after_fetch (d : FormData) (r : reply) : outcome (json * BusinessContext) :=
  match r with
  | NoResponse m => Throw (mkError "TypeError" m)
  | Response status body =>
      if negb (Js.ok status) then
        let errData := match body with Some v => v | None => JObj [] end in
        let* detail := Js.prop errData "detail" in
        if Js.truthy detail then
          Throw (Js.new_Error (match detail with Some v => v | None => JNull end))
        else
          Throw (mkError "Error"
                   ("Research failed (" ++ Js.Z_to_string status ++ ")"))
      else
        match body with
        | None => Throw (mkError "SyntaxError" "Unexpected token in JSON")
        | Some analysisData =>
            let* suggested := suggested_name analysisData in
            Done (analysisData,
                  businessContext (businessNameForPresentation suggested d) d)
        end
  end.

(** The [catch] block: the text passed to [setApiError]. *)
Definition catch_message (err : js_error) : string :=
  let isNetworkError :=
    String.eqb (err_message err) "Failed to fetch"
    || String.eqb (err_name err) "TypeError" in
  if isNetworkError then NETWORK_MESSAGE
  else or_else (err_message err) "Research failed. Please try again.".

(** [handleSubmit], given what the awaited [fetch] produced. *)
Definition handleSubmit (st : State) (r : reply) : State * Effects :=
  let (st1, valid) := validateForm st in
  if negb valid then (st1, mkEffects [] None)
  else
    let d := formData st1 in
    let body := requestBody d in
    match after_fetch d r with
    | Done payload =>
        (mkState d (termsAccepted st1) (errors st1) false None,
         mkEffects [body] (Some payload))
    | Throw err =>
        (mkState d (termsAccepted st1) (errors st1) false (Some (catch_message err)),
         mkEffects [body] None)
    end.

End WithCountries.

Section WithJson.

(** The host's [JSON.stringify] and [JSON.parse]; the latter throws a
    [SyntaxError] on malformed text. *)
Variable JSON_stringify : json -> string.
Variable JSON_parse : string -> outcome json.

(** [loadSavedFormData]: the value parsed from [raw2ready_formData], or
    the default literal.  The inner option is the early [return parsed]. *)
Definition loadSavedFormData (store : Storage) : outcome json :=
  let saved := getItem store "raw2ready_formData" in
  let* early :=
    if saved_truthy saved then
      try_catch
        (let* parsed := JSON_parse (default "" saved) in Done (Some parsed))
        (fun e => (* console.error *) Done None)
    else Done None in
  match early with
  | Some parsed => Done parsed
  | None => Done (formData_to_json defaultFormData)
  end.

(** [loadSavedTerms]. *)
Definition loadSavedTerms (store : Storage) : bool :=
  match getItem store "raw2ready_termsAccepted" with
  | Some saved => String.eqb saved "true"
  | None => false
  end.

(** [errors[name]] used as a condition. *)
Definition has_error (e : gmap string string) (name : string) : bool :=
  match e !! name with
  | Some m => JsString.truthy m
  | None => false
  end.

(** [handleChange] for the event [{ target: { name, value } }]: replaces
    the property, writes the whole object to [localStorage] and blanks a
    pending error for that input. *)
Definition handleChange (name : field) (value : string) (st : State) (store : Storage)
  : State * Storage :=
  let updated := set_field name value (formData st) in
  let store' := setItem "raw2ready_formData" (JSON_stringify (formData_to_json updated)) store in
  let errors' :=
    if has_error (errors st) (field_name name)
    then <[field_name name := ""]> (errors st) else errors st in
  (mkState updated (termsAccepted st) errors' (isLoading st) (apiError st), store').

(** The [onChange] handler of the terms check box. *)
Definition handleTermsChange (checked : bool) (st : State) (store : Storage)
  : State * Storage :=
  let store' :=
    setItem "raw2ready_termsAccepted" (if checked then "true" else "false") store in
  let errors' :=
    if has_error (errors st) "terms" then <["terms" := ""]> (errors st) else errors st in
  (mkState (formData st) checked errors' (isLoading st) (apiError st), store').

End WithJson.

End FormPage.

(** A few entries of the country table, for running the validation on
    concrete forms. *)
Definition sample_countries : list string :=
  ["France"; "Germany"; "India"; "United States"].

(* ===================================================================== *)
(** ** The API service ([services/api.js]) *)
(* ===================================================================== *)

Module Api.

(** Sequencing a list of computations, left to right. *)
Fixpoint mapM {A B : Type} (f : A -> outcome B) (l : list A) : outcome (list B) :=
  match l with
  | [] => Done []
  | a :: rest =>
      let* b := f a in
      let* bs := mapM f rest in
      Done (b :: bs)
  end.

(** [a || b] once [a] has been evaluated ([None] is [undefined]). *)
Definition or_json (a : option json) (b : outcome json) : outcome json :=
  match a with
  | Some v => if Js.truthy a then Done v else b
  | None => b
  end.

Section WithJson.

Variable JSON_stringify : json -> string.

(** [e.msg || e.message || JSON.stringify(e)]. *)
Definition sub_error_text (e : json) : outcome json :=
  let* msg := Js.prop e "msg" in
  or_json msg
    (let* message := Js.prop e "message" in
     or_json message (Done (JStr (JSON_stringify e)))).

(** The message of the error thrown by [analyzeBusiness] when
    [response.ok] is false: [detail], else [message], else the status
    text; an array is mapped to its sub-error texts joined by a semicolon
    and a space. *)
Definition failure_message (statusText : string) (body : option json) : outcome string :=
  let errorData := match body with Some v => v | None => JObj [] end in
  let* detail := Js.prop errorData "detail" in
  let* message :=
    or_json detail
      (let* m := Js.prop errorData "message" in
       or_json m (Done (JStr statusText))) in
  match message with
  | JArr items =>
      let* parts := mapM sub_error_text items in
      Done (Js.join "; " (map Js.ToString parts))
  | JStr s => Done s
  | other => Done (JSON_stringify other)
  end.

End WithJson.

End Api.

(* ===================================================================== *)
(** ** JavaScript numbers read from strings *)
(* ===================================================================== *)

(** [Number(s)], [parseInt(s)] and [parseFloat(s)] on strings.  A finite
    number is the exact rational its digits denote: rounding to binary64
    is not modelled, which only matters for inputs within half an ulp of a
    bound they are compared with. *)
Module JsNumber.

Inductive number : Type :=
| NaN
| Fin (q : Q)
| PosInf
| NegInf.

Definition of_Z (n : Z) : number := Fin (inject_Z n).

(** [a < b]; every comparison with [NaN] is false. *)
Definition lt (a b : number) : bool :=
  match a, b with
  | NaN, _ | _, NaN => false
  | Fin x, Fin y => negb (Qle_bool y x)
  | Fin _, PosInf => true
  | Fin _, NegInf => false
  | PosInf, _ => false
  | NegInf, NegInf => false
  | NegInf, _ => true
  end.

(** [a > b]. *)
Definition gt (a b : number) : bool := lt b a.

Definition negate (a : number) : number :=
  match a with
  | NaN => NaN
  | Fin q => Fin (- q)
  | PosInf => NegInf
  | NegInf => PosInf
  end.

(** [a / k] for a positive integer [k]. *)
Definition div_by (a : number) (k : positive) : number :=
  match a with
  | Fin q => Fin (q / inject_Z (Zpos k))
  | other => other
  end.

(** The value of an alphanumeric character as a digit: [0]-[9], then
    letters of either case from ten upwards. *)
Definition char_value (c : ascii) : option Z :=
  let n := Z.of_N (N_of_ascii c) in
  if (48 <=? n)%Z && (n <=? 57)%Z then Some (n - 48)%Z
  else if (97 <=? n)%Z && (n <=? 122)%Z then Some (n - 87)%Z
  else if (65 <=? n)%Z && (n <=? 90)%Z then Some (n - 55)%Z
  else None.

Definition digit_of (radix : Z) (c : ascii) : option Z :=
  match char_value c with
  | Some v => if (v <? radix)%Z then Some v else None
  | None => None
  end.

(** The longest run of digits of the radix at the head of [s], and what
    follows it. *)
Fixpoint span_digits (radix : Z) (s : string) : list Z * string :=
  match s with
  | EmptyString => ([], EmptyString)
  | String c r =>
      match digit_of radix c with
      | Some v => let (ds, rest) := span_digits radix r in (v :: ds, rest)
      | None => ([], s)
      end
  end.

(** Positional value, most significant digit first. *)
Definition value_of (radix : Z) (ds : list Z) : Z :=
  fold_left (fun acc d => radix * acc + d)%Z ds 0%Z.

(** [m] times ten to the power [e]. *)
Definition scaled (m e : Z) : Q := inject_Z m * Qpower (inject_Z 10) e.

Definition is_nil {A : Type} (l : list A) : bool :=
  match l with [] => true | _ => false end.

(** [ExponentPart], when one is there: [e] or [E], an optional sign and at
    least one digit.  Otherwise the exponent is zero and nothing is
    consumed. *)
Definition parse_exponent (s : string) : Z * string :=
  match s with
  | String c r =>
      if Ascii.eqb c "e" || Ascii.eqb c "E" then
        let '(sign, r') :=
          match r with
          | String "+" r' => (1%Z, r')
          | String "-" r' => ((-1)%Z, r')
          | _ => (1%Z, r)
          end in
        let (ds, rest) := span_digits 10 r' in
        if is_nil ds then (0%Z, s) else ((sign * value_of 10 ds)%Z, rest)
      else (0%Z, s)
  | EmptyString => (0%Z, s)
  end.

(** The longest prefix that is a [StrUnsignedDecimalLiteral], with its
    value and the rest of the string. *)
Definition parse_unsigned (s : string) : option (number * string) :=
  if String.prefix "Infinity" s then Some (PosInf, String.substring 8 (String.length s - 8) s)
  else
    let (ip, r1) := span_digits 10 s in
    match r1 with
    | String "." r =>
        let (fp, r2) := span_digits 10 r in
        if is_nil ip && is_nil fp then None
        else
          let (e, r3) := parse_exponent r2 in
          Some (Fin (scaled (value_of 10 (ip ++ fp)) (e - Z.of_nat (length fp))), r3)
    | _ =>
        if is_nil ip then None
        else
          let (e, r3) := parse_exponent r1 in
          Some (Fin (scaled (value_of 10 ip) e), r3)
    end.

(** The longest prefix that is a [StrDecimalLiteral]. *)
Definition parse_decimal (s : string) : option (number * string) :=
  match s with
  | String "+" r => parse_unsigned r
  | String "-" r =>
      match parse_unsigned r with
      | Some (v, rest) => Some (negate v, rest)
      | None => None
      end
  | _ => parse_unsigned s
  end.

(** A whole string that is a [NonDecimalIntegerLiteral]: [0x], [0o] or
    [0b] followed by digits of that radix and nothing else. *)
Definition parse_non_decimal (t : string) : option Z :=
  match t with
  | String "0" (String x r) =>
      let radix :=
        if Ascii.eqb x "x" || Ascii.eqb x "X" then Some 16%Z
        else if Ascii.eqb x "o" || Ascii.eqb x "O" then Some 8%Z
        else if Ascii.eqb x "b" || Ascii.eqb x "B" then Some 2%Z
        else None in
      match radix with
      | Some k =>
          let (ds, rest) := span_digits k r in
          if is_nil ds || negb (String.eqb rest EmptyString) then None
          else Some (value_of k ds)
      | None => None
      end
  | _ => None
  end.

(** [Number(s)]: white space, a numeric literal, white space; the empty
    or blank string is zero. *)
Definition ToNumber (s : string) : number :=
  let t := trimStart s in
  if String.eqb t EmptyString then of_Z 0
  else
    match parse_decimal t with
    | Some (v, rest) =>
        if String.eqb (trimStart rest) EmptyString then v
        else match parse_non_decimal (trimEnd t) with
             | Some n => of_Z n
             | None => NaN
             end
    | None => NaN
    end.

(** The global [isNaN] applied to a string. *)
Definition isNaN (s : string) : bool :=
  match ToNumber s with NaN => true | _ => false end.

(** [parseFloat(s)]. *)
Definition parseFloat (s : string) : number :=
  match parse_decimal (trimStart s) with
  | Some (v, _) => v
  | None => NaN
  end.

(** [parseInt(s)] without a radix: base sixteen after [0x], otherwise base
    ten; the digits read stop at the first character that is not one. *)
Definition parseInt (s : string) : number :=
  let t := trimStart s in
  let '(sign, t1) :=
    match t with
    | String "+" r => (1%Z, r)
    | String "-" r => ((-1)%Z, r)
    | _ => (1%Z, t)
    end in
  let '(radix, t2) :=
    match t1 with
    | String "0" (String x r) =>
        if Ascii.eqb x "x" || Ascii.eqb x "X" then (16%Z, r) else (10%Z, t1)
    | _ => (10%Z, t1)
    end in
  let (ds, _) := span_digits radix t2 in
  if is_nil ds then NaN else of_Z (sign * value_of radix ds).

End JsNumber.

(* ===================================================================== *)
(** ** The presentation page (deck and video generation) *)
(* ===================================================================== *)

Module PresentationPage.

Import JsNumber.

Record Slide : Type := mkSlide {
  slide_number : Z;
  title : string;
  subtitle : option string;
  content : list string;
  speaker_notes : option string;
  duration_seconds : option Z
}.

Record PresentationDeck : Type := mkDeck {
  presentation_title : string;
  generated_tagline : option string;
  total_duration_minutes : Z;
  slides : list Slide
}.

Record GeneratedVideo : Type := mkVideo { video_url : string }.

(** What the awaited [fetch] of a generation or edit handler produced:
    no response, a response with [response.ok] false (and its body, when
    it is JSON), or a successful response with its parsed body. *)
Inductive answer (A : Type) : Type :=
| Unreachable (message : string)
| Refused (status : Z) (errorData : option json)
| Accepted (data : A).
Arguments Unreachable {A} message.
Arguments Refused {A} status errorData.
Arguments Accepted {A} data.

(** The [businessContext] received through the navigation state. *)
Record PageContext : Type := mkPageContext {
  business_name : option string;
  raw_idea : option string;
  tagline : option string;
  problem : option string;
  target_audience : option string;
  location_city : option string;
  country : option string;
  budget : option string;
  business_type : option string;
  competing_players : option json;
  market_cap_or_target_revenue : option string;
  undiscovered_addons : option json
}.

(** [x || null] for a property that is a string or missing. *)
Definition str_or_null (x : option string) : option string :=
  match x with
  | Some s => or_null s
  | None => None
  end.

(** [x?.trim() || null]. *)
Definition trimmed_or_null (x : option string) : option string :=
  match x with
  | Some s => or_null (trim s)
  | None => None
  end.

(** [x || null] for a property holding a JSON value. *)
Definition json_or_null (x : option json) : option json :=
  if Js.truthy x then x else None.

(** Body posted to [/api/presentation/generate]. *)
Record GenerateRequest : Type := mkGenerateRequest {
  gen_business_name : string;
  gen_raw_idea : string;
  gen_tagline : option string;
  gen_problem : option string;
  gen_target_audience : option string;
  gen_location_city : option string;
  gen_country : option string;
  gen_budget : option string;
  gen_business_type : option string;
  gen_competing_players : option json;
  gen_market_cap_or_target_revenue : option string;
  gen_undiscovered_addons : option json;
  num_slides : number;
  duration_minutes : number
}.

(** Body posted to [/api/presentation/edit]. *)
Record EditRequest : Type := mkEditRequest {
  current_presentation : list Slide;
  edit_request : string;
  edit_business_context : PageContext
}.

(** Body posted to [/api/generate-video]. *)
Record VideoRequest : Type := mkVideoRequest {
  time : number;
  prompt : string;
  vid_business_name : option string;
  vid_raw_idea : option string;
  vid_problem : option string;
  vid_target_audience : option string;
  vid_location_city : option string;
  vid_country : option string
}.

Record PptFormData : Type := mkPptFormData {
  numberOfSlides : string;
  timeRequired : string
}.

Record VideoFormData : Type := mkVideoFormData {
  videoTimeRequired : string;
  videoPrompt : string
}.

(** The state cells of the slide-deck flow. *)
Record DeckState : Type := mkDeckState {
  pptFormData : PptFormData;
  pptErrors : gmap string string;
  isPptLoading : bool;
  presentation : option PresentationDeck;
  currentSlide : Z;
  editPrompt : string;
  isEditing : bool;
  pptError : option string
}.

(** The state cells of the video flow. *)
Record VideoState : Type := mkVideoState {
  videoFormData : VideoFormData;
  videoErrors : gmap string string;
  isVideoLoading : bool;
  generatedVideo : option GeneratedVideo;
  videoError : option string
}.

Definition slide_to_json (s : Slide) : json :=
  let opt (o : option string) := match o with Some x => JStr x | None => JNull end in
  JObj [("slide_number", JNum (slide_number s));
        ("title", JStr (title s));
        ("subtitle", opt (subtitle s));
        ("content", JArr (map JStr (content s)));
        ("speaker_notes", opt (speaker_notes s));
        ("duration_seconds",
         match duration_seconds s with Some n => JNum n | None => JNull end)].

Definition deck_to_json (p : PresentationDeck) : json :=
  JObj [("presentation_title", JStr (presentation_title p));
        ("generated_tagline",
         match generated_tagline p with Some x => JStr x | None => JNull end);
        ("total_duration_minutes", JNum (total_duration_minutes p));
        ("slides", JArr (map slide_to_json (slides p)))].

Definition video_to_json (v : GeneratedVideo) : json :=
  JObj [("video_url", JStr (video_url v))].

(** The [catch] block shared by the handlers of this page, with the
    fixed text each one uses for a network failure. *)
Definition catch_message (network_text : string) (err : js_error) : string :=
  let isNetworkError :=
    String.eqb (err_message err) "Failed to fetch"
    || String.eqb (err_name err) "TypeError" in
  if isNetworkError then network_text else err_message err.

(** From the awaited [fetch] to the parsed body or the thrown error:
    [throw new Error(errorData.detail || fallback)] when the response is
    not ok. *)
Definition await_data {A : Type} (fallback : string) (a : answer A) : outcome A :=
  match a with
  | Unreachable m => Throw (mkError "TypeError" m)
  | Refused status errorData =>
      match errorData with
      | None => Throw (mkError "SyntaxError" "Unexpected token in JSON")
      | Some body =>
          let* detail := Js.prop body "detail" in
          match detail with
          | Some v =>
              if Js.truthy detail then Throw (Js.new_Error v)
              else Throw (mkError "Error" fallback)
          | None => Throw (mkError "Error" fallback)
          end
      end
  | Accepted data => Done data
  end.

Definition GENERATE_UNREACHABLE : string :=
  "Could not reach the server. Make sure the backend is running (port 8000) and you are using the dev server (npm run dev).".

Definition EDIT_UNREACHABLE : string :=
  "Could not reach the server. Make sure the backend is running (port 8000).".

Section WithJson.

Variable JSON_stringify : json -> string.
Variable JSON_parse : string -> outcome json.

(** The shape shared by [loadSavedPresentation] and [loadSavedVideo]: the
    value parsed from [key], or [null]. *)
Definition loadSavedOrNull (key : string) (store : Storage) : outcome json :=
  let saved := getItem store key in
  let* early :=
    if saved_truthy saved then
      try_catch
        (let* parsed := JSON_parse (default "" saved) in Done (Some parsed))
        (fun e => (* console.error *) Done None)
    else Done None in
  match early with
  | Some parsed => Done parsed
  | None => Done JNull
  end.

(** [loadSavedPresentation]. *)
Definition loadSavedPresentation (store : Storage) : outcome json :=
  loadSavedOrNull "raw2ready_presentation" store.

(** [loadSavedVideo]. *)
Definition loadSavedVideo (store : Storage) : outcome json :=
  loadSavedOrNull "raw2ready_generatedVideo" store.

(** [validatePptForm]. *)
Definition validatePptForm (st : DeckState) : DeckState * bool :=
  let f := pptFormData st in
  let newErrors : gmap string string := ∅ in
  let newErrors :=
    if negb (JsString.truthy (trim (numberOfSlides f)))
       || isNaN (numberOfSlides f)
       || lt (parseInt (numberOfSlides f)) (of_Z 5)
       || gt (parseInt (numberOfSlides f)) (of_Z 15)
    then <["numberOfSlides" := "Please enter a number between 5 and 15"]> newErrors
    else newErrors in
  let newErrors :=
    if negb (JsString.truthy (trim (timeRequired f)))
       || isNaN (timeRequired f)
       || lt (parseFloat (timeRequired f)) (of_Z 3)
       || gt (parseFloat (timeRequired f)) (of_Z 15)
    then <["timeRequired" := "Please enter a time between 3 and 15 minutes"]> newErrors
    else newErrors in
  (mkDeckState f newErrors (isPptLoading st) (presentation st) (currentSlide st)
     (editPrompt st) (isEditing st) (pptError st),
   Nat.eqb (size newErrors) 0).

(** The [requestBody] literal of [handleCreatePresentation]. *)
Definition generateRequest (ctx : PageContext) (f : PptFormData) : GenerateRequest :=
  {| gen_business_name :=
       match str_or_null (business_name ctx) with Some s => s | None => "My Business" end;
     gen_raw_idea :=
       match str_or_null (raw_idea ctx) with Some s => s | None => "A business idea" end;
     gen_tagline := str_or_null (tagline ctx);
     gen_problem := str_or_null (problem ctx);
     gen_target_audience := str_or_null (target_audience ctx);
     gen_location_city := str_or_null (location_city ctx);
     gen_country := str_or_null (country ctx);
     gen_budget := str_or_null (budget ctx);
     gen_business_type := str_or_null (business_type ctx);
     gen_competing_players := json_or_null (competing_players ctx);
     gen_market_cap_or_target_revenue := str_or_null (market_cap_or_target_revenue ctx);
     gen_undiscovered_addons := json_or_null (undiscovered_addons ctx);
     num_slides := parseInt (numberOfSlides f);
     duration_minutes := parseInt (timeRequired f) |}.

(** [handleCreatePresentation]: the new state, the new storage and the
    requests issued. *)
Definition handleCreatePresentation
  (ctx : PageContext) (st : DeckState) (store : Storage) (a : answer PresentationDeck)
  : DeckState * Storage * list GenerateRequest :=
  let (st1, valid) := validatePptForm st in
  if negb valid then (st1, store, [])
  else
    let req := generateRequest ctx (pptFormData st1) in
    match await_data "Failed to generate presentation" a with
    | Done data =>
        (mkDeckState (pptFormData st1) (pptErrors st1) false (Some data) 0
           (editPrompt st1) (isEditing st1) None,
         setItem "raw2ready_currentSlide" "0"
           (setItem "raw2ready_presentation" (JSON_stringify (deck_to_json data)) store),
         [req])
    | Throw err =>
        (mkDeckState (pptFormData st1) (pptErrors st1) false (presentation st1)
           (currentSlide st1) (editPrompt st1) (isEditing st1)
           (Some (catch_message GENERATE_UNREACHABLE err)),
         store, [req])
    end.

(** [handleEditPresentation]. *)
Definition handleEditPresentation
  (ctx : PageContext) (st : DeckState) (store : Storage) (a : answer PresentationDeck)
  : DeckState * Storage * list EditRequest :=
  match presentation st with
  | None => (st, store, [])
  | Some deck =>
      if negb (JsString.truthy (trim (editPrompt st))) then (st, store, [])
      else
        let req := mkEditRequest (slides deck) (editPrompt st) ctx in
        match await_data "Failed to edit presentation" a with
        | Done data =>
            (mkDeckState (pptFormData st) (pptErrors st) (isPptLoading st) (Some data)
               (currentSlide st) "" false None,
             setItem "raw2ready_presentation" (JSON_stringify (deck_to_json data)) store,
             [req])
        | Throw err =>
            (mkDeckState (pptFormData st) (pptErrors st) (isPptLoading st)
               (presentation st) (currentSlide st) (editPrompt st) false
               (Some (catch_message EDIT_UNREACHABLE err)),
             store, [req])
        end
  end.

Definition set_currentSlide (i : Z) (st : DeckState) : DeckState :=
  mkDeckState (pptFormData st) (pptErrors st) (isPptLoading st) (presentation st) i
    (editPrompt st) (isEditing st) (pptError st).

(** [goToSlide]. *)
Definition goToSlide (index : Z) (st : DeckState) (store : Storage)
  : DeckState * Storage :=
  (set_currentSlide index st,
   setItem "raw2ready_currentSlide" (Js.Z_to_string index) store).

(** [nextSlide]. *)
Definition nextSlide (st : DeckState) (store : Storage) : DeckState * Storage :=
  match presentation st with
  | Some deck =>
      if (currentSlide st <? Z.of_nat (length (slides deck)) - 1)%Z then
        let newSlide := (currentSlide st + 1)%Z in
        (set_currentSlide newSlide st,
         setItem "raw2ready_currentSlide" (Js.Z_to_string newSlide) store)
      else (st, store)
  | None => (st, store)
  end.

(** [prevSlide]. *)
Definition prevSlide (st : DeckState) (store : Storage) : DeckState * Storage :=
  if (currentSlide st >? 0)%Z then
    let newSlide := (currentSlide st - 1)%Z in
    (set_currentSlide newSlide st,
     setItem "raw2ready_currentSlide" (Js.Z_to_string newSlide) store)
  else (st, store).

(** [handleBackToCardSelection], and likewise the button that starts
    over: drop the deck and return to the first slide. *)
Definition handleBackToCardSelection (st : DeckState) (store : Storage) : DeckState * Storage :=
  (mkDeckState (pptFormData st) (pptErrors st) (isPptLoading st) None 0
     (editPrompt st) (isEditing st) (pptError st),
   delete "raw2ready_currentSlide" (delete "raw2ready_presentation" store)).

(** [presentation.slides[currentSlide]] in the viewer: [None] is
    [undefined], whose properties cannot be read. *)
Definition displayed_slide (st : DeckState) : option Slide :=
  match presentation st with
  | Some deck =>
      if (currentSlide st <? 0)%Z then None
      else slides deck !! Z.to_nat (currentSlide st)
  | None => None
  end.

(** [validateVideoForm]. *)
Definition validateVideoForm (st : VideoState) : VideoState * bool :=
  let f := videoFormData st in
  let newErrors : gmap string string := ∅ in
  let newErrors :=
    if negb (JsString.truthy (trim (videoTimeRequired f))) then
      <["timeRequired" := "Time required is mandatory"]> newErrors
    else if isNaN (videoTimeRequired f)
            || lt (parseFloat (videoTimeRequired f)) (of_Z 6)
            || gt (parseFloat (videoTimeRequired f)) (of_Z 10)
    then <["timeRequired" := "Please enter a valid time in seconds (6–10)"]> newErrors
    else newErrors in
  let newErrors :=
    if negb (JsString.truthy (trim (videoPrompt f)))
    then <["prompt" := "Video prompt is required"]> newErrors
    else newErrors in
  (mkVideoState f newErrors (isVideoLoading st) (generatedVideo st) (videoError st),
   Nat.eqb (size newErrors) 0).

(** The body literal of [handleGenerateVideo]. *)
Definition videoRequest (ctx : PageContext) (f : VideoFormData) : VideoRequest :=
  {| time := div_by (parseFloat (videoTimeRequired f)) 60;
     prompt := trim (videoPrompt f);
     vid_business_name := trimmed_or_null (business_name ctx);
     vid_raw_idea := trimmed_or_null (raw_idea ctx);
     vid_problem := trimmed_or_null (problem ctx);
     vid_target_audience := trimmed_or_null (target_audience ctx);
     vid_location_city := trimmed_or_null (location_city ctx);
     vid_country := trimmed_or_null (country ctx) |}.

(** [handleGenerateVideo]. *)
Definition handleGenerateVideo
  (ctx : PageContext) (st : VideoState) (store : Storage) (a : answer GeneratedVideo)
  : VideoState * Storage * list VideoRequest :=
  let (st1, valid) := validateVideoForm st in
  if negb valid then (st1, store, [])
  else
    let req := videoRequest ctx (videoFormData st1) in
    match await_data "Failed to generate video" a with
    | Done data =>
        (mkVideoState (videoFormData st1) (videoErrors st1) false (Some data) None,
         setItem "raw2ready_generatedVideo" (JSON_stringify (video_to_json data)) store,
         [req])
    | Throw err =>
        (mkVideoState (videoFormData st1) (videoErrors st1) false (generatedVideo st1)
           (Some (catch_message GENERATE_UNREACHABLE err)),
         store, [req])
    end.

End WithJson.

End PresentationPage.

(* ===================================================================== *)
(** ** A reference JSON codec *)
(* ===================================================================== *)

(** [stringify] follows [JSON.stringify] on every [json] value.  [parse]
    follows [JSON.parse] on the texts that denote an object whose
    properties are all strings, which is what the form page stores, and
    throws on every other text. *)
Module RefJson.

Definition dquote : ascii := "034"%char.
Definition backslash : ascii := "092"%char.

Definition hex_digit (n : N) : ascii :=
  if (n <? 10)%N then ascii_of_N (48 + n) else ascii_of_N (87 + n).

(** How [JSON.stringify] writes one character of a string. *)
Definition escape_char (c : ascii) : string :=
  let n := N_of_ascii c in
  if (n =? 34)%N then String backslash (String dquote EmptyString)
  else if (n =? 92)%N then String backslash (String backslash EmptyString)
  else if (n =? 8)%N then String backslash "b"
  else if (n =? 9)%N then String backslash "t"
  else if (n =? 10)%N then String backslash "n"
  else if (n =? 12)%N then String backslash "f"
  else if (n =? 13)%N then String backslash "r"
  else if (n <? 32)%N then
    String backslash
      (String "u" (String "0" (String "0"
         (String (hex_digit (n / 16)) (String (hex_digit (n mod 16)) EmptyString)))))
  else String c EmptyString.

Fixpoint escape (s : string) : string :=
  match s with
  | EmptyString => EmptyString
  | String c r => escape_char c ++ escape r
  end.

Definition quote (s : string) : string :=
  String dquote (escape s ++ String dquote EmptyString).

(** [JSON.stringify]. *)
Fixpoint stringify (v : json) : string :=
  match v with
  | JNull => "null"
  | JBool true => "true"
  | JBool false => "false"
  | JNum n => Js.Z_to_string n
  | JStr s => quote s
  | JArr items => "[" ++ Js.join "," (map stringify items) ++ "]"
  | JObj props =>
      "{" ++ Js.join "," (map (fun p => quote (fst p) ++ ":" ++ stringify (snd p)) props)
          ++ "}"
  end.

(** JSON white space: space, tab, line feed and carriage return. *)
Definition json_ws (c : ascii) : bool :=
  match N_of_ascii c with
  | 9%N | 10%N | 13%N | 32%N => true
  | _ => false
  end.

Fixpoint skip_ws (s : string) : string :=
  match s with
  | EmptyString => EmptyString
  | String c r => if json_ws c then skip_ws r else s
  end.

Definition hex_value (c : ascii) : option N :=
  let n := N_of_ascii c in
  if (48 <=? n)%N && (n <=? 57)%N then Some (n - 48)%N
  else if (97 <=? n)%N && (n <=? 102)%N then Some (n - 87)%N
  else if (65 <=? n)%N && (n <=? 70)%N then Some (n - 55)%N
  else None.

(** The character written [\uXXXX], when it fits a code unit of the
    model. *)
Definition unicode_escape (h1 h2 h3 h4 : ascii) : option ascii :=
  match hex_value h1, hex_value h2, hex_value h3, hex_value h4 with
  | Some a, Some b, Some c, Some d =>
      let n := (((a * 16 + b) * 16 + c) * 16 + d)%N in
      if (n <? 256)%N then Some (ascii_of_N n) else None
  | _, _, _, _ => None
  end.

(** The character written by a two-character escape. *)
Definition simple_escape (e : ascii) : option ascii :=
  match N_of_ascii e with
  | 34%N => Some dquote
  | 92%N => Some backslash
  | 47%N => Some "/"%char
  | 98%N => Some "008"%char
  | 102%N => Some "012"%char
  | 110%N => Some "010"%char
  | 114%N => Some "013"%char
  | 116%N => Some "009"%char
  | _ => None
  end.

Definition prepend (c : ascii) (r : option (string * string)) : option (string * string) :=
  match r with
  | Some (s, rest) => Some (String c s, rest)
  | None => None
  end.

(** Reads a string literal whose opening quote has been consumed: its
    content and what follows the closing quote. *)
Fixpoint read_string (s : string) : option (string * string) :=
  match s with
  | EmptyString => None
  | String c r =>
      if Ascii.eqb c dquote then Some (EmptyString, r)
      else if Ascii.eqb c backslash then
        match r with
        | String e r' =>
            match simple_escape e with
            | Some ch => prepend ch (read_string r')
            | None =>
                if Ascii.eqb e "u" then
                  match r' with
                  | String h1 (String h2 (String h3 (String h4 r''))) =>
                      match unicode_escape h1 h2 h3 h4 with
                      | Some ch => prepend ch (read_string r'')
                      | None => None
                      end
                  | _ => None
                  end
                else None
            end
        | EmptyString => None
        end
      else if (N_of_ascii c <? 32)%N then None
      else prepend c (read_string r)
  end.

(** Reads [key : string] members up to the closing brace. *)
Fixpoint read_members (fuel : nat) (s : string) : option (list (string * json) * string) :=
  match fuel with
  | O => None
  | S fuel' =>
      match skip_ws s with
      | String c r =>
          if Ascii.eqb c dquote then
            match read_string r with
            | Some (k, r1) =>
                match skip_ws r1 with
                | String ":" r2 =>
                    match skip_ws r2 with
                    | String q r3 =>
                        if Ascii.eqb q dquote then
                          match read_string r3 with
                          | Some (v, r4) =>
                              match skip_ws r4 with
                              | String "," r5 =>
                                  match read_members fuel' r5 with
                                  | Some (ms, rest) => Some ((k, JStr v) :: ms, rest)
                                  | None => None
                                  end
                              | String "}" r5 => Some ([(k, JStr v)], r5)
                              | _ => None
                              end
                          | None => None
                          end
                        else None
                    | EmptyString => None
                    end
                | _ => None
                end
            | None => None
            end
          else None
      | EmptyString => None
      end
  end.

(** Defining property [k]: an existing property keeps its place and takes
    the new value, a new one goes last. *)
Fixpoint set_prop (k : string) (v : json) (props : list (string * json))
  : list (string * json) :=
  match props with
  | [] => [(k, v)]
  | (k', v') :: rest =>
      if String.eqb k k' then (k, v) :: rest else (k', v') :: set_prop k v rest
  end.

(** The object built from members read in order. *)
Definition object_of (members : list (string * json)) : json :=
  JObj (fold_left (fun acc p => set_prop (fst p) (snd p) acc) members []).

(** The text [JSON.stringify] writes for one string property. *)
Definition member_text (p : string * string) : string :=
  quote (fst p) ++ ":" ++ quote (snd p).

Definition string_props (kvs : list (string * string)) : list (string * json) :=
  map (fun p => (fst p, JStr (snd p))) kvs.

Definition syntax_error : js_error := mkError "SyntaxError" "Unexpected token in JSON".

(** [JSON.parse] on object texts with string properties. *)
Definition parse (s : string) : outcome json :=
  match skip_ws s with
  | String "{" r =>
      match skip_ws r with
      | String "}" r' =>
          if String.eqb (skip_ws r') EmptyString then Done (JObj []) else Throw syntax_error
      | _ =>
          match read_members (String.length r) r with
          | Some (members, rest) =>
              if String.eqb (skip_ws rest) EmptyString then Done (object_of members)
              else Throw syntax_error
          | None => Throw syntax_error
          end
      end
  | _ => Throw syntax_error
  end.

(** What follows the literal [p] at the head of [s]. *)
Fixpoint after (p s : string) : option string :=
  match p, s with
  | EmptyString, _ => Some s
  | String a p', String b s' => if Ascii.eqb a b then after p' s' else None
  | String _ _, EmptyString => None
  end.

(** A number without fraction or exponent: an optional minus sign and
    digits, without a superfluous leading zero.  A fraction or an exponent
    is outside the numbers of the model and is not read. *)
Definition read_integer (s : string) : option (Z * string) :=
  let '(sign, t) :=
    match s with
    | String "-" r => ((-1)%Z, r)
    | _ => (1%Z, s)
    end in
  let (ds, rest) := JsNumber.span_digits 10 t in
  match ds with
  | [] => None
  | 0%Z :: _ :: _ => None
  | _ =>
      match rest with
      | String c _ =>
          if Ascii.eqb c "." || Ascii.eqb c "e" || Ascii.eqb c "E" then None
          else Some ((sign * JsNumber.value_of 10 ds)%Z, rest)
      | EmptyString => Some ((sign * JsNumber.value_of 10 ds)%Z, rest)
      end
  end.

(** Reads one value, the properties of an object up to its closing brace,
    and the elements of an array up to its closing bracket.  [fuel] bounds
    the number of nested calls. *)
Fixpoint read_value (fuel : nat) (s : string) : option (json * string) :=
  match fuel with
  | O => None
  | S fuel' =>
      match skip_ws s with
      | EmptyString => None
      | String c r =>
          if Ascii.eqb c dquote then
            match read_string r with
            | Some (v, rest) => Some (JStr v, rest)
            | None => None
            end
          else if Ascii.eqb c "{" then
            match skip_ws r with
            | String "}" r' => Some (JObj [], r')
            | _ =>
                match read_properties fuel' r with
                | Some (members, rest) => Some (object_of members, rest)
                | None => None
                end
            end
          else if Ascii.eqb c "[" then
            match skip_ws r with
            | String "]" r' => Some (JArr [], r')
            | _ =>
                match read_elements fuel' r with
                | Some (items, rest) => Some (JArr items, rest)
                | None => None
                end
            end
          else
            match after "true" (String c r) with
            | Some rest => Some (JBool true, rest)
            | None =>
                match after "false" (String c r) with
                | Some rest => Some (JBool false, rest)
                | None =>
                    match after "null" (String c r) with
                    | Some rest => Some (JNull, rest)
                    | None =>
                        match read_integer (String c r) with
                        | Some (n, rest) => Some (JNum n, rest)
                        | None => None
                        end
                    end
                end
            end
      end
  end
with read_properties (fuel : nat) (s : string)
  : option (list (string * json) * string) :=
  match fuel with
  | O => None
  | S fuel' =>
      match skip_ws s with
      | String c r =>
          if Ascii.eqb c dquote then
            match read_string r with
            | Some (k, r1) =>
                match skip_ws r1 with
                | String ":" r2 =>
                    match read_value fuel' r2 with
                    | Some (v, r3) =>
                        match skip_ws r3 with
                        | String "," r4 =>
                            match read_properties fuel' r4 with
                            | Some (ms, rest) => Some ((k, v) :: ms, rest)
                            | None => None
                            end
                        | String "}" r4 => Some ([(k, v)], r4)
                        | _ => None
                        end
                    | None => None
                    end
                | _ => None
                end
            | None => None
            end
          else None
      | EmptyString => None
      end
  end
with read_elements (fuel : nat) (s : string) : option (list json * string) :=
  match fuel with
  | O => None
  | S fuel' =>
      match read_value fuel' s with
      | Some (v, r1) =>
          match skip_ws r1 with
          | String "," r2 =>
              match read_elements fuel' r2 with
              | Some (items, rest) => Some (v :: items, rest)
              | None => None
              end
          | String "]" r2 => Some ([v], r2)
          | _ => None
          end
      | None => None
      end
  end.

(** [JSON.parse] on the texts whose numbers are integers: objects, arrays,
    strings, integers, [true], [false] and [null], nested as they come.
    Every nested call follows at least one character read or a call that
    reads one, so twice the length of the text is fuel enough. *)
Definition parse_json (s : string) : outcome json :=
  match read_value (2 * String.length s + 2) s with
  | Some (v, rest) =>
      if String.eqb (skip_ws rest) EmptyString then Done v else Throw syntax_error
  | None => Throw syntax_error
  end.

End RefJson.

(* ===================================================================== *)
(** ** Validation rules and sample forms *)
(* ===================================================================== *)

Module FormRules.

Import FormPage.

(** The five things the form requires, and the key each one uses in the
    [errors] object. *)
Inductive required : Type :=
| RCountry | RCity | RRawIdea | RTimeCommitment | RTerms.

Definition error_key (r : required) : string :=
  match r with
  | RCountry => "country"
  | RCity => "city"
  | RRawIdea => "rawIdea"
  | RTimeCommitment => "timeCommitment"
  | RTerms => "terms"
  end.

(** Nothing remains of [s] once surrounding white space is removed. *)
Definition blank (s : string) : Prop := trim s = "".

(** A required input is missing when it is empty or blank (the terms box:
    when it is not ticked). *)
Definition missing (st : State) (r : required) : Prop :=
  match r with
  | RCountry => blank (country (formData st))
  | RCity => blank (city (formData st))
  | RRawIdea => blank (rawIdea (formData st))
  | RTimeCommitment => blank (timeCommitment (formData st))
  | RTerms => termsAccepted st = false
  end.

(** Validation flags exactly the missing inputs: when something is
    missing the form is invalid, every missing input has an entry and no
    other input has one. *)
Definition flags_exactly_missing (countries : list string) (st : State) : Prop :=
  (exists r, missing st r) ->
  snd (validateForm countries st) = false /\
  forall r,
    (missing st r -> is_Some (errors (fst (validateForm countries st)) !! error_key r)) /\
    (~ missing st r -> errors (fst (validateForm countries st)) !! error_key r = None).

(** The rule the code applies to each required input: text inputs are
    compared after trimming, the time commitment as it is, and the country
    must moreover be an entry of the table. *)
Definition unmet (countries : list string) (st : State) (r : required) : Prop :=
  match r with
  | RCountry =>
      blank (country (formData st)) \/ ~ In (country (formData st)) countries
  | RCity => blank (city (formData st))
  | RRawIdea => blank (rawIdea (formData st))
  | RTimeCommitment => timeCommitment (formData st) = ""
  | RTerms => termsAccepted st = false
  end.

(** The texts [validateForm] can store. *)
Definition messages : list string :=
  ["Country is required"; "Please select a country from the dropdown";
   "City is required"; "Raw idea is required"; "Time commitment is required";
   "You must accept the terms and conditions"].

(** A form that passes validation against [sample_countries]. *)
Definition bakery : FormData :=
  mkFormData "" "Paris" "France" "" "" "" "organic bakery" "" "chatgpt-latest"
    "full-time" "" "" "".

Definition fresh (d : FormData) (terms : bool) : State :=
  mkState d terms ∅ false None.

(** The same form with a country that is not in the table and no city. *)
Definition atlantis_no_city : State :=
  fresh (set_field City "" (set_field Country "Atlantis" bakery)) true.

(** The same form with a country that is not in the table. *)
Definition atlantis : State := fresh (set_field Country "Atlantis" bakery) true.

(** The same form with a time commitment of one space. *)
Definition blank_commitment : State :=
  fresh (set_field TimeCommitment " " bakery) true.

(** The same form with a country of one space. *)
Definition blank_country : State := fresh (set_field Country " " bakery) true.


(** The inputs whose request property may be absent, with what was typed
    and what is sent for each. *)
Inductive optional_input : Type :=
| OTargetAudience | OBudget | OBusinessType | OProblem
| OTimeCommitment | OOutputTone | OStageOfIdea | OTimeHorizon.

Definition typed (o : optional_input) (d : FormData) : string :=
  match o with
  | OTargetAudience => targetAudience d
  | OBudget => budget d
  | OBusinessType => businessType d
  | OProblem => problem d
  | OTimeCommitment => timeCommitment d
  | OOutputTone => outputTone d
  | OStageOfIdea => stageOfIdea d
  | OTimeHorizon => timeHorizon d
  end.

Definition sent (o : optional_input) (req : AnalyzeRequest) : option string :=
  match o with
  | OTargetAudience => req_target_audience req
  | OBudget => req_budget req
  | OBusinessType => req_business_type req
  | OProblem => req_problem req
  | OTimeCommitment => req_time_commitment req
  | OOutputTone => req_output_tone req
  | OStageOfIdea => req_stage_of_idea req
  | OTimeHorizon => req_time_horizon req
  end.

(** Inputs the user types into; the others are drop-down lists. *)
Definition free_text (o : optional_input) : bool :=
  match o with
  | OTargetAudience | OBudget | OProblem => true
  | _ => false
  end.

(** The request of a valid form carries the trimmed name or the default,
    and [null] for every optional input that is blank. *)
Definition request_nulls_every_blank (countries : list string) (st : State) (r : reply)
  : Prop :=
  snd (validateForm countries st) = true ->
  exists req,
    requests (snd (handleSubmit countries st r)) = [req] /\
    (blank (businessName (formData st)) -> req_business_name req = "My Business") /\
    (~ blank (businessName (formData st)) ->
       req_business_name req = trim (businessName (formData st))) /\
    forall o, blank (typed o (formData st)) -> sent o req = None.

(** The same form with a business type of one space. *)
Definition blank_business_type : State :=
  fresh (set_field BusinessType " " bakery) true.

(** On success the context is named by the suggested name itself whenever
    the response carries one that is not blank. *)
Definition context_takes_suggested_name
  (countries : list string) (st : State) (status : Z) (data : json) : Prop :=
  snd (validateForm countries st) = true ->
  Js.ok status = true ->
  forall s,
    Js.prop data "suggested_business_name" = Done (Some (JStr s)) ->
    ~ blank s ->
    exists ctx,
      navigated (snd (handleSubmit countries st (Response status (Some data))))
        = Some (data, ctx) /\
      ctx_business_name ctx = s.

(** An analysis whose suggested name is padded with spaces. *)
Definition padded_suggestion : json :=
  JObj [("competing_players", JArr []);
        ("suggested_business_name", JStr " Acme ")].

(** An analysis without a suggested name or a disclaimer. *)
Definition plain_analysis : json :=
  JObj [("competing_players", JArr []);
        ("market_cap_or_target_revenue", JStr "unknown")].

(** The body of a 422 reply of the back end: [detail] is a list of
    sub-errors. *)
Definition validation_failure : json :=
  JObj [("detail",
         JArr [JObj [("loc", JArr [JStr "body"; JStr "country"]);
                     ("msg", JStr "field required");
                     ("type", JStr "value_error.missing")]])].

(** The body of the 500 reply of the spec's scenario. *)
Definition rate_limited : json := JObj [("detail", JStr "rate limited")].

(** The stored value under [key] is of no use: there is none, or
    [JSON.parse] throws on it. *)
Definition unusable (JSON_parse : string -> outcome json) (store : Storage) (key : string)
  : Prop :=
  getItem store key = None \/
  exists s e, getItem store key = Some s /\ JSON_parse s = Throw e.

(** A store whose form snapshot was cut short. *)
Definition corrupted_store : Storage :=
  {[ "raw2ready_formData" := "{not json" ]}.

End FormRules.

(* ===================================================================== *)
(** ** Slide decks: the index invariant and sample decks *)
(* ===================================================================== *)

Module DeckRules.

Import PresentationPage.

(** The index designates a slide of the deck on display. *)
Definition in_range (st : DeckState) : Prop :=
  match presentation st with
  | Some deck => (0 <= currentSlide st < Z.of_nat (length (slides deck)))%Z
  | None => True
  end.

Definition sample_slide (n : nat) : Slide :=
  mkSlide (Z.of_nat n) "Slide" None ["point"] None None.

(** A deck of [n] slides numbered from one. *)
Definition deck_of (n : nat) : PresentationDeck :=
  mkDeck "Pitch" None 5 (map sample_slide (seq 1 n)).

Definition no_context : PageContext :=
  mkPageContext None None None None None None None None None None None None.

(** The state of a first visit: ten slides and five minutes proposed. *)
Definition first_visit : DeckState :=
  mkDeckState (mkPptFormData "10" "5") ∅ false None 0 "" false None.

(** [setEditPrompt], the [onChange] of the edit box. *)
Definition setEditPrompt (text : string) (st : DeckState) : DeckState :=
  mkDeckState (pptFormData st) (pptErrors st) (isPptLoading st) (presentation st)
    (currentSlide st) text (isEditing st) (pptError st).

(** A session: generate a deck of ten slides, go to the last one, then
    ask for an edit that the server answers with a deck of five. *)
Definition shrinking_session : DeckState * Storage :=
  let '(st1, store1, _) :=
    handleCreatePresentation RefJson.stringify no_context first_visit ∅
      (Accepted (deck_of 10)) in
  let (st2, store2) := goToSlide 9 st1 store1 in
  let '(st3, store3, _) :=
    handleEditPresentation RefJson.stringify no_context
      (setEditPrompt "keep the five key slides" st2) store2 (Accepted (deck_of 5)) in
  (st3, store3).

End DeckRules.

(* ===================================================================== *)
(** ** Decimal numerals and the generation rules *)
(* ===================================================================== *)

Module NumberRules.

Import JsNumber PresentationPage.

Definition is_decimal_digit (c : ascii) : bool :=
  let n := Z.of_N (N_of_ascii c) in (48 <=? n)%Z && (n <=? 57)%Z.

Fixpoint all_digits (s : string) : bool :=
  match s with
  | EmptyString => true
  | String c r => is_decimal_digit c && all_digits r
  end.

Definition digit (c : ascii) : Z := (Z.of_N (N_of_ascii c) - 48)%Z.

Fixpoint digit_list (s : string) : list Z :=
  match s with
  | EmptyString => []
  | String c r => digit c :: digit_list r
  end.

(** The integer written by a string of decimal digits. *)
Definition int_value (s : string) : Z := value_of 10 (digit_list s).

(** A decimal numeral: at least one digit, then possibly a point and
    further digits. *)
Definition numeral (ip : string) (fp : option string) : string :=
  match fp with
  | Some f => ip ++ String "." f
  | None => ip
  end.

Definition is_numeral (ip : string) (fp : option string) : Prop :=
  all_digits ip = true /\ ip <> EmptyString /\
  match fp with Some f => all_digits f = true | None => True end.

(** The number a numeral denotes: all its digits read as one integer,
    shifted right by the number of digits after the point. *)
Definition numeral_value (ip : string) (fp : option string) : Q :=
  match fp with
  | Some f => scaled (int_value (ip ++ f)) (- Z.of_nat (String.length f))
  | None => scaled (int_value ip) 0
  end.

(** [x] is an integer between [lo] and [hi]. *)
Definition integer_between (lo hi : Z) (x : number) : Prop :=
  match x with
  | Fin q => exists n : Z, (q == inject_Z n)%Q /\ (lo <= n <= hi)%Z
  | _ => False
  end.

(** [x] is a number between [lo] and [hi]. *)
Definition between (lo hi : Z) (x : number) : Prop :=
  match x with
  | Fin q => (inject_Z lo <= q)%Q /\ (q <= inject_Z hi)%Q
  | _ => False
  end.

(** Generation is attempted exactly when the slide count typed is an
    integer from 5 to 15 and the duration typed is from 3 to 15. *)
Definition generation_gated_by_bounds
  (stringify : json -> string) (ctx : PageContext) (st : DeckState) (store : Storage)
  (a : answer PresentationDeck) : Prop :=
  snd (handleCreatePresentation stringify ctx st store a) <> [] <->
  integer_between 5 15 (ToNumber (numberOfSlides (pptFormData st))) /\
  between 3 15 (ToNumber (timeRequired (pptFormData st))).

(** The rules for a video: a duration from 6 to 10 seconds and a prompt
    that is not empty. *)
Definition video_rules (f : VideoFormData) : Prop :=
  between 6 10 (ToNumber (videoTimeRequired f)) /\ videoPrompt f <> EmptyString.

(** The slide count passes the check of [validatePptForm]: it is not
    blank, [Number] reads it as a number, and [parseInt] finds in it
    either no digits at all or an integer from 5 to 15. *)
Definition slide_count_passes (s : string) : Prop :=
  ~ FormRules.blank s /\ isNaN s = false /\
  (parseInt s = NaN \/ integer_between 5 15 (parseInt s)).

(** The duration passes the check: it is not blank, [Number] reads it as
    a number, and [parseFloat] reads a number from 3 to 15. *)
Definition duration_passes (t : string) : Prop :=
  ~ FormRules.blank t /\ isNaN t = false /\ between 3 15 (parseFloat t).

(** The number of digits of a numeral.  A numeral of at most fifteen
    digits differs from 3, 5 and 15, when it does, by more than the
    rounding of [Number], [parseInt] and [parseFloat] can move it, so the
    comparisons made on the exact value are those the code makes. *)
Definition digits (ip : string) (fp : option string) : nat :=
  String.length ip + match fp with Some f => String.length f | None => 0 end.

(** Five and a half slides in five minutes. *)
Definition five_and_a_half : DeckState :=
  mkDeckState (mkPptFormData "5.5" "5") ∅ false None 0 "" false None.

(** A video of three seconds. *)
Definition three_seconds : VideoState :=
  mkVideoState (mkVideoFormData "3" "team in the office") ∅ false None None.

(** A video of eight seconds. *)
Definition eight_seconds : VideoState :=
  mkVideoState (mkVideoFormData "8" "team in the office") ∅ false None None.

End NumberRules.

(* ===================================================================== *)
(** ** The persisted slide index *)
(* ===================================================================== *)

Module SlideStore.

Import JsNumber PresentationPage.

(** [parseInt(s, 10)]: an optional sign, then decimal digits up to the
    first character that is not one; no radix prefix is recognised. *)
Definition parseInt10 (s : string) : number :=
  let t := trimStart s in
  let '(sign, t1) :=
    match t with
    | String "+" r => (1%Z, r)
    | String "-" r => ((-1)%Z, r)
    | _ => (1%Z, t)
    end in
  let (ds, _) := span_digits 10 t1 in
  if is_nil ds then NaN else of_Z (sign * value_of 10 ds).

(** The initialiser of the [currentSlide] cell: the stored index read
    with [parseInt(saved, 10)], or zero when nothing is stored. *)
Definition initialSlide (store : Storage) : number :=
  let saved := getItem store "raw2ready_currentSlide" in
  if saved_truthy saved then parseInt10 (default "" saved) else of_Z 0.

(** What a reload would show is what is shown now. *)
Definition synced (st : DeckState) (store : Storage) : Prop :=
  initialSlide store = of_Z (currentSlide st).

(** The navigation controls of the viewer: the two arrows, and the
    indicator or thumbnail at a position. *)
Inductive control : Type :=
| Next
| Prev
| Thumbnail (index : nat).

Definition press (c : control) (s : DeckState * Storage) : DeckState * Storage :=
  match c with
  | Next => nextSlide (fst s) (snd s)
  | Prev => prevSlide (fst s) (snd s)
  | Thumbnail index => goToSlide (Z.of_nat index) (fst s) (snd s)
  end.

(** Pressing controls one after the other. *)
Definition press_all (cs : list control) (s : DeckState * Storage)
  : DeckState * Storage :=
  fold_left (fun s c => press c s) cs s.

(** The viewer draws one indicator and one thumbnail per slide, so only
    positions of the deck can be pressed. *)
Definition offered (deck : PresentationDeck) (c : control) : Prop :=
  match c with
  | Thumbnail index => (index < length (slides deck))%nat
  | _ => True
  end.

End SlideStore.

(* ===================================================================== *)
(** ** The configuration forms of the presentation page *)
(* ===================================================================== *)

Module PresentationForms.

Import PresentationPage.

(** The [name] attributes of the inputs of the slide-deck form. *)
Inductive ppt_field : Type := NumberOfSlides | TimeRequired.

Definition ppt_field_name (f : ppt_field) : string :=
  match f with
  | NumberOfSlides => "numberOfSlides"
  | TimeRequired => "timeRequired"
  end.

Definition set_ppt_field (f : ppt_field) (v : string) (d : PptFormData) : PptFormData :=
  match f with
  | NumberOfSlides => mkPptFormData v (timeRequired d)
  | TimeRequired => mkPptFormData (numberOfSlides d) v
  end.

Definition pptFormData_to_json (d : PptFormData) : json :=
  JObj [("numberOfSlides", JStr (numberOfSlides d));
        ("timeRequired", JStr (timeRequired d))].

(** The [name] attributes of the inputs of the video form. *)
Inductive video_field : Type := VideoTimeRequired | VideoPrompt.

Definition video_field_name (f : video_field) : string :=
  match f with
  | VideoTimeRequired => "timeRequired"
  | VideoPrompt => "prompt"
  end.

Definition set_video_field (f : video_field) (v : string) (d : VideoFormData)
  : VideoFormData :=
  match f with
  | VideoTimeRequired => mkVideoFormData v (videoPrompt d)
  | VideoPrompt => mkVideoFormData (videoTimeRequired d) v
  end.

Definition videoFormData_to_json (d : VideoFormData) : json :=
  JObj [("timeRequired", JStr (videoTimeRequired d));
        ("prompt", JStr (videoPrompt d))].

Section WithJson.

Variable JSON_stringify : json -> string.
Variable JSON_parse : string -> outcome json.

(** The shape shared by [loadSavedPptData] and [loadSavedVideoData]: the
    value parsed from [key], or the default literal. *)
Definition loadSavedOr (fallback : json) (key : string) (store : Storage) : outcome json :=
  let saved := getItem store key in
  let* early :=
    if saved_truthy saved then
      try_catch
        (let* parsed := JSON_parse (default "" saved) in Done (Some parsed))
        (fun e => (* console.error *) Done None)
    else Done None in
  match early with
  | Some parsed => Done parsed
  | None => Done fallback
  end.

(** [loadSavedPptData]. *)
Definition loadSavedPptData (store : Storage) : outcome json :=
  loadSavedOr (pptFormData_to_json (mkPptFormData "10" "5")) "raw2ready_pptFormData" store.

(** [loadSavedVideoData]. *)
Definition loadSavedVideoData (store : Storage) : outcome json :=
  loadSavedOr (videoFormData_to_json (mkVideoFormData "" "")) "raw2ready_videoFormData"
    store.

(** [handlePptChange]. *)
Definition handlePptChange (name : ppt_field) (value : string) (st : DeckState)
  (store : Storage) : DeckState * Storage :=
  let updated := set_ppt_field name value (pptFormData st) in
  let store' :=
    setItem "raw2ready_pptFormData" (JSON_stringify (pptFormData_to_json updated)) store in
  let errors' :=
    if FormPage.has_error (pptErrors st) (ppt_field_name name)
    then <[ppt_field_name name := ""]> (pptErrors st) else pptErrors st in
  (mkDeckState updated errors' (isPptLoading st) (presentation st) (currentSlide st)
     (editPrompt st) (isEditing st) (pptError st),
   store').

(** [handleVideoChange]. *)
Definition handleVideoChange (name : video_field) (value : string) (st : VideoState)
  (store : Storage) : VideoState * Storage :=
  let updated := set_video_field name value (videoFormData st) in
  let store' :=
    setItem "raw2ready_videoFormData" (JSON_stringify (videoFormData_to_json updated))
      store in
  let errors' :=
    if FormPage.has_error (videoErrors st) (video_field_name name)
    then <[video_field_name name := ""]> (videoErrors st) else videoErrors st in
  (mkVideoState updated errors' (isVideoLoading st) (generatedVideo st) (videoError st),
   store').

End WithJson.

End PresentationForms.

(* ===================================================================== *)
(** ** Exporting the deck ([handleDownloadPptx]) *)
(* ===================================================================== *)

Module PptxExport.

Import PresentationPage.

(** Body posted to [/api/presentation/export-pptx]. *)
Record ExportRequest : Type := mkExportRequest {
  exp_slides : list Slide;
  exp_total_duration_minutes : Z;
  exp_presentation_title : string;
  exp_generated_tagline : option string;
  exp_business_name : option string
}.

(** The character class of the header pattern: anything but a double
    quote, a semicolon and a line feed. *)
Definition name_char (c : ascii) : bool :=
  negb (Ascii.eqb c RefJson.dquote || Ascii.eqb c ";" || Ascii.eqb c "010").

(** The longest run of [name_char]s at the head of [s]. *)
Fixpoint take_name (s : string) : string :=
  match s with
  | EmptyString => EmptyString
  | String c r => if name_char c then String c (take_name r) else EmptyString
  end.

(** What follows [p] when [s] starts with [p]. *)
Fixpoint strip_prefix (p s : string) : option string :=
  match p, s with
  | EmptyString, _ => Some s
  | String a p', String b s' => if Ascii.eqb a b then strip_prefix p' s' else None
  | String _ _, EmptyString => None
  end.

(** The first capture of the leftmost match of the header pattern in
    [s].  The pattern is the text [filename=], an optional double quote, a
    captured run of one or more characters of the class above, and an
    optional double quote: after [filename=], one double quote is skipped
    if there is one, and the run of name characters that follows must not
    be empty; otherwise the search goes on further right. *)
Fixpoint filename_match (s : string) : option string :=
  match s with
  | EmptyString => None
  | String c r =>
      match strip_prefix "filename=" s with
      | Some rest =>
          let unquoted :=
            match rest with
            | String q r' => if Ascii.eqb q RefJson.dquote then r' else rest
            | EmptyString => rest
            end in
          let name := take_name unquoted in
          if String.eqb name EmptyString then filename_match r else Some name
      | None => filename_match r
      end
  end.

(** The name the file is saved under, from the [Content-Disposition]
    header ([None] when the response has none). *)
Definition export_filename (disposition : option string) : string :=
  match disposition with
  | Some header =>
      match filename_match header with
      | Some name => name
      | None => "presentation.pptx"
      end
  | None => "presentation.pptx"
  end.

Definition exportRequest (ctx : PageContext) (deck : PresentationDeck) : ExportRequest :=
  {| exp_slides := slides deck;
     exp_total_duration_minutes := total_duration_minutes deck;
     exp_presentation_title := presentation_title deck;
     exp_generated_tagline := generated_tagline deck;
     exp_business_name := business_name ctx |}.

(** [handleDownloadPptx]: the new state, the requests issued and the name
    of the file saved, if one was.  A successful response is represented
    by its [Content-Disposition] header. *)
Definition handleDownloadPptx
  (ctx : PageContext) (st : DeckState) (a : answer (option string))
  : DeckState * list ExportRequest * option string :=
  match presentation st with
  | None => (st, [], None)
  | Some deck =>
      if JsNumber.is_nil (slides deck) then (st, [], None)
      else
        let req := exportRequest ctx deck in
        match await_data "Failed to export PPTX" a with
        | Done disposition =>
            (mkDeckState (pptFormData st) (pptErrors st) (isPptLoading st)
               (presentation st) (currentSlide st) (editPrompt st) (isEditing st) None,
             [req], Some (export_filename disposition))
        | Throw err =>
            (mkDeckState (pptFormData st) (pptErrors st) (isPptLoading st)
               (presentation st) (currentSlide st) (editPrompt st) (isEditing st)
               (Some (catch_message EDIT_UNREACHABLE err)),
             [req], None)
        end
  end.

End PptxExport.

(* ===================================================================== *)
(** ** The results page ([ResultsPage.jsx]) *)
(* ===================================================================== *)

Module ResultsPage.

Import PresentationPage.

(** The fields of the analysis that the page forwards. *)
Record Analysis : Type := mkAnalysis {
  an_competing_players : option json;
  an_market_cap_or_target_revenue : option string;
  an_undiscovered_addons : option json
}.

(** [openCard]: the [expandedCard] cell takes the card's id. *)
Definition openCard (cardId : string) (expandedCard : option string) : option string :=
  Some cardId.

(** [closeCard]. *)
Definition closeCard (expandedCard : option string) : option string := None.

(** [handleOverlayClick]: closes only when the click landed on the
    backdrop itself. *)
Definition handleOverlayClick (on_backdrop : bool) (expandedCard : option string)
  : option string :=
  if on_backdrop then closeCard expandedCard else expandedCard.

(** The id given to the card of the competitor at [index]. *)
Definition competitor_card (index : nat) : string :=
  "competitor-" ++ Js.Z_to_string (Z.of_nat index).

(** [s.split(sep)] for a one-character separator: the pieces between
    occurrences, the first piece being accumulated in [piece]. *)
Fixpoint split_from (sep : ascii) (piece : string) (s : string) : list string :=
  match s with
  | EmptyString => [piece]
  | String c r =>
      if Ascii.eqb c sep then piece :: split_from sep EmptyString r
      else split_from sep (piece ++ String c EmptyString) r
  end.

Definition split (sep : ascii) (s : string) : list string :=
  split_from sep EmptyString s.

(** [array[n]] for a number [n]: only a non-negative integer designates
    an element. *)
Definition at_number {A : Type} (l : list A) (n : JsNumber.number) : option A :=
  match n with
  | JsNumber.Fin q =>
      if Pos.eqb (Qden q) 1 && (0 <=? Qnum q)%Z then l !! Z.to_nat (Qnum q) else None
  | _ => None
  end.

(** The competitor shown in the modal:
    [data.competing_players[parseInt(expandedCard.split('-')[1])]] when
    the expanded card's id starts with [competitor-]. *)
Definition expanded_competitor (players : list json) (expandedCard : option string)
  : option json :=
  match expandedCard with
  | Some id =>
      if String.prefix "competitor-" id then
        match split "-" id with
        | _ :: second :: _ => at_number players (JsNumber.parseInt second)
        | _ => None
        end
      else None
  | None => None
  end.

(** The [businessContext] of the page: the one received from the form
    page, or the literal used when the page is opened without one. *)
Definition received (nav : option FormPage.BusinessContext) : PageContext :=
  match nav with
  | Some c =>
      mkPageContext (Some (FormPage.ctx_business_name c)) (Some (FormPage.ctx_raw_idea c))
        None (FormPage.ctx_problem c) (FormPage.ctx_target_audience c)
        (FormPage.ctx_location_city c) (FormPage.ctx_country c) (FormPage.ctx_budget c)
        (FormPage.ctx_business_type c) None None None
  | None =>
      mkPageContext (Some "My Business") (Some "A great business idea") None
        (Some "") (Some "") (Some "") (Some "") (Some "") (Some "") None None None
  end.

(** The state object built by the handler of the "Create Presentation"
    button: the page's context with the three fields taken from the
    analysis, each with the default written in the handler.  The button
    is there only once the page has been drawn ([render] below), which
    needs the list of competitors, so the default of that field is never
    the one used. *)
Definition forward (ctx : PageContext) (data : Analysis) : PageContext :=
  mkPageContext (business_name ctx) (raw_idea ctx) (tagline ctx) (problem ctx)
    (target_audience ctx) (location_city ctx) (country ctx) (budget ctx)
    (business_type ctx)
    (Some (match json_or_null (an_competing_players data) with
           | Some v => v | None => JArr [] end))
    (Some (match str_or_null (an_market_cap_or_target_revenue data) with
           | Some s => s | None => "" end))
    (Some (match json_or_null (an_undiscovered_addons data) with
           | Some v => v | None => JArr [] end)).

(** Whether React draws [v] as a child: a plain object is refused, an
    array is drawn element by element, anything else is text or nothing. *)
Fixpoint renderable (v : json) : bool :=
  match v with
  | JObj _ => false
  | JArr items => forallb renderable items
  | _ => true
  end.

Definition renderable_or_absent (v : option json) : bool :=
  match v with
  | Some x => renderable x
  | None => true
  end.

(** What drawing the page with no card expanded reads of [data].
    [Done None] is the loading view shown while [data] is falsy;
    [Done (Some competitors)] is the page with its cards and the "Create
    Presentation" button, [competitors] being the list mapped to cards.
    Mapping throws a [TypeError] when [data.competing_players] is not an
    array or holds a [null]; a disclaimer or a competitor name that is a
    plain object makes React refuse the page. *)
Definition render (data : json) : outcome (option (list json)) :=
  if negb (Js.truthy (Some data)) then Done None
  else
    let* disclaimer := Js.prop data "disclaimer" in
    let* players := Js.prop data "competing_players" in
    match players with
    | Some (JArr competitors) =>
        let* names := Api.mapM (fun competitor => Js.prop competitor "name") competitors in
        if (negb (Js.truthy disclaimer) || renderable_or_absent disclaimer)
           && forallb renderable_or_absent names
        then Done (Some competitors)
        else Throw (mkError "Error" "Objects are not valid as a React child")
    | Some JNull | None =>
        Throw (mkError "TypeError" "Cannot read properties of undefined")
    | Some _ => Throw (mkError "TypeError" "map is not a function")
    end.

(** The three fields the handler of the button reads of [data], when the
    market size is a text or is missing, as the page context types it. *)
Definition analysis_of (data : json) : option Analysis :=
  match Js.prop data "competing_players",
        Js.prop data "market_cap_or_target_revenue",
        Js.prop data "undiscovered_addons" with
  | Done players, Done market, Done addons =>
      match market with
      | None | Some JNull => Some (mkAnalysis players None addons)
      | Some (JStr text) => Some (mkAnalysis players (Some text) addons)
      | Some _ => None
      end
  | _, _, _ => None
  end.

End ResultsPage.

(* ===================================================================== *)
(** ** File attachments (the form variant kept in [ResultsPage.jsx]) *)
(* ===================================================================== *)

Module Attachments.

(** An attached file: its name, and what reading it as text gives
    ([None] when the reader reports an error). *)
Record File : Type := mkFile {
  name : string;
  result : option string
}.

(** [toLowerCase] on the letters [A]-[Z]; the other characters stay. *)
Definition lower (c : ascii) : ascii :=
  let n := N_of_ascii c in
  if (65 <=? n)%N && (n <=? 90)%N then ascii_of_N (n + 32) else c.

Fixpoint toLowerCase (s : string) : string :=
  match s with
  | EmptyString => EmptyString
  | String c r => String (lower c) (toLowerCase r)
  end.

(** [s.endsWith(suffix)]: some tail of [s] is [suffix]. *)
Fixpoint endsWith (s suffix : string) : bool :=
  String.eqb s suffix
  || match s with
     | String _ r => endsWith r suffix
     | EmptyString => false
     end.

Definition textExtensions : list string := [".txt"; ".md"; ".csv"].

(** The predicate given to [find] in [readFileContent]. *)
Definition is_text (f : File) : bool :=
  existsb (fun ext => endsWith (toLowerCase (name f)) ext) textExtensions.

(** [readFileContent]: the text of the first attachment with a text
    extension, [None] ([null]) when there is none or it cannot be read. *)
Definition readFileContent (files : list File) : option string :=
  if JsNumber.is_nil files then None
  else
    match find is_text files with
    | Some textFile => result textFile
    | None => None
    end.

(** The [file_content] property of the request: [fileContent || null]. *)
Definition file_content (files : list File) : option string :=
  match readFileContent files with
  | Some text => JsString.or_null text
  | None => None
  end.

(** [validateForm] of this variant: the tests of the form page without
    the membership test on the country.  It reads the inputs and the terms
    flag, which both variants keep in the same cells. *)
Definition validateForm (st : FormPage.State) : FormPage.State * bool :=
  let d := FormPage.formData st in
  let newErrors : gmap string string := ∅ in
  let newErrors :=
    if negb (JsString.truthy (JsString.trim (FormPage.country d)))
    then <["country" := "Country is required"]> newErrors else newErrors in
  let newErrors :=
    if negb (JsString.truthy (JsString.trim (FormPage.city d)))
    then <["city" := "City is required"]> newErrors else newErrors in
  let newErrors :=
    if negb (JsString.truthy (JsString.trim (FormPage.rawIdea d)))
    then <["rawIdea" := "Raw idea is required"]> newErrors else newErrors in
  let newErrors :=
    if negb (JsString.truthy (FormPage.timeCommitment d))
    then <["timeCommitment" := "Time commitment is required"]> newErrors
    else newErrors in
  let newErrors :=
    if negb (FormPage.termsAccepted st)
    then <["terms" := "You must accept the terms and conditions"]> newErrors
    else newErrors in
  (FormPage.set_errors newErrors st, Nat.eqb (size newErrors) 0).

(** [handleChange] for a file input: the chosen files are appended. *)
Definition addFiles (fileArray attachments : list File) : list File :=
  attachments ++ fileArray.

(** [l.filter((_, i) => keep i)], the positions counted from [i]. *)
Fixpoint filter_index {A : Type} (keep : nat -> bool) (i : nat) (l : list A) : list A :=
  match l with
  | [] => []
  | x :: r => if keep i then x :: filter_index keep (S i) r else filter_index keep (S i) r
  end.

(** [handleRemoveFile]. *)
Definition handleRemoveFile (index : nat) (attachments : list File) : list File :=
  filter_index (fun i => negb (Nat.eqb i index)) 0 attachments.

(** The own enumerable properties copied by [{...v}]: those of an
    object, the indexed elements of an array, the indexed characters of a
    string, and none for any other value. *)
Fixpoint indexed {A : Type} (i : nat) (l : list A) : list (string * A) :=
  match l with
  | [] => []
  | x :: r => (Js.Z_to_string (Z.of_nat i), x) :: indexed (S i) r
  end.

Definition spread (v : json) : list (string * json) :=
  match v with
  | JObj props => props
  | JArr items => indexed 0 items
  | JStr s => indexed 0 (map (fun c => JStr (String c EmptyString)) (list_ascii_of_string s))
  | _ => []
  end.

(** A property written after a spread in an object literal: it replaces
    the value of that key, or is added at the end. *)
Fixpoint set_prop (k : string) (v : json) (props : list (string * json))
  : list (string * json) :=
  match props with
  | [] => [(k, v)]
  | (k', v') :: r =>
      if String.eqb k k' then (k', v) :: r else (k', v') :: set_prop k v r
  end.

(** The default literal of this variant of the form. *)
Definition defaultFormData : json :=
  JObj [("businessName", JStr ""); ("city", JStr ""); ("country", JStr "");
        ("targetAudience", JStr ""); ("budget", JStr ""); ("businessType", JStr "");
        ("rawIdea", JStr ""); ("problem", JStr ""); ("fileAttachments", JArr []);
        ("model", JStr "chatgpt-latest"); ("timeCommitment", JStr "");
        ("outputTone", JStr ""); ("language", JStr ""); ("stageOfIdea", JStr "");
        ("timeHorizon", JStr "")].

Section WithJson.

Variable JSON_parse : string -> outcome json.

(** [loadSavedFormData] of this variant: the parsed object with its
    attachments emptied, or the default literal. *)
Definition loadSavedFormData (store : Storage) : outcome json :=
  let saved := getItem store "raw2ready_formData" in
  let* early :=
    if saved_truthy saved then
      try_catch
        (let* parsed := JSON_parse (default "" saved) in
         Done (Some (JObj (set_prop "fileAttachments" (JArr []) (spread parsed)))))
        (fun e => (* console.error *) Done None)
    else Done None in
  match early with
  | Some restored => Done restored
  | None => Done defaultFormData
  end.

End WithJson.

End Attachments.

(* ===================================================================== *)
(** ** The first render of the presentation page *)
(* ===================================================================== *)

Module Startup.

Import JsNumber PresentationPage.

(** [v.length === 0]: the length of an array or of a string, or an own
    property of that name. *)
Definition length_is_zero (v : json) : bool :=
  match v with
  | JArr items => is_nil items
  | JStr s => String.eqb s EmptyString
  | JObj props =>
      match Js.assoc "length" props with
      | Some (JNum 0) => true
      | _ => false
      end
  | _ => false
  end.

(** The property key a number is turned into.  From ten to the power
    twenty-one on, the engine writes an exponent; such a key, like that of
    a number that is no integer, is none that [parseInt] leads to for a
    position of a list, and is left out. *)
Definition index_key (n : number) : option string :=
  match n with
  | NaN => Some "NaN"
  | PosInf => Some "Infinity"
  | NegInf => Some "-Infinity"
  | Fin q =>
      if Pos.eqb (Qden q) 1 && (Z.abs (Qnum q) <? 10 ^ 21)%Z
      then Some (Js.Z_to_string (Qnum q)) else None
  end.

(** [v[n]] for a number [n]: an element of an array, a character of a
    string, the property of an object under the key of [n], otherwise
    [undefined]. *)
Definition element (v : json) (n : number) : option json :=
  match v with
  | JArr items => ResultsPage.at_number items n
  | JStr s =>
      match ResultsPage.at_number (list_ascii_of_string s) n with
      | Some c => Some (JStr (String c EmptyString))
      | None => None
      end
  | JObj props =>
      match index_key n with
      | Some key => Js.assoc key props
      | None => None
      end
  | _ => None
  end.

(** The main render logic and [renderPresentationViewer], from the test
    [presentation && presentation.slides] to the first property read of
    the slide on display: [Done None] when the viewer is not drawn,
    [Done (Some slide)] when the slide is there to be read, and the
    [TypeError] of reading [slide.slide_number] when
    [presentation.slides[currentSlide]] is [undefined] or [null].  What
    the viewer reads of the slide after that is not followed here. *)
Definition shown_slide (presentation : json) (currentSlide : number)
  : outcome (option json) :=
  if negb (Js.truthy (Some presentation)) then Done None
  else
    let* slides := Js.prop presentation "slides" in
    if negb (Js.truthy slides) then Done None
    else
      let slides := match slides with Some v => v | None => JNull end in
      if length_is_zero slides then Done None
      else
        match element slides currentSlide with
        | None | Some JNull =>
            Throw (mkError "TypeError" "Cannot read properties of undefined")
        | Some slide => Done (Some slide)
        end.

Section WithJson.

Variable JSON_parse : string -> outcome json.

(** The first render after the state cells have been initialised from
    storage: the deck by [loadSavedPresentation], the index by its own
    initialiser. *)
Definition first_render (store : Storage) : outcome (option json) :=
  let* presentation := loadSavedPresentation JSON_parse store in
  shown_slide presentation (SlideStore.initialSlide store).

End WithJson.

End Startup.

(* ===================================================================== *)
(** ** Readable sub-errors *)
(* ===================================================================== *)

Module ApiRules.

(** A sub-error that carries the non-empty text [m] under [msg]. *)
Definition says (item : json) (m : string) : Prop :=
  exists props, item = JObj props /\ Js.assoc "msg" props = Some (JStr m)
                /\ m <> EmptyString.

End ApiRules.

(* ===================================================================== *)
(** ** Further sample values *)
(* ===================================================================== *)

Module Samples.

(** The values offered by the model drop-down of the form. *)
Definition model_options : list string := ["chatgpt-latest"; "google-gemini-flash"].

(** A reply whose body is the JSON value [null]. *)
Definition null_body : reply := Response 500 (Some JNull).

(** A body listing two sub-errors. *)
Definition two_sub_errors : json :=
  JObj [("detail",
         JArr [JObj [("msg", JStr "field required")];
               JObj [("loc", JStr "body"); ("msg", JStr "value is not a valid integer")]])].

(** Three attachments: a picture, notes that cannot be read, a table. *)
Definition three_files : list Attachments.File :=
  [Attachments.mkFile "logo.PNG" (Some "binary");
   Attachments.mkFile "Notes.TXT" None;
   Attachments.mkFile "sales.csv" (Some "q1,q2")].

(** The storage after a deck of five slides was generated, with the
    stored slide index replaced by a text that is no number. *)
Definition lost_index : Storage :=
  setItem "raw2ready_currentSlide" "abc"
    (snd (fst (PresentationPage.handleCreatePresentation RefJson.stringify
                 DeckRules.no_context DeckRules.first_visit ∅
                 (PresentationPage.Accepted (DeckRules.deck_of 5))))).

(** An analysis naming one competitor. *)
Definition one_rival : json :=
  JObj [("market_cap_or_target_revenue", JStr "2M");
        ("competing_players", JArr [JObj [("name", JStr "Rival")]])].

(** The header sent with an exported deck. *)
Definition pitch_header : string :=
  "attachment; filename=" ++ String RefJson.dquote "pitch.pptx"
    ++ String RefJson.dquote EmptyString.

End Samples.

(* ===================================================================== *)
(** * Part II: properties *)
(* ===================================================================== *)

#[local] Arguments String.append !s1 s2 : simpl nomatch.

(** ** Facts about the string primitives *)

Lemma truthy_true (s : string) : truthy s = true <-> s <> EmptyString.
Proof.
  unfold truthy. rewrite negb_true_iff.
  destruct (String.eqb_spec s EmptyString); split; congruence.
Qed.

Lemma truthy_false (s : string) : truthy s = false <-> s = EmptyString.
Proof.
  unfold truthy. rewrite negb_false_iff.
  destruct (String.eqb_spec s EmptyString); split; congruence.
Qed.

Lemma includes_In (l : list string) (x : string) :
  includes l x = true <-> In x l.
Proof.
  unfold includes. rewrite existsb_exists. split.
  - intros (y & Hy & Heq). apply String.eqb_eq in Heq. now subst.
  - intros H. exists x. split; [assumption | apply String.eqb_refl].
Qed.

Lemma or_null_None (s : string) : or_null s = None <-> s = EmptyString.
Proof.
  unfold or_null. destruct (truthy s) eqn:E.
  - apply truthy_true in E. split; [discriminate | contradiction].
  - apply truthy_false in E. split; auto.
Qed.

Lemma or_null_not_empty (s : string) : or_null s <> Some EmptyString.
Proof.
  unfold or_null. destruct (truthy s) eqn:E; [| discriminate].
  apply truthy_true in E. congruence.
Qed.

Lemma trimStart_no_leading_ws (s : string) (c : ascii) (r : string) :
  trimStart s = String c r -> isWhiteSpace c = false.
Proof.
  induction s as [| a s IH]; simpl; [discriminate |].
  destruct (isWhiteSpace a) eqn:E; [exact IH |].
  intros H. injection H as -> ->. exact E.
Qed.

Lemma trimEnd_idem (s : string) : trimEnd (trimEnd s) = trimEnd s.
Proof.
  induction s as [| a s IH]; simpl; [reflexivity |].
  destruct (isWhiteSpace a && String.eqb (trimEnd s) EmptyString) eqn:E;
    [reflexivity |].
  simpl. rewrite IH, E. reflexivity.
Qed.


(* ===================================================================== *)
(** ** Form validation *)
(* ===================================================================== *)

Import FormPage FormRules.

Example validateForm_bakery :
  validateForm sample_countries (fresh bakery true) = (fresh bakery true, true).
Proof. vm_compute. reflexivity. Qed.

Section Validation.

Variable countries : list string.
Variable st : State.

Lemma validateForm_keeps_inputs :
  formData (fst (validateForm countries st)) = formData st /\
  termsAccepted (fst (validateForm countries st)) = termsAccepted st.
Proof. split; reflexivity. Qed.

Lemma validateForm_country_entry :
  errors (fst (validateForm countries st)) !! "country" =
    if negb (JsString.truthy (trim (country (formData st))))
    then Some "Country is required"
    else if negb (includes countries (country (formData st)))
         then Some "Please select a country from the dropdown"
         else None.
Proof.
  unfold validateForm. cbn [fst errors set_errors].
  repeat match goal with |- context [if ?b then _ else _] => destruct b end;
    reflexivity.
Qed.

Lemma validateForm_city_entry :
  errors (fst (validateForm countries st)) !! "city" =
    if negb (JsString.truthy (trim (city (formData st))))
    then Some "City is required" else None.
Proof.
  unfold validateForm. cbn [fst errors set_errors].
  repeat match goal with |- context [if ?b then _ else _] => destruct b end;
    reflexivity.
Qed.

Lemma validateForm_rawIdea_entry :
  errors (fst (validateForm countries st)) !! "rawIdea" =
    if negb (JsString.truthy (trim (rawIdea (formData st))))
    then Some "Raw idea is required" else None.
Proof.
  unfold validateForm. cbn [fst errors set_errors].
  repeat match goal with |- context [if ?b then _ else _] => destruct b end;
    reflexivity.
Qed.

Lemma validateForm_timeCommitment_entry :
  errors (fst (validateForm countries st)) !! "timeCommitment" =
    if negb (JsString.truthy (timeCommitment (formData st)))
    then Some "Time commitment is required" else None.
Proof.
  unfold validateForm. cbn [fst errors set_errors].
  repeat match goal with |- context [if ?b then _ else _] => destruct b end;
    reflexivity.
Qed.

Lemma validateForm_terms_entry :
  errors (fst (validateForm countries st)) !! "terms" =
    if negb (termsAccepted st)
    then Some "You must accept the terms and conditions" else None.
Proof.
  unfold validateForm. cbn [fst errors set_errors].
  repeat match goal with |- context [if ?b then _ else _] => destruct b end;
    reflexivity.
Qed.

End Validation.

Lemma validateForm_valid (countries : list string) (st : State) :
  snd (validateForm countries st) =
    JsString.truthy (trim (country (formData st)))
    && includes countries (country (formData st))
    && JsString.truthy (trim (city (formData st)))
    && JsString.truthy (trim (rawIdea (formData st)))
    && JsString.truthy (timeCommitment (formData st))
    && termsAccepted st.
Proof.
  unfold validateForm. cbn [snd].
  destruct (JsString.truthy (trim (country (formData st))));
  destruct (includes countries (country (formData st)));
  destruct (JsString.truthy (trim (city (formData st))));
  destruct (JsString.truthy (trim (rawIdea (formData st))));
  destruct (JsString.truthy (timeCommitment (formData st)));
  destruct (termsAccepted st); reflexivity.
Qed.

Lemma blank_truthy (s : string) : blank s <-> JsString.truthy (trim s) = false.
Proof. unfold blank. symmetry. apply truthy_false. Qed.

Lemma unmet_dec (countries : list string) (st : State) (r : required) :
  unmet countries st r <->
  match r with
  | RCountry =>
      JsString.truthy (trim (country (formData st))) = false
      \/ includes countries (country (formData st)) = false
  | RCity => JsString.truthy (trim (city (formData st))) = false
  | RRawIdea => JsString.truthy (trim (rawIdea (formData st))) = false
  | RTimeCommitment => JsString.truthy (timeCommitment (formData st)) = false
  | RTerms => termsAccepted st = false
  end.
Proof.
  destruct r; cbn [unmet]; rewrite ?blank_truthy, ?truthy_false; try reflexivity.
  rewrite <- includes_In.
  destruct (includes countries (country (formData st))); intuition congruence.
Qed.


(** Case analysis on every condition that occurs under a [negb]. *)
Ltac case_bool :=
  repeat match goal with
  | |- context [negb ?b] =>
      lazymatch b with
      | true => fail
      | false => fail
      | _ => destruct b
      end
  end; cbn [negb].

(** C1 (as amended).  [validateForm] stores an entry under a required
    input's key exactly when the rule for that input is not met: country,
    city and raw idea blank after trimming, the time commitment equal to
    the empty string, the terms box not ticked, and moreover a country
    that is not blank but is no entry of the country table.  Every stored
    text is one of six fixed messages, and the form is reported valid
    exactly when all five rules are met. *)
Theorem validateForm_flags_unmet_rules (countries : list string) (st : State) :
  (forall r, unmet countries st r <->
             is_Some (errors (fst (validateForm countries st)) !! error_key r)) /\
  (forall r m, errors (fst (validateForm countries st)) !! error_key r = Some m ->
               In m messages) /\
  (snd (validateForm countries st) = true <-> forall r, ~ unmet countries st r) /\
  ((exists r, unmet countries st r) -> snd (validateForm countries st) = false).
Proof.
  assert (Hentries : forall r, unmet countries st r <->
             is_Some (errors (fst (validateForm countries st)) !! error_key r)).
  { intros r. rewrite unmet_dec.
    destruct r; cbn [error_key];
      rewrite ?validateForm_country_entry, ?validateForm_city_entry,
        ?validateForm_rawIdea_entry, ?validateForm_timeCommitment_entry,
        ?validateForm_terms_entry;
      case_bool; rewrite is_Some_alt; intuition (eauto; congruence). }
  assert (Hvalid : snd (validateForm countries st) = true <->
                   forall r, ~ unmet countries st r).
  { rewrite validateForm_valid. split.
    - intros H r Hr. apply unmet_dec in Hr.
      repeat (apply andb_prop in H; destruct H as [H ?]).
      destruct r; intuition congruence.
    - intros H.
      pose proof (fun r => proj1 (not_iff_compat (unmet_dec countries st r)) (H r)) as H'.
      pose proof (H' RCountry) as Hc. pose proof (H' RCity) as Hci.
      pose proof (H' RRawIdea) as Hr. pose proof (H' RTimeCommitment) as Ht.
      pose proof (H' RTerms) as Hte. cbv beta iota in Hc, Hci, Hr, Ht, Hte.
      destruct (JsString.truthy (trim (country (formData st))));
      destruct (includes countries (country (formData st)));
      destruct (JsString.truthy (trim (city (formData st))));
      destruct (JsString.truthy (trim (rawIdea (formData st))));
      destruct (JsString.truthy (timeCommitment (formData st)));
      destruct (termsAccepted st); cbn [andb]; intuition congruence. }
  split; [exact Hentries |]. split; [| split; [exact Hvalid |]].
  - intros r m.
    destruct r; cbn [error_key];
      rewrite ?validateForm_country_entry, ?validateForm_city_entry,
        ?validateForm_rawIdea_entry, ?validateForm_timeCommitment_entry,
        ?validateForm_terms_entry;
      case_bool; intros [= <-]; unfold messages; cbn [In]; tauto.
  - intros [r Hr]. destruct (snd (validateForm countries st)) eqn:E; [| reflexivity].
    exfalso. apply (proj1 Hvalid eq_refl r Hr).
Qed.

(** C1 (as stated) does not hold.  With the country [Atlantis] and no
    city, something is missing, the country is not blank, and yet
    [validateForm] stores an entry under [country]; with a time commitment
    of one space the time commitment is blank, and yet the form is
    reported valid. *)
Lemma validateForm_not_exactly_missing :
  ~ flags_exactly_missing sample_countries atlantis_no_city /\
  ~ flags_exactly_missing sample_countries blank_commitment.
Proof.
  split; intros H.
  - destruct (H (ex_intro _ RCity eq_refl)) as [_ Hall].
    destruct (Hall RCountry) as [_ Hnone].
    assert (Hpresent : ~ missing atlantis_no_city RCountry)
      by (vm_compute; discriminate).
    specialize (Hnone Hpresent). vm_compute in Hnone. discriminate.
  - destruct (H (ex_intro _ RTimeCommitment eq_refl)) as [Hinvalid _].
    vm_compute in Hinvalid. discriminate.
Qed.

(* ===================================================================== *)
(** ** A country outside the table *)
(* ===================================================================== *)

Lemma variant_validateForm_country_entry (st : State) :
  errors (fst (Attachments.validateForm st)) !! "country" =
    if negb (JsString.truthy (trim (country (formData st))))
    then Some "Country is required" else None.
Proof.
  unfold Attachments.validateForm. cbn [fst errors set_errors].
  repeat match goal with |- context [if ?b then _ else _] => destruct b end;
    reflexivity.
Qed.

Lemma variant_validateForm_valid (st : State) :
  snd (Attachments.validateForm st) =
    JsString.truthy (trim (country (formData st)))
    && JsString.truthy (trim (city (formData st)))
    && JsString.truthy (trim (rawIdea (formData st)))
    && JsString.truthy (timeCommitment (formData st))
    && termsAccepted st.
Proof.
  unfold Attachments.validateForm. cbn [snd].
  destruct (JsString.truthy (trim (country (formData st))));
  destruct (JsString.truthy (trim (city (formData st))));
  destruct (JsString.truthy (trim (rawIdea (formData st))));
  destruct (JsString.truthy (timeCommitment (formData st)));
  destruct (termsAccepted st); reflexivity.
Qed.




(* ===================================================================== *)
(** ** Submitting the form *)
(* ===================================================================== *)

Lemma handleSubmit_invalid (countries : list string) (st : State) (r : reply) :
  snd (validateForm countries st) = false ->
  handleSubmit countries st r = (fst (validateForm countries st), mkEffects [] None).
Proof.
  intros H. unfold handleSubmit.
  destruct (validateForm countries st) as [st1 valid]. cbn in H. subst valid.
  reflexivity.
Qed.

Lemma handleSubmit_valid (countries : list string) (st : State) (r : reply) :
  snd (validateForm countries st) = true ->
  handleSubmit countries st r =
    match after_fetch (formData st) r with
    | Done payload =>
        (mkState (formData st) (termsAccepted st) ∅ false None,
         mkEffects [requestBody (formData st)] (Some payload))
    | Throw err =>
        (mkState (formData st) (termsAccepted st) ∅ false (Some (catch_message err)),
         mkEffects [requestBody (formData st)] None)
    end.
Proof.
  intros H. unfold handleSubmit.
  assert (He : errors (fst (validateForm countries st)) = ∅).
  { apply map_size_empty_iff. apply Nat.eqb_eq. exact H. }
  destruct (validateForm countries st) as [st1 valid] eqn:E.
  cbn in H, He. subst valid. cbn [negb].
  assert (Hd : formData st1 = formData st /\ termsAccepted st1 = termsAccepted st).
  { pose proof (validateForm_keeps_inputs countries st) as K. rewrite E in K. exact K. }
  destruct Hd as [-> ->]. rewrite He. reflexivity.
Qed.

Lemma or_else_blank (s d : string) : blank s -> or_else (trim s) d = d.
Proof. unfold blank, or_else. intros ->. reflexivity. Qed.

Lemma or_else_not_blank (s d : string) : ~ blank s -> or_else (trim s) d = trim s.
Proof.
  unfold blank, or_else. intros H. apply truthy_true in H. rewrite H. reflexivity.
Qed.

Lemma or_null_blank (s : string) : blank s -> or_null (trim s) = None.
Proof. unfold blank. intros ->. reflexivity. Qed.

(** C5 (as amended).  For a valid form [handleSubmit] issues exactly one
    request.  Its [business_name] is the trimmed typed name, or
    [My Business] when the typed name is blank.  An optional input that
    the user types into is sent as [null] when it is blank after
    trimming; an optional input chosen from a drop-down list is sent as
    [null] when it is the empty string; the file content and the photo
    description are always [null]; and no optional input is ever sent as
    the empty string. *)
Theorem handleSubmit_request (countries : list string) (st : State) (r : reply) :
  snd (validateForm countries st) = true ->
  exists req,
    requests (snd (handleSubmit countries st r)) = [req] /\
    (blank (businessName (formData st)) -> req_business_name req = "My Business") /\
    (~ blank (businessName (formData st)) ->
       req_business_name req = trim (businessName (formData st))) /\
    (forall o, free_text o = true -> blank (typed o (formData st)) -> sent o req = None) /\
    (forall o, free_text o = false -> typed o (formData st) = "" -> sent o req = None) /\
    req_file_content req = None /\ req_photos_description req = None /\
    (forall o, sent o req <> Some "").
Proof.
  intros Hvalid. exists (requestBody (formData st)).
  split.
  { rewrite (handleSubmit_valid _ _ _ Hvalid).
    destruct (after_fetch (formData st) r); reflexivity. }
  split; [intros H; cbn; now apply or_else_blank |].
  split; [intros H; cbn; now apply or_else_not_blank |].
  split.
  { intros o Ho Hb. destruct o; try discriminate Ho; cbn in *; now apply or_null_blank. }
  split.
  { intros o Ho He. destruct o; try discriminate Ho; cbn in *; rewrite He; reflexivity. }
  split; [reflexivity |]. split; [reflexivity |].
  intros o. destruct o; cbn; apply or_null_not_empty.
Qed.

Lemma handleSubmit_request_witness :
  snd (validateForm sample_countries (fresh bakery true)) = true /\
  exists req,
    requests (snd (handleSubmit sample_countries (fresh bakery true)
                     (Response 200 (Some plain_analysis)))) = [req] /\
    req_business_name req = "My Business" /\
    req_target_audience req = None.
Proof.
  assert (Hv : snd (validateForm sample_countries (fresh bakery true)) = true)
    by (vm_compute; reflexivity).
  split; [exact Hv |].
  destruct (handleSubmit_request sample_countries (fresh bakery true)
              (Response 200 (Some plain_analysis)) Hv)
    as (req & Hreq & Hname & _ & Htext & _).
  exists req. split; [exact Hreq |]. split.
  - apply Hname. vm_compute. reflexivity.
  - apply (Htext OTargetAudience); vm_compute; reflexivity.
Defined.

(** C5 (as stated) does not hold.  A business type of one space is blank
    after trimming, the form is valid, and the request carries the space
    instead of [null]. *)
Lemma handleSubmit_sends_blank_business_type :
  ~ request_nulls_every_blank sample_countries blank_business_type
      (Response 200 (Some plain_analysis)).
Proof.
  intros H.
  destruct (H eq_refl) as (req & Hreq & _ & _ & Hnull).
  specialize (Hnull OBusinessType eq_refl).
  vm_compute in Hreq. injection Hreq as <-. discriminate Hnull.
Qed.

(* ===================================================================== *)
(** ** The business context built on success *)
(* ===================================================================== *)

Lemma after_fetch_success (d : FormData) (status : Z) (data : json) (v : option json) :
  Js.ok status = true ->
  Js.prop data "suggested_business_name" = Done v ->
  v = None \/ v = Some JNull \/ (exists s, v = Some (JStr s)) ->
  after_fetch d (Response status (Some data)) =
    Done (data,
          businessContext
            (businessNameForPresentation
               (match v with Some (JStr s) => Some (trim s) | _ => None end) d) d).
Proof.
  intros Hok Hprop Hv. unfold after_fetch, suggested_name.
  rewrite Hok, Hprop. cbn [negb bind].
  destruct Hv as [-> | [-> | [s ->]]]; reflexivity.
Qed.

(** C6 (as amended).  For a valid form and a successful response, the
    (analysis, context) pair is passed to the navigation.  The context's
    [business_name] is the trimmed suggested name when the response
    carries a suggested name that is not blank; when the suggested name is
    omitted, [null] or blank it is the trimmed typed name, or
    [My Business] when the typed name is blank. *)
Theorem handleSubmit_context_name
  (countries : list string) (st : State) (status : Z) (data : json) (v : option json) :
  snd (validateForm countries st) = true ->
  Js.ok status = true ->
  Js.prop data "suggested_business_name" = Done v ->
  v = None \/ v = Some JNull \/ (exists s, v = Some (JStr s)) ->
  exists ctx,
    navigated (snd (handleSubmit countries st (Response status (Some data))))
      = Some (data, ctx) /\
    (forall s, v = Some (JStr s) -> ~ blank s -> ctx_business_name ctx = trim s) /\
    (v = None \/ v = Some JNull \/ (exists s, v = Some (JStr s) /\ blank s) ->
       (~ blank (businessName (formData st)) ->
          ctx_business_name ctx = trim (businessName (formData st))) /\
       (blank (businessName (formData st)) -> ctx_business_name ctx = "My Business")).
Proof.
  intros Hvalid Hok Hprop Hv.
  rewrite (handleSubmit_valid _ _ _ Hvalid).
  rewrite (after_fetch_success _ _ _ _ Hok Hprop Hv). cbn [snd navigated].
  eexists. split; [reflexivity |]. cbn [ctx_business_name businessContext].
  split.
  - intros s -> Hs. cbn. now apply or_else_not_blank.
  - intros Hfall.
    assert (Hname :
      businessNameForPresentation
        (match v with Some (JStr s) => Some (trim s) | _ => None end) (formData st)
      = or_else (trim (businessName (formData st))) "My Business").
    { destruct Hfall as [-> | [-> | (s & -> & Hs)]]; cbn; try reflexivity.
      now rewrite or_else_blank. }
    rewrite Hname. split; intros H.
    + now apply or_else_not_blank.
    + now apply or_else_blank.
Qed.

Lemma handleSubmit_context_name_witness :
  snd (validateForm sample_countries (fresh bakery true)) = true /\
  Js.ok 200 = true /\
  Js.prop plain_analysis "suggested_business_name" = Done None /\
  exists ctx,
    navigated (snd (handleSubmit sample_countries (fresh bakery true)
                      (Response 200 (Some plain_analysis))))
      = Some (plain_analysis, ctx) /\
    ctx_business_name ctx = "My Business".
Proof.
  assert (Hv : snd (validateForm sample_countries (fresh bakery true)) = true)
    by (vm_compute; reflexivity).
  assert (Hok : Js.ok 200 = true) by reflexivity.
  assert (Hp : Js.prop plain_analysis "suggested_business_name" = Done None)
    by reflexivity.
  split; [exact Hv |]. split; [exact Hok |]. split; [exact Hp |].
  destruct (handleSubmit_context_name sample_countries (fresh bakery true) 200
              plain_analysis None Hv Hok Hp (or_introl eq_refl))
    as (ctx & Hnav & _ & Hfall).
  exists ctx. split; [exact Hnav |].
  apply (Hfall (or_introl eq_refl)). vm_compute. reflexivity.
Defined.

(** C6 (as stated) does not hold.  The suggested name
    [" Acme "] is present and not blank, yet the context is not named by
    it: the name stored is [Acme], without the surrounding spaces. *)
Lemma handleSubmit_trims_suggested_name :
  ~ context_takes_suggested_name sample_countries (fresh bakery true) 200
      padded_suggestion.
Proof.
  intros H.
  destruct (H eq_refl eq_refl " Acme " eq_refl) as (ctx & Hnav & Hname).
  { vm_compute. discriminate. }
  vm_compute in Hnav. injection Hnav as <-. discriminate Hname.
Qed.

(* ===================================================================== *)
(** ** What the form page shows when the request fails *)
(* ===================================================================== *)

Lemma catch_message_plain (m : string) :
  m <> "" -> m <> "Failed to fetch" ->
  catch_message (mkError "Error" m) = m.
Proof.
  intros Hne Hnf. unfold catch_message. cbn [err_message err_name].
  apply String.eqb_neq in Hnf. rewrite Hnf. cbn.
  unfold or_else. apply truthy_true in Hne. rewrite Hne. reflexivity.
Qed.

(** No response at all: the fixed text about the unreachable server, and
    no navigation. *)
Lemma handleSubmit_network_failure
  (countries : list string) (st : State) (m : string) :
  snd (validateForm countries st) = true ->
  apiError (fst (handleSubmit countries st (NoResponse m))) = Some NETWORK_MESSAGE /\
  navigated (snd (handleSubmit countries st (NoResponse m))) = None.
Proof.
  intros Hvalid. rewrite (handleSubmit_valid _ _ _ Hvalid). cbn.
  unfold catch_message. cbn [err_name err_message].
  rewrite orb_true_r. split; reflexivity.
Qed.

(** A response that is not 2xx and whose [detail] is a non-empty string
    other than [Failed to fetch]: that string is shown, and there is no
    navigation. *)
Lemma handleSubmit_detail_string
  (countries : list string) (st : State) (status : Z) (data : json) (s : string) :
  snd (validateForm countries st) = true ->
  Js.ok status = false ->
  Js.prop data "detail" = Done (Some (JStr s)) ->
  s <> "" -> s <> "Failed to fetch" ->
  apiError (fst (handleSubmit countries st (Response status (Some data)))) = Some s /\
  navigated (snd (handleSubmit countries st (Response status (Some data)))) = None.
Proof.
  intros Hvalid Hok Hprop Hne Hnf.
  rewrite (handleSubmit_valid _ _ _ Hvalid). unfold after_fetch.
  rewrite Hok, Hprop. cbn [negb bind Js.truthy].
  apply truthy_true in Hne. rewrite Hne. cbn [fst snd apiError navigated].
  unfold Js.new_Error. cbn [Js.ToString].
  rewrite catch_message_plain; [split; reflexivity | | exact Hnf].
  now apply truthy_true.
Qed.

(** A response that is not 2xx and has no [detail] (or no JSON body at
    all): the generic text carrying the status, and no navigation. *)
Lemma handleSubmit_no_detail
  (countries : list string) (st : State) (status : Z) (body : option json) :
  snd (validateForm countries st) = true ->
  Js.ok status = false ->
  match body with Some data => Js.prop data "detail" = Done None | None => True end ->
  apiError (fst (handleSubmit countries st (Response status body)))
    = Some ("Research failed (" ++ Js.Z_to_string status ++ ")") /\
  navigated (snd (handleSubmit countries st (Response status body))) = None.
Proof.
  intros Hvalid Hok Hprop.
  rewrite (handleSubmit_valid _ _ _ Hvalid). unfold after_fetch. rewrite Hok.
  cbn [negb].
  assert (Hd : Js.prop (match body with Some v => v | None => JObj [] end) "detail"
               = Done None).
  { destruct body; [exact Hprop | reflexivity]. }
  rewrite Hd. cbn. split; reflexivity.
Qed.

(** C3 at the failing input.  The back end answers 422 with a [detail]
    that is a list holding one sub-error whose message is
    [field required]; the form page then shows the text
    [[object Object]] (and does not navigate). *)
Theorem handleSubmit_detail_list_unreadable :
  apiError (fst (handleSubmit sample_countries (fresh bakery true)
                   (Response 422 (Some validation_failure))))
    = Some "[object Object]" /\
  navigated (snd (handleSubmit sample_countries (fresh bakery true)
                    (Response 422 (Some validation_failure)))) = None.
Proof. vm_compute. split; reflexivity. Qed.

(** The service function of [api.js] turns the same body into the
    sub-error's message, whatever [JSON.stringify] does. *)
Lemma failure_message_joins_sub_errors (stringify : json -> string) :
  Api.failure_message stringify "Unprocessable Entity" (Some validation_failure)
    = Done "field required".
Proof. reflexivity. Qed.

(** The scenario of the spec: a 500 reply with the detail [rate limited]
    shows that text and stays on the form. *)
Example handleSubmit_rate_limited :
  apiError (fst (handleSubmit sample_countries (fresh bakery true)
                   (Response 500 (Some rate_limited)))) = Some "rate limited" /\
  navigated (snd (handleSubmit sample_countries (fresh bakery true)
                    (Response 500 (Some rate_limited)))) = None /\
  formData (fst (handleSubmit sample_countries (fresh bakery true)
                   (Response 500 (Some rate_limited)))) = bakery.
Proof. vm_compute. repeat split; reflexivity. Qed.

(* ===================================================================== *)
(** ** Slide navigation *)
(* ===================================================================== *)

Import PresentationPage DeckRules.

Section Navigation.

Variable JSON_stringify : json -> string.
Variable ctx : PageContext.

Lemma nextSlide_in_range (st : DeckState) (store : Storage) :
  in_range st -> in_range (fst (nextSlide st store)).
Proof.
  unfold in_range, nextSlide. destruct (presentation st) as [deck |] eqn:E.
  - destruct (Z.ltb_spec (currentSlide st) (Z.of_nat (length (slides deck)) - 1));
      cbn [fst set_currentSlide presentation currentSlide]; rewrite ?E; lia.
  - cbn. rewrite E. trivial.
Qed.

Lemma prevSlide_in_range (st : DeckState) (store : Storage) :
  in_range st -> in_range (fst (prevSlide st store)).
Proof.
  unfold in_range, prevSlide.
  destruct (Z.gtb_spec (currentSlide st) 0);
    cbn [fst set_currentSlide presentation currentSlide];
    destruct (presentation st); trivial; lia.
Qed.

(** [next] on the last slide changes nothing. *)
Lemma nextSlide_last (st : DeckState) (store : Storage) (deck : PresentationDeck) :
  presentation st = Some deck ->
  currentSlide st = (Z.of_nat (length (slides deck)) - 1)%Z ->
  nextSlide st store = (st, store).
Proof.
  intros Hp Hc. unfold nextSlide. rewrite Hp, Hc, Z.ltb_irrefl. reflexivity.
Qed.

(** [prev] on the first slide changes nothing. *)
Lemma prevSlide_first (st : DeckState) (store : Storage) :
  currentSlide st = 0%Z -> prevSlide st store = (st, store).
Proof. intros Hc. unfold prevSlide. rewrite Hc. reflexivity. Qed.

(** The indicators and thumbnails call [goToSlide] with the position of a
    slide of the deck on display. *)
Lemma goToSlide_in_range (st : DeckState) (store : Storage) (index : Z) :
  (forall deck, presentation st = Some deck ->
                (0 <= index < Z.of_nat (length (slides deck)))%Z) ->
  in_range (fst (goToSlide index st store)).
Proof.
  intros H. unfold in_range, goToSlide. cbn.
  destruct (presentation st) as [deck |]; [now apply H | trivial].
Qed.

(** Generating a deck shows its first slide. *)
Lemma handleCreatePresentation_in_range
  (st : DeckState) (store : Storage) (deck : PresentationDeck) :
  in_range st -> slides deck <> [] ->
  in_range (fst (fst (handleCreatePresentation JSON_stringify ctx st store
                        (Accepted deck)))).
Proof.
  intros Hin Hne. unfold handleCreatePresentation.
  destruct (validatePptForm st) as [st1 valid] eqn:E.
  assert (Hst1 : presentation st1 = presentation st /\ currentSlide st1 = currentSlide st).
  { unfold validatePptForm in E. injection E as <- _. split; reflexivity. }
  destruct valid; cbn.
  - destruct (slides deck); [contradiction | cbn; lia].
  - unfold in_range. destruct Hst1 as [-> ->]. exact Hin.
Qed.

Lemma handleBackToCardSelection_in_range (st : DeckState) (store : Storage) :
  in_range (fst (handleBackToCardSelection st store)).
Proof. exact I. Qed.

(** An edit never moves the index, whatever the server answers. *)
Lemma handleEditPresentation_keeps_index
  (st : DeckState) (store : Storage) (a : answer PresentationDeck) :
  currentSlide (fst (fst (handleEditPresentation JSON_stringify ctx st store a)))
    = currentSlide st.
Proof.
  unfold handleEditPresentation.
  destruct (presentation st); [| reflexivity].
  destruct (negb (JsString.truthy (trim (editPrompt st)))); [reflexivity |].
  destruct (await_data _ a); reflexivity.
Qed.

(** So an accepted edit whose deck is no longer than the index leaves the
    index out of range. *)
Lemma handleEditPresentation_shorter_deck
  (st : DeckState) (store : Storage) (deck data : PresentationDeck) :
  presentation st = Some deck ->
  JsString.truthy (trim (editPrompt st)) = true ->
  (Z.of_nat (length (slides data)) <= currentSlide st)%Z ->
  ~ in_range (fst (fst (handleEditPresentation JSON_stringify ctx st store
                          (Accepted data)))).
Proof.
  intros Hp He Hlen. unfold handleEditPresentation, in_range.
  rewrite Hp, He. cbn. lia.
Qed.

End Navigation.

(** C2 at the failing input.  A deck of ten slides is generated, the last
    slide is selected, and an edit is answered with a deck of five
    slides: the index is still 9, outside the positions 0 to 4 of the deck
    now on display, and the viewer finds no slide at that index. *)
Theorem handleEditPresentation_leaves_index :
  currentSlide (fst shrinking_session) = 9%Z /\
  (length <$> (slides <$> presentation (fst shrinking_session))) = Some 5%nat /\
  ~ in_range (fst shrinking_session) /\
  displayed_slide (fst shrinking_session) = None.
Proof.
  split; [vm_compute; reflexivity |].
  split; [vm_compute; reflexivity |].
  split; [| vm_compute; reflexivity].
  unfold in_range.
  replace (presentation (fst shrinking_session)) with (Some (deck_of 5))
    by (vm_compute; reflexivity).
  replace (currentSlide (fst shrinking_session)) with 9%Z by (vm_compute; reflexivity).
  cbn. lia.
Qed.

(* ===================================================================== *)
(** ** The reference codec reads back what it writes *)
(* ===================================================================== *)

Section RefJsonFacts.

Import RefJson.

Lemma append_assoc (a b c : string) : (a ++ b) ++ c = a ++ (b ++ c).
Proof. induction a as [| x a IH]; cbn [append]; [reflexivity | now rewrite IH]. Qed.

Lemma length_append (a b : string) :
  String.length (a ++ b) = (String.length a + String.length b)%nat.
Proof.
  induction a as [| x a IH]; cbn [append String.length plus];
    [reflexivity | now rewrite IH].
Qed.

(** Reading the escape of one character gives that character back. *)
Lemma read_string_escape_char (c : ascii) (r : string) :
  read_string (escape_char c ++ r) = prepend c (read_string r).
Proof.
  destruct c as [[] [] [] [] [] [] [] []]; reflexivity.
Qed.

Lemma read_string_escape (s rest : string) :
  read_string (escape s ++ String dquote rest) = Some (s, rest).
Proof.
  induction s as [| c s IH]; [reflexivity |].
  cbn [escape]. rewrite append_assoc, read_string_escape_char, IH. reflexivity.
Qed.

(** Reading a quoted string that is followed by [rest]. *)
Lemma read_quoted (s rest : string) :
  quote s ++ rest = String dquote (escape s ++ String dquote rest) /\
  read_string (escape s ++ String dquote rest) = Some (s, rest).
Proof.
  split; [| apply read_string_escape].
  unfold quote. cbn [append]. now rewrite append_assoc.
Qed.

Lemma stringify_string_props (kvs : list (string * string)) :
  stringify (JObj (string_props kvs)) =
    "{" ++ Js.join "," (map member_text kvs) ++ "}".
Proof.
  cbn [stringify]. unfold string_props. rewrite map_map. reflexivity.
Qed.

Lemma read_member (k v rest : string) :
  member_text (k, v) ++ rest =
    String dquote (escape k ++ String dquote
      (String ":" (String dquote (escape v ++ String dquote rest)))).
Proof.
  unfold member_text. cbn [fst snd].
  rewrite !append_assoc. rewrite (proj1 (read_quoted k _)).
  do 2 f_equal. cbn [append]. do 2 f_equal.
  apply (proj1 (read_quoted v rest)).
Qed.

Lemma skip_ws_dquote (r : string) : skip_ws (String dquote r) = String dquote r.
Proof. reflexivity. Qed.

(** One step of [read_members] over the text of a member. *)
Lemma read_members_member (fuel : nat) (k v tail : string) :
  read_members (S fuel) (member_text (k, v) ++ tail) =
    match skip_ws tail with
    | String "," r5 =>
        match read_members fuel r5 with
        | Some (ms, rest) => Some ((k, JStr v) :: ms, rest)
        | None => None
        end
    | String "}" r5 => Some ([(k, JStr v)], r5)
    | _ => None
    end.
Proof.
  rewrite read_member. cbn [read_members].
  rewrite skip_ws_dquote, Ascii.eqb_refl, read_string_escape.
  match goal with
  | |- context [skip_ws (String ":"%char ?r)] =>
      change (skip_ws (String ":"%char r)) with (String ":"%char r)
  end.
  cbv beta iota.
  rewrite skip_ws_dquote, Ascii.eqb_refl, read_string_escape.
  reflexivity.
Qed.

Lemma read_members_text (kvs : list (string * string)) :
  kvs <> [] ->
  forall (fuel : nat) (rest : string),
    (length kvs <= fuel)%nat ->
    read_members fuel (Js.join "," (map member_text kvs) ++ String "}" rest)
      = Some (string_props kvs, rest).
Proof.
  induction kvs as [| [k v] kvs IH]; [congruence |].
  intros _ fuel rest Hfuel. destruct fuel as [| fuel]; [cbn in Hfuel; lia |].
  destruct kvs as [| p kvs].
  - cbn [map Js.join]. rewrite read_members_member. reflexivity.
  - change (Js.join "," (map member_text ((k, v) :: p :: kvs)))
      with (member_text (k, v) ++ "," ++ Js.join "," (map member_text (p :: kvs))).
    rewrite !append_assoc, read_members_member.
    match goal with
    | |- context [skip_ws ("," ++ ?r)] =>
        change (skip_ws ("," ++ r)) with (String ","%char r)
    end.
    cbv beta iota.
    rewrite IH; [reflexivity | discriminate | cbn in *; lia].
Qed.

Lemma length_member_text (p : string * string) :
  (1 <= String.length (member_text p))%nat.
Proof. unfold member_text, quote. cbn [append String.length]. lia. Qed.

Lemma length_members_text (kvs : list (string * string)) (rest : string) :
  (length kvs <= String.length (Js.join "," (map member_text kvs) ++ rest))%nat.
Proof.
  rewrite length_append.
  enough (length kvs <= String.length (Js.join "," (map member_text kvs)))%nat by lia.
  induction kvs as [| p kvs IH]; [cbn; lia |].
  destruct kvs as [| q kvs].
  - cbn [map Js.join length]. apply length_member_text.
  - change (Js.join "," (map member_text (p :: q :: kvs)))
      with (member_text p ++ "," ++ Js.join "," (map member_text (q :: kvs))).
    rewrite !length_append. pose proof (length_member_text p).
    cbn [length String.length] in *. lia.
Qed.

Lemma parse_object_text (X : string) (ms : list (string * json)) :
  read_members (String.length (String dquote X)) (String dquote X)
    = Some (ms, EmptyString) ->
  parse (String "{" (String dquote X)) = Done (object_of ms).
Proof.
  intros H. unfold parse.
  change (skip_ws (String "{" (String dquote X))) with (String "{" (String dquote X)).
  cbv beta iota. rewrite skip_ws_dquote.
  change (match String dquote X with
          | String "}"%char r' =>
              if String.eqb (skip_ws r') EmptyString
              then Done (JObj []) else Throw syntax_error
          | _ =>
              match read_members (String.length (String dquote X)) (String dquote X) with
              | Some (members, rest) =>
                  if String.eqb (skip_ws rest) EmptyString
                  then Done (object_of members) else Throw syntax_error
              | None => Throw syntax_error
              end
          end)
    with (match read_members (String.length (String dquote X)) (String dquote X) with
          | Some (members, rest) =>
              if String.eqb (skip_ws rest) EmptyString
              then Done (object_of members) else Throw syntax_error
          | None => Throw syntax_error
          end).
  rewrite H. reflexivity.
Qed.

Lemma members_text_starts_with_quote (p : string * string) (kvs : list (string * string))
  (rest : string) :
  exists X, Js.join "," (map member_text (p :: kvs)) ++ rest = String dquote X.
Proof.
  destruct p as [k v]. destruct kvs as [| q kvs].
  - cbn [map Js.join]. rewrite read_member. eauto.
  - change (Js.join "," (map member_text ((k, v) :: q :: kvs)))
      with (member_text (k, v) ++ "," ++ Js.join "," (map member_text (q :: kvs))).
    rewrite !append_assoc, read_member. eauto.
Qed.

(** Parsing the text written for an object of string properties gives the
    object built from those properties in order. *)
Lemma parse_stringify_string_props (kvs : list (string * string)) :
  parse (stringify (JObj (string_props kvs))) = Done (object_of (string_props kvs)).
Proof.
  rewrite stringify_string_props.
  destruct kvs as [| p kvs]; [reflexivity |].
  change ("{" ++ Js.join "," (map member_text (p :: kvs)) ++ "}")
    with (String "{" (Js.join "," (map member_text (p :: kvs)) ++ "}")).
  destruct (members_text_starts_with_quote p kvs "}") as [X HX].
  rewrite HX. apply parse_object_text. rewrite <- HX.
  apply read_members_text; [discriminate | apply length_members_text].
Qed.

(** The text written is never empty. *)
Lemma stringify_string_props_truthy (kvs : list (string * string)) :
  JsString.truthy (stringify (JObj (string_props kvs))) = true.
Proof. rewrite stringify_string_props. reflexivity. Qed.

End RefJsonFacts.

(* ===================================================================== *)
(** ** Loading from storage *)
(* ===================================================================== *)

Section Loaders.

Variable JSON_parse : string -> outcome json.

Lemma loadSavedFormData_unusable (store : Storage) :
  unusable JSON_parse store "raw2ready_formData" ->
  loadSavedFormData JSON_parse store = Done (formData_to_json defaultFormData).
Proof.
  unfold loadSavedFormData. intros [-> | (s & e & -> & Hthrow)]; [reflexivity |].
  cbn. destruct (JsString.truthy s); [| reflexivity].
  cbn. rewrite Hthrow. reflexivity.
Qed.

Lemma loadSavedOrNull_unusable (key : string) (store : Storage) :
  unusable JSON_parse store key ->
  loadSavedOrNull JSON_parse key store = Done JNull.
Proof.
  unfold loadSavedOrNull. intros [-> | (s & e & -> & Hthrow)]; [reflexivity |].
  cbn. destruct (JsString.truthy s); [| reflexivity].
  cbn. rewrite Hthrow. reflexivity.
Qed.

(** Whatever is stored and whatever the parser does, the loaders
    complete. *)
Lemma loaders_never_throw (store : Storage) :
  (exists v, loadSavedFormData JSON_parse store = Done v) /\
  (exists v, loadSavedPresentation JSON_parse store = Done v) /\
  (exists v, loadSavedVideo JSON_parse store = Done v).
Proof.
  unfold loadSavedPresentation, loadSavedVideo, loadSavedOrNull, loadSavedFormData.
  repeat split;
    match goal with
    | |- context [getItem store ?k] => destruct (getItem store k) as [s |]
    end; cbn;
    try destruct (JsString.truthy s); cbn; try destruct (JSON_parse s); cbn; eauto.
Qed.

End Loaders.

Section Restored.

Variable JSON_parse : string -> outcome json.

Lemma loadSavedOrNull_parsed (key : string) (store : Storage) (saved : string) (v : json) :
  getItem store key = Some saved -> saved <> EmptyString ->
  JSON_parse saved = Done v ->
  loadSavedOrNull JSON_parse key store = Done v.
Proof.
  intros Hs Hne Hp. unfold loadSavedOrNull. rewrite Hs. cbn [saved_truthy].
  apply truthy_true in Hne. rewrite Hne.
  change (default "" (Some saved)) with saved. rewrite Hp. reflexivity.
Qed.

Lemma loadSavedFormData_parsed (store : Storage) (saved : string) (v : json) :
  getItem store "raw2ready_formData" = Some saved -> saved <> EmptyString ->
  JSON_parse saved = Done v ->
  loadSavedFormData JSON_parse store = Done v.
Proof.
  intros Hs Hne Hp. unfold loadSavedFormData. rewrite Hs. cbn [saved_truthy].
  apply truthy_true in Hne. rewrite Hne.
  change (default "" (Some saved)) with saved. rewrite Hp. reflexivity.
Qed.

Lemma shown_slide_missing (deck : json) (slides : list json) (index : JsNumber.number) :
  Js.prop deck "slides" = Done (Some (JArr slides)) ->
  slides <> [] ->
  ResultsPage.at_number slides index = None ->
  exists e, Startup.shown_slide deck index = Throw e /\ err_name e = "TypeError".
Proof.
  intros Hp Hne Hat. unfold Startup.shown_slide.
  assert (Ht : Js.truthy (Some deck) = true).
  { destruct deck as [| | | | items | props]; cbn in Hp; try discriminate Hp; reflexivity. }
  rewrite Ht, Hp. cbn [negb bind Js.truthy Startup.length_is_zero Startup.element].
  rewrite Hat. destruct slides as [| x r]; [congruence |].
  cbn [JsNumber.is_nil]. eauto.
Qed.

End Restored.




(* ===================================================================== *)
(** ** Editing a field and reloading *)
(* ===================================================================== *)

Section Reload.

Variable JSON_stringify : json -> string.
Variable JSON_parse : string -> outcome json.

(** What the page relies on: a form object written by [JSON.stringify] is
    a non-empty text that [JSON.parse] reads back. *)
Hypothesis parse_stringify :
  forall d, JSON_parse (JSON_stringify (formData_to_json d)) = Done (formData_to_json d).
Hypothesis stringify_truthy :
  forall d, JsString.truthy (JSON_stringify (formData_to_json d)) = true.

Lemma handleChange_then_load
  (name : field) (value : string) (st : State) (store : Storage) :
  loadSavedFormData JSON_parse (snd (handleChange JSON_stringify name value st store))
    = Done (formData_to_json (set_field name value (formData st))).
Proof.
  unfold handleChange, loadSavedFormData, getItem, setItem. cbn [snd].
  rewrite lookup_insert_eq. cbn.
  rewrite stringify_truthy. cbn. rewrite parse_stringify. reflexivity.
Qed.

End Reload.

Lemma formData_string_props (d : FormData) :
  formData_to_json d
    = JObj (RefJson.string_props (map (fun f => (field_name f, get_field f d)) all_fields)).
Proof. reflexivity. Qed.

Lemma RefJson_parse_stringify_form (d : FormData) :
  RefJson.parse (RefJson.stringify (formData_to_json d)) = Done (formData_to_json d).
Proof.
  rewrite formData_string_props, parse_stringify_string_props. reflexivity.
Qed.

Lemma get_set_field (f g : field) (v : string) (d : FormData) :
  get_field g (set_field f v d) = if decide (field_name f = field_name g) then v
                                  else get_field g d.
Proof. destruct f, g; reflexivity. Qed.

Lemma handleTermsChange_then_load (checked : bool) (st : State) (store : Storage) :
  loadSavedTerms (snd (handleTermsChange checked st store)) = checked /\
  termsAccepted (fst (handleTermsChange checked st store)) = checked.
Proof.
  unfold handleTermsChange, loadSavedTerms, getItem, setItem. cbn [fst snd termsAccepted].
  rewrite lookup_insert_eq. destruct checked; split; reflexivity.
Qed.

(** C9.  After [handleChange] has recorded an edit of any input, what
    [loadSavedFormData] rebuilds from storage is the form object of the
    new state: the edited input carries the new value, every other input
    the value it had, and reading any input of the reloaded object gives
    the value held by the state.  Likewise the terms box read back by
    [loadSavedTerms] is the one just ticked or cleared.  (This form has no
    file attachment among its properties, and nothing else is written.) *)
Theorem handleChange_reload_roundtrip
  (name : field) (value : string) (st : State) (store : Storage) :
  let after := handleChange RefJson.stringify name value st store in
  let reloaded := loadSavedFormData RefJson.parse (snd after) in
  reloaded = Done (formData_to_json (formData (fst after))) /\
  formData (fst after) = set_field name value (formData st) /\
  (forall f, get_field f (formData (fst after))
             = if decide (field_name name = field_name f) then value
               else get_field f (formData st)) /\
  (forall f, Js.prop (formData_to_json (formData (fst after))) (field_name f)
             = Done (Some (JStr (get_field f (formData (fst after)))))) /\
  (forall checked, loadSavedTerms (snd (handleTermsChange checked st store)) = checked).
Proof.
  cbv zeta. split; [| split; [reflexivity | split; [| split]]].
  - apply handleChange_then_load.
    + apply RefJson_parse_stringify_form.
    + intros d. rewrite formData_string_props. apply stringify_string_props_truthy.
  - intros f. cbn [fst handleChange formData]. apply get_set_field.
  - intros f. destruct f; reflexivity.
  - intros checked. apply handleTermsChange_then_load.
Qed.

(* ===================================================================== *)
(** ** Numbers read from strings *)
(* ===================================================================== *)

Import JsNumber NumberRules.

Section Numbers.

Import JsNumber.

Lemma trim_truthy_trimStart (s : string) :
  JsString.truthy (trim s) = true -> String.eqb (trimStart s) EmptyString = false.
Proof.
  unfold trim. intros H. apply truthy_true in H.
  apply String.eqb_neq. intros E. rewrite E in H. now apply H.
Qed.

(** [trimEnd] keeps the characters it does not drop where they were. *)
Lemma trimEnd_cons_inv (s r : string) (a : ascii) :
  trimEnd s = String a r -> exists s', s = String a s' /\ trimEnd s' = r.
Proof.
  destruct s as [| c s']; cbn [trimEnd]; [discriminate |].
  destruct (isWhiteSpace c && String.eqb (trimEnd s') EmptyString); [discriminate |].
  intros [= -> <-]. eauto.
Qed.

Lemma lt_Fin (q : Q) (n : Z) : lt (Fin q) (of_Z n) = false <-> (inject_Z n <= q)%Q.
Proof.
  unfold lt, of_Z. rewrite negb_false_iff. apply Qle_bool_iff.
Qed.

Lemma gt_Fin (q : Q) (n : Z) : gt (Fin q) (of_Z n) = false <-> (q <= inject_Z n)%Q.
Proof.
  unfold gt, lt, of_Z. rewrite negb_false_iff. apply Qle_bool_iff.
Qed.

(** A literal with a radix prefix is read by the decimal reader as the
    single digit zero. *)
Lemma parse_decimal_radix_prefix (u t : string) (n : Z) :
  parse_non_decimal u = Some n -> trimEnd t = u ->
  exists rest, parse_decimal t = Some (Fin (scaled 0 0), rest).
Proof.
  intros Hn Ht.
  destruct u as [| a u]; [discriminate Hn |].
  assert (Ha : a = "0"%char).
  { destruct a as [[] [] [] [] [] [] [] []]; try discriminate Hn; reflexivity. }
  subst a. destruct u as [| x r]; [discriminate Hn |].
  apply trimEnd_cons_inv in Ht. destruct Ht as (s1 & -> & Ht).
  apply trimEnd_cons_inv in Ht. destruct Ht as (s2 & -> & _).
  unfold parse_non_decimal in Hn.
  destruct (Ascii.eqb_spec x "x") as [-> |]; [eexists; reflexivity |].
  destruct (Ascii.eqb_spec x "X") as [-> |]; [eexists; reflexivity |].
  destruct (Ascii.eqb_spec x "o") as [-> |]; [eexists; reflexivity |].
  destruct (Ascii.eqb_spec x "O") as [-> |]; [eexists; reflexivity |].
  destruct (Ascii.eqb_spec x "b") as [-> |]; [eexists; reflexivity |].
  destruct (Ascii.eqb_spec x "B") as [-> |]; [eexists; reflexivity |].
  discriminate Hn.
Qed.

(** A string that is not blank, that [Number] reads as a number, and that
    [parseFloat] reads as a value neither below [lo] nor above [hi], with
    [lo] positive: both readings agree on a finite number from [lo] to
    [hi]. *)
Lemma number_within (s : string) (lo hi : Z) :
  (0 < lo)%Z ->
  JsString.truthy (trim s) = true ->
  isNaN s = false ->
  lt (parseFloat s) (of_Z lo) = false ->
  gt (parseFloat s) (of_Z hi) = false ->
  exists q, ToNumber s = Fin q /\ parseFloat s = Fin q /\
            (inject_Z lo <= q)%Q /\ (q <= inject_Z hi)%Q.
Proof.
  intros Hlo Htrim Hnan Hlt Hgt.
  apply trim_truthy_trimStart in Htrim.
  unfold isNaN, ToNumber in *. unfold parseFloat in *. rewrite Htrim in *.
  destruct (parse_decimal (trimStart s)) as [[v rest] |] eqn:E; [| discriminate Hnan].
  destruct (String.eqb (trimStart rest) EmptyString).
  - destruct v as [| q | |]; try discriminate.
    exists q. rewrite lt_Fin in Hlt. rewrite gt_Fin in Hgt. auto.
  - destruct (parse_non_decimal (trimEnd (trimStart s))) as [n |] eqn:N;
      [| discriminate Hnan].
    destruct (parse_decimal_radix_prefix _ _ _ N eq_refl) as [rest' E'].
    rewrite E in E'. injection E' as -> _.
    apply lt_Fin in Hlt. exfalso.
    unfold scaled, Qle in Hlt. cbn in Hlt. lia.
Qed.

End Numbers.

(* ===================================================================== *)
(** ** Decimal numerals *)
(* ===================================================================== *)

Section Numerals.

Import JsNumber.

Lemma digit_of_decimal (c : ascii) :
  is_decimal_digit c = true -> digit_of 10 c = Some (digit c).
Proof.
  unfold is_decimal_digit, digit_of, char_value, digit. intros H. rewrite H.
  apply andb_prop in H. destruct H as [H1 H2].
  apply Z.leb_le in H1, H2.
  destruct (Z.ltb_spec (Z.of_N (N_of_ascii c) - 48) 10); [reflexivity | lia].
Qed.

(** A digit is not white space, not a sign, not a letter. *)
Lemma decimal_digit_cases (c : ascii) :
  is_decimal_digit c = true ->
  In c ["0"; "1"; "2"; "3"; "4"; "5"; "6"; "7"; "8"; "9"]%char.
Proof.
  destruct c as [[] [] [] [] [] [] [] []]; intros H; try discriminate H;
    cbn; tauto.
Qed.

Lemma span_digits_all (s r : string) :
  all_digits s = true ->
  span_digits 10 (s ++ r) =
    ((digit_list s ++ fst (span_digits 10 r))%list, snd (span_digits 10 r)).
Proof.
  induction s as [| c s IH]; intros H.
  - cbn. now destruct (span_digits 10 r).
  - cbn [all_digits] in H. apply andb_prop in H. destruct H as [Hc Hs].
    cbn [append span_digits]. rewrite (digit_of_decimal c Hc), (IH Hs).
    reflexivity.
Qed.

Lemma span_digits_whole (s : string) :
  all_digits s = true -> span_digits 10 s = (digit_list s, EmptyString).
Proof.
  intros H. pose proof (span_digits_all s EmptyString H) as E.
  assert (Hs : s ++ EmptyString = s).
  { clear. induction s as [| c s IH]; cbn; [reflexivity | now rewrite IH]. }
  rewrite Hs in E. rewrite E. cbn. now rewrite app_nil_r.
Qed.

Lemma digit_list_app (a b : string) :
  digit_list (a ++ b) = (digit_list a ++ digit_list b)%list.
Proof. induction a as [| c a IH]; cbn; [reflexivity | now rewrite IH]. Qed.

Lemma length_digit_list (s : string) : length (digit_list s) = String.length s.
Proof. induction s as [| c s IH]; cbn; [reflexivity | now rewrite IH]. Qed.

Lemma is_nil_digit_list (s : string) :
  s <> EmptyString -> is_nil (digit_list s) = false.
Proof. destruct s; [congruence | reflexivity]. Qed.

(** What the decimal reader makes of a numeral. *)
Lemma parse_decimal_numeral (ip : string) (fp : option string) :
  is_numeral ip fp ->
  parse_decimal (numeral ip fp) = Some (Fin (numeral_value ip fp), EmptyString).
Proof.
  intros (Hip & Hne & Hfp).
  destruct ip as [| c ip]; [congruence |].
  assert (Hc : is_decimal_digit c = true).
  { cbn [all_digits] in Hip. now apply andb_prop in Hip. }
  assert (Hhead : forall r, parse_decimal (String c r) = parse_unsigned (String c r)).
  { intros r. apply decimal_digit_cases in Hc. cbn [In] in Hc.
    repeat (destruct Hc as [<- | Hc]; [reflexivity |]). contradiction. }
  assert (Hinf : forall r, String.prefix "Infinity" (String c r) = false).
  { intros r. apply decimal_digit_cases in Hc. cbn [In] in Hc.
    repeat (destruct Hc as [<- | Hc]; [reflexivity |]). contradiction. }
  destruct fp as [f |]; cbn [numeral numeral_value].
  - set (v := scaled _ _).
    cbn [append]. rewrite Hhead. unfold parse_unsigned. rewrite Hinf.
    change (String c (ip ++ String "." f)) with (String c ip ++ String "." f).
    rewrite (span_digits_all _ _ Hip).
    change (span_digits 10 (String "." f)) with (@nil Z, String "." f).
    cbn [fst snd]. rewrite app_nil_r.
    rewrite (span_digits_whole f Hfp).
    rewrite is_nil_digit_list by discriminate. cbn [andb parse_exponent].
    subst v. unfold int_value. rewrite digit_list_app, length_digit_list.
    rewrite Z.sub_0_l. reflexivity.
  - rewrite Hhead. unfold parse_unsigned. rewrite Hinf.
    rewrite (span_digits_whole _ Hip).
    rewrite is_nil_digit_list by discriminate. reflexivity.
Qed.

Lemma trimStart_numeral (ip : string) (fp : option string) :
  is_numeral ip fp -> trimStart (numeral ip fp) = numeral ip fp.
Proof.
  intros (Hip & Hne & _).
  destruct ip as [| c ip]; [congruence |].
  cbn [all_digits] in Hip. apply andb_prop in Hip. destruct Hip as [Hc _].
  apply decimal_digit_cases in Hc. cbn [In] in Hc.
  destruct fp; cbn [numeral append];
    repeat (destruct Hc as [<- | Hc]; [reflexivity |]); contradiction.
Qed.

Lemma parseFloat_numeral (ip : string) (fp : option string) :
  is_numeral ip fp -> parseFloat (numeral ip fp) = Fin (numeral_value ip fp).
Proof.
  intros H. unfold parseFloat.
  rewrite (trimStart_numeral _ _ H), (parse_decimal_numeral _ _ H). reflexivity.
Qed.

Lemma ToNumber_numeral (ip : string) (fp : option string) :
  is_numeral ip fp -> ToNumber (numeral ip fp) = Fin (numeral_value ip fp).
Proof.
  intros H. unfold ToNumber.
  rewrite (trimStart_numeral _ _ H), (parse_decimal_numeral _ _ H).
  destruct H as (_ & Hne & _).
  destruct ip as [| c ip]; [congruence |].
  destruct fp; reflexivity.
Qed.

Lemma truthy_trim_numeral (ip : string) (fp : option string) :
  is_numeral ip fp -> JsString.truthy (trim (numeral ip fp)) = true.
Proof.
  intros H. unfold trim. rewrite (trimStart_numeral _ _ H).
  destruct H as (Hip & Hne & _).
  destruct ip as [| c ip]; [congruence |].
  cbn [all_digits] in Hip. apply andb_prop in Hip. destruct Hip as [Hc _].
  apply decimal_digit_cases in Hc. cbn [In] in Hc.
  assert (Hw : isWhiteSpace c = false)
    by (repeat (destruct Hc as [<- | Hc]; [reflexivity |]); contradiction).
  destruct fp; cbn [numeral append trimEnd]; rewrite Hw; reflexivity.
Qed.

(** [parseInt] reads the digits before the point. *)
Lemma parseInt_numeral (ip : string) (fp : option string) :
  is_numeral ip fp -> parseInt (numeral ip fp) = of_Z (int_value ip).
Proof.
  intros H. unfold parseInt. rewrite (trimStart_numeral _ _ H).
  destruct H as (Hip & Hne & Hfp).
  assert (Hspan : fst (span_digits 10 (numeral ip fp)) = digit_list ip).
  { destruct fp as [f |]; cbn [numeral].
    - rewrite (span_digits_all _ _ Hip).
      change (span_digits 10 (String "." f)) with (@nil Z, String "." f).
      cbn [fst]. now rewrite app_nil_r.
    - now rewrite (span_digits_whole _ Hip). }
  destruct ip as [| c ip]; [congruence |].
  pose proof Hip as Hip'.
  cbn [all_digits] in Hip. apply andb_prop in Hip. destruct Hip as [Hc Hrest].
  assert (Hsecond : forall x r, numeral (String c ip) fp = String c (String x r) ->
                    Ascii.eqb x "x" || Ascii.eqb x "X" = false).
  { intros x r E. destruct ip as [| c1 ip].
    - destruct fp as [f |]; cbn in E; [| discriminate E].
      injection E as <- _. reflexivity.
    - cbn [all_digits] in Hrest. apply andb_prop in Hrest. destruct Hrest as [Hc1 _].
      assert (x = c1) by (destruct fp; cbn in E; congruence). subst x.
      apply decimal_digit_cases in Hc1. cbn [In] in Hc1.
      repeat (destruct Hc1 as [<- | Hc1]; [reflexivity |]). contradiction. }
  set (t := numeral (String c ip) fp) in *.
  assert (Ht : exists r, t = String c r).
  { subst t. destruct fp; cbn [numeral append]; eauto. }
  destruct Ht as [r Ht].
  assert (Hgoal :
    (let '(sign, t1) :=
       match t with
       | String "+" r => (1%Z, r)
       | String "-" r => ((-1)%Z, r)
       | _ => (1%Z, t)
       end in
     let '(radix, t2) :=
       match t1 with
       | String "0" (String x r) =>
           if Ascii.eqb x "x" || Ascii.eqb x "X" then (16%Z, r) else (10%Z, t1)
       | _ => (10%Z, t1)
       end in
     (sign, radix, t2)) = (1%Z, 10%Z, t)).
  { rewrite Ht in *. apply decimal_digit_cases in Hc. cbn [In] in Hc.
    destruct r as [| x r'].
    - repeat (destruct Hc as [<- | Hc]; [reflexivity |]). contradiction.
    - specialize (Hsecond x r' eq_refl).
      repeat (destruct Hc as [<- | Hc]; [cbn; rewrite ?Hsecond; reflexivity |]).
      contradiction. }
  revert Hgoal.
  destruct (match t with
            | String "+" r => (1%Z, r)
            | String "-" r => ((-1)%Z, r)
            | _ => (1%Z, t)
            end) as [sign t1].
  destruct (match t1 with
            | String "0" (String x r) =>
                if Ascii.eqb x "x" || Ascii.eqb x "X" then (16%Z, r) else (10%Z, t1)
            | _ => (10%Z, t1)
            end) as [radix t2].
  intros [= -> -> ->].
  destruct (span_digits 10 t) as [ds rest] eqn:E. cbn [fst] in Hspan. subst ds.
  rewrite is_nil_digit_list by discriminate.
  rewrite Z.mul_1_l. reflexivity.
Qed.

Lemma isNaN_numeral (ip : string) (fp : option string) :
  is_numeral ip fp -> isNaN (numeral ip fp) = false.
Proof. intros H. unfold isNaN. now rewrite (ToNumber_numeral _ _ H). Qed.

Lemma lt_of_Z (a b : Z) : lt (of_Z a) (of_Z b) = (a <? b)%Z.
Proof.
  unfold lt, of_Z, Qle_bool. cbn. rewrite !Z.mul_1_r.
  rewrite Z.ltb_antisym. reflexivity.
Qed.

End Numerals.

(* ===================================================================== *)
(** ** Generating a video *)
(* ===================================================================== *)


Section Video.
Variable JSON_stringify : json -> string.
Variable ctx : PageContext.

Lemma validateVideoForm_valid (st : VideoState) :
  snd (validateVideoForm st) =
    JsString.truthy (trim (videoTimeRequired (videoFormData st)))
    && negb (isNaN (videoTimeRequired (videoFormData st)))
    && negb (lt (parseFloat (videoTimeRequired (videoFormData st))) (of_Z 6))
    && negb (gt (parseFloat (videoTimeRequired (videoFormData st))) (of_Z 10))
    && JsString.truthy (trim (videoPrompt (videoFormData st))).
Proof.
  unfold validateVideoForm. cbn [snd].
  destruct (JsString.truthy (trim (videoTimeRequired (videoFormData st))));
  destruct (isNaN (videoTimeRequired (videoFormData st)));
  destruct (lt (parseFloat (videoTimeRequired (videoFormData st))) (of_Z 6));
  destruct (gt (parseFloat (videoTimeRequired (videoFormData st))) (of_Z 10));
  destruct (JsString.truthy (trim (videoPrompt (videoFormData st))));
  reflexivity.
Qed.

Lemma validateVideoForm_invalid (st : VideoState) :
  snd (validateVideoForm st) = false ->
  is_Some (videoErrors (fst (validateVideoForm st)) !! "timeRequired") \/
  is_Some (videoErrors (fst (validateVideoForm st)) !! "prompt").
Proof.
  rewrite validateVideoForm_valid.
  unfold validateVideoForm. cbn [snd fst videoErrors].
  destruct (JsString.truthy (trim (videoTimeRequired (videoFormData st))));
  destruct (isNaN (videoTimeRequired (videoFormData st)));
  destruct (lt (parseFloat (videoTimeRequired (videoFormData st))) (of_Z 6));
  destruct (gt (parseFloat (videoTimeRequired (videoFormData st))) (of_Z 10));
  destruct (JsString.truthy (trim (videoPrompt (videoFormData st))));
  cbn [negb orb andb]; intros H; try discriminate H;
  rewrite !is_Some_alt; (left; reflexivity) || (right; reflexivity).
Qed.

Lemma handleGenerateVideo_requests (st : VideoState) (store : Storage)
  (a : answer GeneratedVideo) :
  snd (handleGenerateVideo JSON_stringify ctx st store a) =
    if snd (validateVideoForm st)
    then [videoRequest ctx (videoFormData st)] else [].
Proof.
  unfold handleGenerateVideo.
  destruct (validateVideoForm st) as [st1 valid] eqn:E.
  assert (Hf : videoFormData st1 = videoFormData st).
  { unfold validateVideoForm in E. injection E as <- _. reflexivity. }
  cbn [snd]. destruct valid; cbn [negb]; [| reflexivity].
  rewrite Hf. destruct (await_data _ a); reflexivity.
Qed.

Lemma handleGenerateVideo_rejected (st : VideoState) (store : Storage)
  (a : answer GeneratedVideo) :
  snd (validateVideoForm st) = false ->
  handleGenerateVideo JSON_stringify ctx st store a
    = (fst (validateVideoForm st), store, []).
Proof.
  intros H. unfold handleGenerateVideo.
  destruct (validateVideoForm st) as [st1 valid]. cbn in H. subst valid.
  reflexivity.
Qed.

End Video.

(** C8.  [handleGenerateVideo] issues a request only when the duration
    typed is a number from 6 to 10 and the prompt is not empty; [Number]
    and [parseFloat] then read the same duration, and the request carries
    it divided by sixty.  An input that breaks either rule is rejected:
    no request is issued, storage is untouched and an error is stored
    under [timeRequired] or [prompt].  A duration of 3 is rejected. *)
Theorem handleGenerateVideo_gate
  (JSON_stringify : json -> string) (ctx : PageContext) (st : VideoState)
  (store : Storage) (a : answer GeneratedVideo) :
  (snd (handleGenerateVideo JSON_stringify ctx st store a) <> [] ->
     video_rules (videoFormData st) /\
     ToNumber (videoTimeRequired (videoFormData st))
       = parseFloat (videoTimeRequired (videoFormData st)) /\
     snd (handleGenerateVideo JSON_stringify ctx st store a)
       = [videoRequest ctx (videoFormData st)]) /\
  (~ video_rules (videoFormData st) ->
     handleGenerateVideo JSON_stringify ctx st store a
       = (fst (validateVideoForm st), store, []) /\
     (is_Some (videoErrors (fst (validateVideoForm st)) !! "timeRequired") \/
      is_Some (videoErrors (fst (validateVideoForm st)) !! "prompt"))) /\
  (videoTimeRequired (videoFormData st) = "3" ->
     ~ video_rules (videoFormData st)).
Proof.
  assert (Haccept : snd (validateVideoForm st) = true ->
            video_rules (videoFormData st) /\
            ToNumber (videoTimeRequired (videoFormData st))
              = parseFloat (videoTimeRequired (videoFormData st))).
  { rewrite validateVideoForm_valid. intros H.
    repeat (apply andb_prop in H; destruct H as [H ?]).
    repeat match goal with
           | K : negb _ = true |- _ => apply negb_true_iff in K
           end.
    destruct (number_within (videoTimeRequired (videoFormData st)) 6 10)
      as (q & Hn & Hp & Hlo & Hhi); try assumption; [lia |].
    unfold video_rules. rewrite Hn, Hp. cbn [between].
    split; [split; [auto |] | reflexivity].
    intros E. rewrite E in *. discriminate. }
  split; [| split].
  - rewrite handleGenerateVideo_requests.
    destruct (snd (validateVideoForm st)) eqn:E; [| congruence].
    intros _. destruct (Haccept eq_refl). auto.
  - intros Hrules.
    destruct (snd (validateVideoForm st)) eqn:E.
    + exfalso. apply Hrules. now apply Haccept.
    + split; [now apply handleGenerateVideo_rejected |].
      now apply validateVideoForm_invalid.
  - intros E [Hb _]. rewrite E in Hb. vm_compute in Hb. tauto.
Qed.

Lemma handleGenerateVideo_gate_witness :
  snd (handleGenerateVideo RefJson.stringify no_context eight_seconds ∅
         (Accepted (mkVideo "https://videos.example/1.mp4"))) <> [] /\
  video_rules (videoFormData eight_seconds) /\
  ~ video_rules (videoFormData three_seconds) /\
  handleGenerateVideo RefJson.stringify no_context three_seconds ∅
    (Accepted (mkVideo "https://videos.example/1.mp4"))
    = (fst (validateVideoForm three_seconds), ∅, []).
Proof.
  assert (H8 : snd (handleGenerateVideo RefJson.stringify no_context eight_seconds ∅
                      (Accepted (mkVideo "https://videos.example/1.mp4"))) <> [])
    by (vm_compute; discriminate).
  pose proof (handleGenerateVideo_gate RefJson.stringify no_context eight_seconds ∅
                (Accepted (mkVideo "https://videos.example/1.mp4"))) as (A8 & _ & _).
  pose proof (handleGenerateVideo_gate RefJson.stringify no_context three_seconds ∅
                (Accepted (mkVideo "https://videos.example/1.mp4"))) as (_ & R3 & T3).
  specialize (T3 eq_refl).
  exact (conj H8 (conj (proj1 (A8 H8)) (conj T3 (proj1 (R3 T3))))).
Defined.

(* ===================================================================== *)
(** ** Generating a deck *)
(* ===================================================================== *)

Section Deck.

Variable JSON_stringify : json -> string.
Variable ctx : PageContext.

Lemma validatePptForm_valid (st : DeckState) :
  snd (validatePptForm st) =
    negb (negb (JsString.truthy (trim (numberOfSlides (pptFormData st))))
          || isNaN (numberOfSlides (pptFormData st))
          || lt (parseInt (numberOfSlides (pptFormData st))) (of_Z 5)
          || gt (parseInt (numberOfSlides (pptFormData st))) (of_Z 15))
    && negb (negb (JsString.truthy (trim (timeRequired (pptFormData st))))
             || isNaN (timeRequired (pptFormData st))
             || lt (parseFloat (timeRequired (pptFormData st))) (of_Z 3)
             || gt (parseFloat (timeRequired (pptFormData st))) (of_Z 15)).
Proof.
  unfold validatePptForm. cbn [snd].
  destruct (negb (JsString.truthy (trim (numberOfSlides (pptFormData st))))
            || isNaN (numberOfSlides (pptFormData st))
            || lt (parseInt (numberOfSlides (pptFormData st))) (of_Z 5)
            || gt (parseInt (numberOfSlides (pptFormData st))) (of_Z 15));
  destruct (negb (JsString.truthy (trim (timeRequired (pptFormData st))))
            || isNaN (timeRequired (pptFormData st))
            || lt (parseFloat (timeRequired (pptFormData st))) (of_Z 3)
            || gt (parseFloat (timeRequired (pptFormData st))) (of_Z 15));
  reflexivity.
Qed.

Lemma validatePptForm_invalid (st : DeckState) :
  snd (validatePptForm st) = false ->
  is_Some (pptErrors (fst (validatePptForm st)) !! "numberOfSlides") \/
  is_Some (pptErrors (fst (validatePptForm st)) !! "timeRequired").
Proof.
  rewrite validatePptForm_valid.
  unfold validatePptForm. cbn [snd fst pptErrors].
  destruct (negb (JsString.truthy (trim (numberOfSlides (pptFormData st))))
            || isNaN (numberOfSlides (pptFormData st))
            || lt (parseInt (numberOfSlides (pptFormData st))) (of_Z 5)
            || gt (parseInt (numberOfSlides (pptFormData st))) (of_Z 15));
  destruct (negb (JsString.truthy (trim (timeRequired (pptFormData st))))
            || isNaN (timeRequired (pptFormData st))
            || lt (parseFloat (timeRequired (pptFormData st))) (of_Z 3)
            || gt (parseFloat (timeRequired (pptFormData st))) (of_Z 15));
  cbn [negb andb]; intros H; try discriminate H;
  rewrite !is_Some_alt; (left; reflexivity) || (right; reflexivity).
Qed.

Lemma handleCreatePresentation_requests (st : DeckState) (store : Storage)
  (a : answer PresentationDeck) :
  snd (handleCreatePresentation JSON_stringify ctx st store a) =
    if snd (validatePptForm st)
    then [generateRequest ctx (pptFormData st)] else [].
Proof.
  unfold handleCreatePresentation.
  destruct (validatePptForm st) as [st1 valid] eqn:E.
  assert (Hf : pptFormData st1 = pptFormData st).
  { unfold validatePptForm in E. injection E as <- _. reflexivity. }
  cbn [snd]. destruct valid; cbn [negb]; [| reflexivity].
  rewrite Hf. destruct (await_data _ a); reflexivity.
Qed.

(** A rejected form: no request, storage untouched, an error stored. *)
Lemma handleCreatePresentation_rejected (st : DeckState) (store : Storage)
  (a : answer PresentationDeck) :
  snd (validatePptForm st) = false ->
  handleCreatePresentation JSON_stringify ctx st store a
    = (fst (validatePptForm st), store, []).
Proof.
  intros H. unfold handleCreatePresentation.
  destruct (validatePptForm st) as [st1 valid]. cbn in H. subst valid.
  reflexivity.
Qed.

End Deck.

Section GateFacts.

Lemma parseInt_shape (s : string) : parseInt s = NaN \/ exists z, parseInt s = of_Z z.
Proof.
  unfold parseInt.
  repeat match goal with
         | |- context [let '(_, _) := ?x in _] => destruct x
         end.
  destruct (is_nil _); eauto.
Qed.

Lemma count_bounds (x : number) :
  (x = NaN \/ exists z, x = of_Z z) ->
  (lt x (of_Z 5) = false /\ gt x (of_Z 15) = false
   <-> x = NaN \/ integer_between 5 15 x).
Proof.
  intros [-> | [z ->]].
  - split; [now left | split; reflexivity].
  - unfold gt. rewrite !lt_of_Z, !Z.ltb_ge. split.
    + intros [H5 H15]. right. exists z. split; [reflexivity | lia].
    + intros [H | (n & Hq & Hn)]; [discriminate H |].
      unfold Qeq in Hq. cbn [Qnum Qden inject_Z] in Hq. lia.
Qed.

Lemma slide_count_passes_iff (s : string) :
  negb (JsString.truthy (trim s)) || isNaN s
    || lt (parseInt s) (of_Z 5) || gt (parseInt s) (of_Z 15) = false
  <-> slide_count_passes s.
Proof.
  unfold slide_count_passes.
  rewrite <- (count_bounds _ (parseInt_shape s)), blank_truthy.
  rewrite !orb_false_iff, negb_false_iff, not_false_iff_true. tauto.
Qed.

Lemma duration_passes_iff (t : string) :
  negb (JsString.truthy (trim t)) || isNaN t
    || lt (parseFloat t) (of_Z 3) || gt (parseFloat t) (of_Z 15) = false
  <-> duration_passes t.
Proof.
  unfold duration_passes.
  rewrite blank_truthy, !orb_false_iff, negb_false_iff, not_false_iff_true.
  split.
  - intros (((Ht & Hn) & Hlt) & Hgt).
    destruct (number_within t 3 15) as (q & _ & Hp & Hlo & Hhi); try assumption; [lia |].
    rewrite Hp. cbn [between]. auto.
  - intros (Ht & Hn & Hb).
    destruct (parseFloat t) as [| q | |]; cbn [between] in Hb; try contradiction.
    destruct Hb as [Hlo Hhi]. rewrite lt_Fin, gt_Fin. auto.
Qed.

End GateFacts.

Section GateEntries.

Lemma validatePptForm_count_entry (st : DeckState) :
  pptErrors (fst (validatePptForm st)) !! "numberOfSlides" =
    if negb (JsString.truthy (trim (numberOfSlides (pptFormData st))))
       || isNaN (numberOfSlides (pptFormData st))
       || lt (parseInt (numberOfSlides (pptFormData st))) (of_Z 5)
       || gt (parseInt (numberOfSlides (pptFormData st))) (of_Z 15)
    then Some "Please enter a number between 5 and 15" else None.
Proof.
  unfold validatePptForm. cbn [fst pptErrors].
  repeat match goal with |- context [if ?b then _ else _] => destruct b end;
    reflexivity.
Qed.

Lemma validatePptForm_time_entry (st : DeckState) :
  pptErrors (fst (validatePptForm st)) !! "timeRequired" =
    if negb (JsString.truthy (trim (timeRequired (pptFormData st))))
       || isNaN (timeRequired (pptFormData st))
       || lt (parseFloat (timeRequired (pptFormData st))) (of_Z 3)
       || gt (parseFloat (timeRequired (pptFormData st))) (of_Z 15)
    then Some "Please enter a time between 3 and 15 minutes" else None.
Proof.
  unfold validatePptForm. cbn [fst pptErrors].
  repeat match goal with |- context [if ?b then _ else _] => destruct b end;
    reflexivity.
Qed.

(** A numeral is its digits read as one integer over a power of ten. *)
Lemma numeral_value_fraction (ip : string) (fp : option string) :
  exists m k : Z,
    (0 <= k <= Z.of_nat (digits ip fp))%Z /\
    (numeral_value ip fp == inject_Z m / inject_Z (10 ^ k))%Q.
Proof.
  unfold numeral_value, digits, scaled. destruct fp as [f |].
  - exists (int_value (ip ++ f)), (Z.of_nat (String.length f)). split; [lia |].
    rewrite Qpower_opp, <- Zpower_Qpower by lia. reflexivity.
  - exists (int_value ip), 0%Z. split; [lia |].
    change (inject_Z 10 ^ 0)%Q with 1%Q. change (inject_Z (10 ^ 0)) with 1%Q.
    unfold Qdiv. change (/ 1)%Q with 1%Q. reflexivity.
Qed.

(** A numeral of at most fifteen digits that is below (above) an integer
    is so by at least ten to the power minus fifteen. *)
Lemma numeral_margin (ip : string) (fp : option string) (b : Z) :
  (digits ip fp <= 15)%nat ->
  ((numeral_value ip fp < inject_Z b)%Q ->
   (numeral_value ip fp <= inject_Z b - (1 # 10 ^ 15))%Q) /\
  ((inject_Z b < numeral_value ip fp)%Q ->
   (inject_Z b + (1 # 10 ^ 15) <= numeral_value ip fp)%Q).
Proof.
  intros Hd. destruct (numeral_value_fraction ip fp) as (m & k & Hk & Hv).
  assert (HD : (0 < 10 ^ k)%Z) by (apply Z.pow_pos_nonneg; lia).
  assert (HE : (0 < 10 ^ (15 - k))%Z) by (apply Z.pow_pos_nonneg; lia).
  assert (Hsplit : (10 ^ 15 = 10 ^ k * 10 ^ (15 - k))%Z).
  { rewrite <- Z.pow_add_r by lia. f_equal. lia. }
  set (D := (10 ^ k)%Z) in *. set (E := (10 ^ (15 - k))%Z) in *.
  assert (Hfrac : (inject_Z m / inject_Z D == m # Z.to_pos D)%Q).
  { unfold Qdiv, Qmult, Qinv, inject_Z, Qeq. cbn [Qnum Qden].
    destruct D as [| p | p]; try lia. cbn. lia. }
  rewrite Hv, Hfrac.
  assert (H15 : Z.pos (10 ^ 15) = (D * E)%Z) by (rewrite <- Hsplit; reflexivity).
  unfold Qminus, Qlt, Qle, Qplus, Qopp, inject_Z. cbn [Qnum Qden].
  rewrite ?Pos2Z.inj_mul, ?Z2Pos.id, ?H15 by lia.
  split; intros H; nia.
Qed.

End GateEntries.

Section IntegerPart.

Lemma value_of_digits_bound (ds : list Z) :
  Forall (fun d => 0 <= d <= 9)%Z ds ->
  (0 <= value_of 10 ds < 10 ^ Z.of_nat (length ds))%Z.
Proof.
  induction ds as [| x ds IH] using rev_ind; intros H.
  - cbn. lia.
  - apply Forall_app in H. destruct H as [Hds Hx]. inversion Hx as [| ? ? Hx9 _]; subst.
    specialize (IH Hds).
    unfold value_of in *. rewrite fold_left_app. cbn [fold_left].
    rewrite length_app. cbn [length].
    rewrite Nat2Z.inj_add, Z.pow_add_r by lia. change (10 ^ Z.of_nat 1)%Z with 10%Z. lia.
Qed.

Lemma digit_list_digits (s : string) :
  all_digits s = true -> Forall (fun d => 0 <= d <= 9)%Z (digit_list s).
Proof.
  induction s as [| c s IH]; cbn [all_digits digit_list]; intros H; [constructor |].
  apply andb_prop in H. destruct H as [Hc Hs]. constructor; [| now apply IH].
  unfold is_decimal_digit in Hc. apply andb_prop in Hc. destruct Hc as [H1 H2].
  apply Z.leb_le in H1, H2. unfold digit. lia.
Qed.

(** The integer part of a numeral of at most fifteen digits is below ten
    to the power fifteen. *)
Lemma int_value_bound (ip : string) (fp : option string) :
  is_numeral ip fp -> (digits ip fp <= 15)%nat ->
  (0 <= int_value ip < 10 ^ 15)%Z.
Proof.
  intros (Hip & _ & _) Hd. unfold int_value.
  pose proof (value_of_digits_bound _ (digit_list_digits ip Hip)) as H.
  rewrite length_digit_list in H.
  assert (Hlen : (String.length ip <= 15)%nat) by (unfold digits in Hd; lia).
  assert (Hpow : (10 ^ Z.of_nat (String.length ip) <= 10 ^ 15)%Z)
    by (apply Z.pow_le_mono_r; lia).
  lia.
Qed.

End IntegerPart.




(* ===================================================================== *)
(** ** Integers written in decimal and read back *)
(* ===================================================================== *)

Section DecimalText.

Import SlideStore.

Lemma all_digits_string_of_uint (d : Decimal.uint) :
  all_digits (NilEmpty.string_of_uint d) = true.
Proof. induction d; cbn [NilEmpty.string_of_uint all_digits]; rewrite ?IHd; reflexivity. Qed.

(** Horner's rule from the least significant digit. *)
Lemma value_of_snoc (l : list Z) (x : Z) :
  value_of 10 (l ++ [x])%list = (10 * value_of 10 l + x)%Z.
Proof. unfold value_of. rewrite fold_left_app. reflexivity. Qed.

Lemma value_of_app (a b : list Z) :
  value_of 10 (a ++ b)%list
    = (value_of 10 a * 10 ^ Z.of_nat (length b) + value_of 10 b)%Z.
Proof.
  induction b as [| x b IH] using rev_ind.
  - rewrite app_nil_r. cbn. lia.
  - rewrite app_assoc, !value_of_snoc, IH, length_app. cbn [length].
    rewrite Nat2Z.inj_add, Z.pow_add_r by lia. cbn. lia.
Qed.

Lemma digit_list_revapp (d d' : Decimal.uint) :
  digit_list (NilEmpty.string_of_uint (Decimal.revapp d d'))
    = (rev (digit_list (NilEmpty.string_of_uint d))
       ++ digit_list (NilEmpty.string_of_uint d'))%list.
Proof.
  revert d'. induction d; intros d'; cbn [Decimal.revapp]; [reflexivity | ..];
    rewrite IHd; cbn [NilEmpty.string_of_uint digit_list rev];
    rewrite <- app_assoc; reflexivity.
Qed.

(** The digits of a numeral, least significant first, make the number
    the library reads from them. *)
Lemma of_lu_value (d : Decimal.uint) :
  Z.of_N (DecimalPos.Unsigned.of_lu d)
    = value_of 10 (rev (digit_list (NilEmpty.string_of_uint d))).
Proof.
  induction d; [reflexivity | ..];
    cbn [NilEmpty.string_of_uint digit_list rev DecimalPos.Unsigned.of_lu];
    rewrite value_of_snoc, <- IHd, ?N2Z.inj_add, ?N2Z.inj_mul;
    vm_compute (digit _); lia.
Qed.

Lemma int_value_string_of_uint (d : Decimal.uint) :
  int_value (NilEmpty.string_of_uint d) = Z.of_uint d.
Proof.
  unfold int_value, Z.of_uint. rewrite DecimalPos.Unsigned.of_uint_alt, of_lu_value.
  unfold Decimal.rev. rewrite digit_list_revapp. cbn [NilEmpty.string_of_uint digit_list].
  rewrite app_nil_r, rev_involutive. reflexivity.
Qed.

(** The text of a natural number is a run of digits that denotes it. *)
Lemma Z_to_string_digits (n : Z) :
  (0 <= n)%Z ->
  all_digits (Js.Z_to_string n) = true /\
  Js.Z_to_string n <> EmptyString /\
  int_value (Js.Z_to_string n) = n.
Proof.
  intros Hn. unfold Js.Z_to_string.
  pose proof (DecimalZ.of_to n) as Hof.
  destruct (Z.to_int n) as [d | d] eqn:E.
  - cbn [NilZero.string_of_int]. unfold NilZero.string_of_uint.
    cbn [Z.of_int] in Hof.
    destruct d;
      [cbn in Hof; subst n; repeat split; discriminate | ..];
      (split; [apply all_digits_string_of_uint |]);
      (split; [discriminate |]); rewrite int_value_string_of_uint; exact Hof.
  - exfalso. destruct n; try discriminate E. lia.
Qed.

Lemma parseInt10_digits (s : string) :
  all_digits s = true -> s <> EmptyString -> parseInt10 s = of_Z (int_value s).
Proof.
  intros Hs Hne. unfold parseInt10.
  assert (Ht : trimStart s = s)
    by (apply (trimStart_numeral s None); repeat split; assumption).
  rewrite Ht.
  destruct s as [| c r]; [congruence |].
  assert (Hc : is_decimal_digit c = true)
    by (cbn [all_digits] in Hs; now apply andb_prop in Hs).
  assert (Hsign :
    match String c r with
    | String "+" r0 => (1%Z, r0)
    | String "-" r0 => ((-1)%Z, r0)
    | _ => (1%Z, String c r)
    end = (1%Z, String c r)).
  { apply decimal_digit_cases in Hc. cbn [In] in Hc.
    repeat (destruct Hc as [<- | Hc]; [reflexivity |]). contradiction. }
  rewrite Hsign, (span_digits_whole _ Hs).
  rewrite is_nil_digit_list by discriminate. rewrite Z.mul_1_l. reflexivity.
Qed.

(** [parseInt(n.toString(), 10)] is [n], for every integer. *)
Lemma parseInt10_Z_to_string (n : Z) : parseInt10 (Js.Z_to_string n) = of_Z n.
Proof.
  destruct (Z.leb_spec 0 n) as [Hn | Hn].
  - destruct (Z_to_string_digits n Hn) as (Hd & Hne & Hv).
    rewrite parseInt10_digits by assumption. now rewrite Hv.
  - destruct n as [| p | p]; try lia.
    assert (E : Js.Z_to_string (Z.neg p)
                = String "-" (Js.Z_to_string (Z.pos p))).
    { unfold Js.Z_to_string. cbn [Z.to_int NilZero.string_of_int].
      unfold NilZero.string_of_uint.
      pose proof (DecimalPos.Unsigned.to_uint_nonnil p) as Hnil.
      destruct (Pos.to_uint p); [congruence | reflexivity ..]. }
    destruct (Z_to_string_digits (Z.pos p)) as (Hd & Hne & Hv); [lia |].
    rewrite E. unfold parseInt10.
    change (trimStart (String "-" ?x)) with (String "-" x).
    cbv beta iota.
    rewrite (span_digits_whole _ Hd), is_nil_digit_list by assumption.
    fold (int_value (Js.Z_to_string (Z.pos p))). rewrite Hv. reflexivity.
Qed.

Lemma Z_to_string_truthy (n : Z) : JsString.truthy (Js.Z_to_string n) = true.
Proof.
  apply truthy_true. destruct (Z.leb_spec 0 n) as [Hn | Hn].
  - now destruct (Z_to_string_digits n Hn) as (_ & Hne & _).
  - destruct n as [| p | p]; try lia. unfold Js.Z_to_string. discriminate.
Qed.

End DecimalText.

(* ===================================================================== *)
(** ** The stored slide index follows the viewer *)
(* ===================================================================== *)

Section SlideIndex.

Import SlideStore.

Variable JSON_stringify : json -> string.
Variable ctx : PageContext.

Lemma initialSlide_setItem (n : Z) (store : Storage) :
  initialSlide (setItem "raw2ready_currentSlide" (Js.Z_to_string n) store) = of_Z n.
Proof.
  unfold initialSlide, getItem, setItem. rewrite lookup_insert_eq.
  cbn [saved_truthy]. rewrite Z_to_string_truthy. cbn.
  apply parseInt10_Z_to_string.
Qed.

Lemma initialSlide_other_key (key value : string) (store : Storage) :
  key <> "raw2ready_currentSlide" ->
  initialSlide (setItem key value store) = initialSlide store.
Proof.
  intros H. unfold initialSlide, getItem, setItem.
  now rewrite lookup_insert_ne.
Qed.

Lemma goToSlide_synced (index : Z) (st : DeckState) (store : Storage) :
  synced (fst (goToSlide index st store)) (snd (goToSlide index st store)).
Proof. unfold synced, goToSlide. cbn [fst snd]. apply initialSlide_setItem. Qed.

Lemma nextSlide_synced (st : DeckState) (store : Storage) :
  synced st store -> synced (fst (nextSlide st store)) (snd (nextSlide st store)).
Proof.
  intros H. unfold nextSlide. destruct (presentation st); [| exact H].
  destruct (currentSlide st <? _)%Z; [| exact H].
  unfold synced. cbn [fst snd]. apply initialSlide_setItem.
Qed.

Lemma prevSlide_synced (st : DeckState) (store : Storage) :
  synced st store -> synced (fst (prevSlide st store)) (snd (prevSlide st store)).
Proof.
  intros H. unfold prevSlide. destruct (currentSlide st >? 0)%Z; [| exact H].
  unfold synced. cbn [fst snd]. apply initialSlide_setItem.
Qed.

Lemma handleCreatePresentation_synced
  (st : DeckState) (store : Storage) (a : answer PresentationDeck) :
  synced st store ->
  synced (fst (fst (handleCreatePresentation JSON_stringify ctx st store a)))
         (snd (fst (handleCreatePresentation JSON_stringify ctx st store a))).
Proof.
  intros H. unfold handleCreatePresentation.
  destruct (validatePptForm st) as [st1 valid] eqn:E.
  assert (Hc : currentSlide st1 = currentSlide st).
  { unfold validatePptForm in E. injection E as <- _. reflexivity. }
  destruct valid; cbn [negb]; [| unfold synced in *; cbn; now rewrite Hc].
  destruct (await_data _ a); unfold synced in *; cbn [fst snd currentSlide].
  - apply (initialSlide_setItem 0).
  - now rewrite Hc.
Qed.

Lemma handleEditPresentation_synced
  (st : DeckState) (store : Storage) (a : answer PresentationDeck) :
  synced st store ->
  synced (fst (fst (handleEditPresentation JSON_stringify ctx st store a)))
         (snd (fst (handleEditPresentation JSON_stringify ctx st store a))).
Proof.
  intros H. unfold handleEditPresentation.
  destruct (presentation st); [| exact H].
  destruct (negb (JsString.truthy (trim (editPrompt st)))); [exact H |].
  destruct (await_data _ a); unfold synced in *; cbn [fst snd currentSlide];
    [| exact H].
  rewrite initialSlide_other_key by discriminate. exact H.
Qed.

Lemma handleBackToCardSelection_synced (st : DeckState) (store : Storage) :
  synced (fst (handleBackToCardSelection st store))
         (snd (handleBackToCardSelection st store)).
Proof.
  unfold synced, handleBackToCardSelection, initialSlide, getItem. cbn [fst snd].
  rewrite lookup_delete_eq. reflexivity.
Qed.

End SlideIndex.



Section Controls.

Import SlideStore.

Lemma press_in_range (deck : PresentationDeck) (c : control) (s : DeckState * Storage) :
  presentation (fst s) = Some deck -> in_range (fst s) -> offered deck c ->
  presentation (fst (press c s)) = Some deck /\ in_range (fst (press c s)).
Proof.
  intros Hp Hin Hoff. destruct c; cbn [press].
  - split; [| now apply nextSlide_in_range].
    unfold nextSlide. rewrite Hp. destruct (_ <? _)%Z; exact Hp.
  - split; [| now apply prevSlide_in_range].
    unfold prevSlide. destruct (_ >? _)%Z; exact Hp.
  - split; [exact Hp |]. apply goToSlide_in_range.
    intros deck' Hd. rewrite Hp in Hd. injection Hd as <-.
    cbn [offered] in Hoff. lia.
Qed.

Lemma press_synced (c : control) (s : DeckState * Storage) :
  synced (fst s) (snd s) -> synced (fst (press c s)) (snd (press c s)).
Proof.
  intros H. destruct c; cbn [press].
  - now apply nextSlide_synced.
  - now apply prevSlide_synced.
  - apply goToSlide_synced.
Qed.

End Controls.

(** X2.  However the arrows, indicators and thumbnails of a displayed
    deck are pressed, one after the other, the deck stays the same and
    the index stays a position of that deck; if the stored index agreed
    with the index on display, it still does. *)
Theorem press_all_in_range
  (deck : PresentationDeck) (cs : list SlideStore.control)
  (st : DeckState) (store : Storage) :
  presentation st = Some deck ->
  in_range st ->
  Forall (SlideStore.offered deck) cs ->
  presentation (fst (SlideStore.press_all cs (st, store))) = Some deck /\
  in_range (fst (SlideStore.press_all cs (st, store))) /\
  (SlideStore.synced st store ->
   SlideStore.synced (fst (SlideStore.press_all cs (st, store)))
                     (snd (SlideStore.press_all cs (st, store)))).
Proof.
  intros Hp Hin Hall.
  change st with (fst (st, store)) in Hp, Hin.
  change (SlideStore.synced st store)
    with (SlideStore.synced (fst (st, store)) (snd (st, store))).
  generalize dependent (st, store). clear st store.
  induction Hall as [| c cs Hc Hcs IH]; intros s Hp Hin.
  - cbn. auto.
  - cbn [SlideStore.press_all fold_left].
    destruct (press_in_range deck c s Hp Hin Hc) as [Hp' Hin'].
    destruct (IH _ Hp' Hin') as (A & B & C).
    split; [exact A |]. split; [exact B |].
    intros Hs. apply C. now apply press_synced.
Qed.

Lemma press_all_in_range_witness :
  let viewing :=
    fst (handleCreatePresentation RefJson.stringify no_context first_visit ∅
           (Accepted (deck_of 10))) in
  let cs := [SlideStore.Thumbnail 9; SlideStore.Next; SlideStore.Prev;
             SlideStore.Prev; SlideStore.Thumbnail 0; SlideStore.Prev] in
  presentation (fst viewing) = Some (deck_of 10) /\
  in_range (fst viewing) /\
  Forall (SlideStore.offered (deck_of 10)) cs /\
  in_range (fst (SlideStore.press_all cs (fst viewing, snd viewing))) /\
  currentSlide (fst (SlideStore.press_all cs (fst viewing, snd viewing))) = 0%Z.
Proof.
  cbv zeta.
  set (viewing := fst (handleCreatePresentation RefJson.stringify no_context
                         first_visit ∅ (Accepted (deck_of 10)))).
  assert (Hp : presentation (fst viewing) = Some (deck_of 10))
    by (vm_compute; reflexivity).
  assert (Hin : in_range (fst viewing)).
  { unfold in_range. rewrite Hp.
    replace (currentSlide (fst viewing)) with 0%Z by (vm_compute; reflexivity).
    cbn. lia. }
  assert (Hoff : Forall (SlideStore.offered (deck_of 10))
                   [SlideStore.Thumbnail 9; SlideStore.Next; SlideStore.Prev;
                    SlideStore.Prev; SlideStore.Thumbnail 0; SlideStore.Prev]).
  { repeat constructor; cbn; lia. }
  pose proof (press_all_in_range (deck_of 10) _ (fst viewing) (snd viewing) Hp Hin Hoff)
    as (_ & Hr & _).
  split; [exact Hp |]. split; [exact Hin |]. split; [exact Hoff |].
  split; [exact Hr |]. vm_compute. reflexivity.
Defined.

(* ===================================================================== *)
(** ** The configuration forms survive a reload *)
(* ===================================================================== *)

Section ConfigForms.

Import PresentationForms.

Lemma RefJson_parse_stringify_ppt (d : PptFormData) :
  RefJson.parse (RefJson.stringify (pptFormData_to_json d)) = Done (pptFormData_to_json d).
Proof.
  change (pptFormData_to_json d)
    with (JObj (RefJson.string_props
                  [("numberOfSlides", numberOfSlides d); ("timeRequired", timeRequired d)])).
  rewrite parse_stringify_string_props. reflexivity.
Qed.

Lemma RefJson_parse_stringify_video (d : VideoFormData) :
  RefJson.parse (RefJson.stringify (videoFormData_to_json d))
    = Done (videoFormData_to_json d).
Proof.
  change (videoFormData_to_json d)
    with (JObj (RefJson.string_props
                  [("timeRequired", videoTimeRequired d); ("prompt", videoPrompt d)])).
  rewrite parse_stringify_string_props. reflexivity.
Qed.

Lemma loadSavedOr_written (fallback v : json) (key : string) (store : Storage) :
  RefJson.parse (RefJson.stringify v) = Done v ->
  JsString.truthy (RefJson.stringify v) = true ->
  loadSavedOr RefJson.parse fallback key (setItem key (RefJson.stringify v) store)
    = Done v.
Proof.
  intros Hp Ht. unfold loadSavedOr, getItem, setItem. rewrite lookup_insert_eq.
  cbn. rewrite Ht. cbn. rewrite Hp. reflexivity.
Qed.

End ConfigForms.

(** X3.  After [handlePptChange] (respectively [handleVideoChange]) has
    recorded an edit, [loadSavedPptData] ([loadSavedVideoData]) rebuilds
    the form object of the new state, in which the edited input has the
    new value and the other input is unchanged.  The edit touches no other
    storage key and leaves the generated deck, the slide index and the
    generated video as they were. *)
Theorem config_forms_reload
  (value : string) (store : Storage) :
  (forall (name : PresentationForms.ppt_field) (st : DeckState),
     let after := PresentationForms.handlePptChange RefJson.stringify name value st store in
     PresentationForms.loadSavedPptData RefJson.parse (snd after)
       = Done (PresentationForms.pptFormData_to_json (pptFormData (fst after))) /\
     pptFormData (fst after)
       = PresentationForms.set_ppt_field name value (pptFormData st) /\
     presentation (fst after) = presentation st /\
     currentSlide (fst after) = currentSlide st /\
     forall key, key <> "raw2ready_pptFormData" -> snd after !! key = store !! key) /\
  (forall (name : PresentationForms.video_field) (st : VideoState),
     let after := PresentationForms.handleVideoChange RefJson.stringify name value st store in
     PresentationForms.loadSavedVideoData RefJson.parse (snd after)
       = Done (PresentationForms.videoFormData_to_json (videoFormData (fst after))) /\
     videoFormData (fst after)
       = PresentationForms.set_video_field name value (videoFormData st) /\
     generatedVideo (fst after) = generatedVideo st /\
     forall key, key <> "raw2ready_videoFormData" -> snd after !! key = store !! key).
Proof.
  split; intros name st; cbv zeta.
  - split.
    { unfold PresentationForms.handlePptChange, PresentationForms.loadSavedPptData.
      cbn [fst snd pptFormData]. apply loadSavedOr_written.
      - apply RefJson_parse_stringify_ppt.
      - reflexivity. }
    split; [reflexivity |]. split; [reflexivity |]. split; [reflexivity |].
    intros key Hk. unfold PresentationForms.handlePptChange, setItem. cbn [snd].
    now rewrite lookup_insert_ne.
  - split.
    { unfold PresentationForms.handleVideoChange, PresentationForms.loadSavedVideoData.
      cbn [fst snd videoFormData]. apply loadSavedOr_written.
      - apply RefJson_parse_stringify_video.
      - reflexivity. }
    split; [reflexivity |]. split; [reflexivity |].
    intros key Hk. unfold PresentationForms.handleVideoChange, setItem. cbn [snd].
    now rewrite lookup_insert_ne.
Qed.

(* ===================================================================== *)
(** ** Exporting the deck *)
(* ===================================================================== *)

Section ExportedFile.

Import PptxExport.

Lemma take_name_chars (s : string) :
  Forall (fun c => name_char c = true) (list_ascii_of_string (take_name s)).
Proof.
  induction s as [| c r IH]; cbn [take_name]; [constructor |].
  destruct (name_char c) eqn:E; cbn [list_ascii_of_string]; [| constructor].
  constructor; assumption.
Qed.

Lemma filename_match_chars (s name : string) :
  filename_match s = Some name ->
  name <> EmptyString /\
  Forall (fun c => name_char c = true) (list_ascii_of_string name).
Proof.
  induction s as [| c r IH]; cbn [filename_match]; [discriminate |].
  destruct (strip_prefix "filename=" (String c r)) as [rest |]; [| exact IH].
  set (unquoted := match rest with
                   | String q r' => if Ascii.eqb q RefJson.dquote then r' else rest
                   | EmptyString => rest
                   end).
  destruct (String.eqb_spec (take_name unquoted) EmptyString) as [| Hne]; [exact IH |].
  intros [= <-]. split; [exact Hne | apply take_name_chars].
Qed.

(** A run of name characters is taken whole when what follows cannot
    extend it. *)
Lemma take_name_run (name rest : string) :
  Forall (fun c => name_char c = true) (list_ascii_of_string name) ->
  take_name rest = EmptyString ->
  take_name (name ++ rest) = name.
Proof.
  induction name as [| c name IH]; cbn [append list_ascii_of_string]; intros Hall Hrest.
  - exact Hrest.
  - inversion Hall as [| ? ? Hc Hrest']; subst. cbn [take_name]. rewrite Hc.
    now rewrite IH.
Qed.

Lemma name_not_quoted (name rest : string) :
  name <> EmptyString ->
  Forall (fun c => name_char c = true) (list_ascii_of_string name) ->
  match name ++ rest with
  | String q r' => if Ascii.eqb q RefJson.dquote then r' else name ++ rest
  | EmptyString => name ++ rest
  end = name ++ rest.
Proof.
  intros Hne Hall. destruct name as [| c name]; [congruence |].
  cbn [append]. inversion Hall as [| ? ? Hc _]; subst.
  unfold name_char in Hc. apply negb_true_iff in Hc.
  apply orb_false_iff in Hc. destruct Hc as [Hc _].
  apply orb_false_iff in Hc. destruct Hc as [Hc _]. now rewrite Hc.
Qed.

End ExportedFile.

(** X4.  Whatever [Content-Disposition] header the export response
    carries, and also when it carries none, the name under which the file
    is saved is not empty and contains no double quote, no semicolon and
    no line feed. *)
Theorem export_filename_safe (disposition : option string) :
  PptxExport.export_filename disposition <> EmptyString /\
  Forall (fun c => PptxExport.name_char c = true)
    (list_ascii_of_string (PptxExport.export_filename disposition)).
Proof.
  unfold PptxExport.export_filename.
  assert (Hdefault :
    "presentation.pptx" <> EmptyString /\
    Forall (fun c => PptxExport.name_char c = true)
      (list_ascii_of_string "presentation.pptx")).
  { split; [discriminate |]. repeat constructor. }
  destruct disposition as [header |]; [| exact Hdefault].
  destruct (PptxExport.filename_match header) as [name |] eqn:E; [| exact Hdefault].
  now apply filename_match_chars in E.
Qed.

(** X5.  When the header is [attachment; filename=] followed by a name
    (not empty, free of double quotes, semicolons and line feeds), either
    between double quotes and then anything, or bare and then nothing or
    a semicolon and anything, the file is saved under exactly that name.
    Without a header the name is [presentation.pptx]. *)
Theorem export_filename_of_header (name rest : string) :
  name <> EmptyString ->
  Forall (fun c => PptxExport.name_char c = true) (list_ascii_of_string name) ->
  PptxExport.export_filename
    (Some ("attachment; filename=" ++ String RefJson.dquote name
             ++ String RefJson.dquote rest)) = name /\
  PptxExport.export_filename (Some ("attachment; filename=" ++ name)) = name /\
  PptxExport.export_filename (Some ("attachment; filename=" ++ name ++ String ";" rest))
    = name /\
  PptxExport.export_filename None = "presentation.pptx".
Proof.
  intros Hne Hall.
  assert (Hfound : forall tail,
            PptxExport.take_name tail = name ->
            PptxExport.filename_match
              ("attachment; filename=" ++ String RefJson.dquote tail) = Some name).
  { intros tail Ht. cbn. rewrite Ht.
    destruct (String.eqb_spec name EmptyString); [contradiction | reflexivity]. }
  assert (Hbare : forall tail,
            PptxExport.take_name tail = EmptyString ->
            PptxExport.filename_match ("attachment; filename=" ++ name ++ tail)
              = Some name).
  { intros tail Ht.
    change ("attachment; filename=" ++ name ++ tail)
      with ("attachment; " ++ "filename=" ++ name ++ tail).
    cbn [append PptxExport.filename_match PptxExport.strip_prefix Ascii.eqb Bool.eqb].
    rewrite (name_not_quoted name tail Hne Hall).
    rewrite (take_name_run name tail Hall Ht).
    destruct (String.eqb_spec name EmptyString); [contradiction | reflexivity]. }
  unfold PptxExport.export_filename.
  split; [| split; [| split; [| reflexivity]]].
  - change (String RefJson.dquote name ++ String RefJson.dquote rest)
      with (String RefJson.dquote (name ++ String RefJson.dquote rest)).
    rewrite Hfound; [reflexivity |]. now apply take_name_run.
  - pose proof (Hbare EmptyString eq_refl) as H.
    replace (name ++ EmptyString) with name in H; [now rewrite H |].
    clear. induction name as [| c n IH]; cbn; [reflexivity | now rewrite <- IH].
  - rewrite Hbare; reflexivity.
Qed.

Lemma export_filename_of_header_witness :
  "pitch.pptx" <> EmptyString /\
  PptxExport.export_filename (Some Samples.pitch_header) = "pitch.pptx".
Proof.
  assert (H1 : "pitch.pptx" <> EmptyString) by discriminate.
  assert (H2 : Forall (fun c => PptxExport.name_char c = true)
                 (list_ascii_of_string "pitch.pptx")) by (repeat constructor).
  exact (conj H1 (proj1 (export_filename_of_header "pitch.pptx" EmptyString H1 H2))).
Defined.

(** X6.  [handleDownloadPptx] never changes the deck, the slide index or
    the configuration form, so exporting again issues the same request.
    Without a deck, or with a deck of no slides, nothing happens at all.
    Otherwise exactly one request is issued, carrying the slides and the
    titles of the deck on display; a file is saved exactly when the
    response is successful, under the name read from its header, and in
    that case no error is shown. *)
Theorem handleDownloadPptx_effects
  (ctx : PageContext) (st : DeckState) (a : answer (option string)) :
  let out := PptxExport.handleDownloadPptx ctx st a in
  presentation (fst (fst out)) = presentation st /\
  currentSlide (fst (fst out)) = currentSlide st /\
  pptFormData (fst (fst out)) = pptFormData st /\
  (forall a', snd (fst (PptxExport.handleDownloadPptx ctx (fst (fst out)) a'))
              = snd (fst (PptxExport.handleDownloadPptx ctx st a'))) /\
  (match presentation st with
   | Some deck =>
       if JsNumber.is_nil (slides deck) then out = (st, [], None)
       else
         snd (fst out) = [PptxExport.exportRequest ctx deck] /\
         (forall name, snd out = Some name <->
            exists disposition,
              a = Accepted disposition /\
              name = PptxExport.export_filename disposition) /\
         (snd out <> None -> pptError (fst (fst out)) = None)
   | None => out = (st, [], None)
   end).
Proof.
  cbv zeta. unfold PptxExport.handleDownloadPptx.
  destruct (presentation st) as [deck |] eqn:Hp.
  2:{ cbn. rewrite ?Hp. repeat split; reflexivity. }
  destruct (JsNumber.is_nil (slides deck)) eqn:Hs.
  { cbn. rewrite ?Hp, ?Hs. repeat split; reflexivity. }
  destruct a as [m | status errorData | disposition].
  - cbn. rewrite ?Hp, ?Hs. repeat split; try reflexivity; try discriminate.
    + intros (d & Hd & _). discriminate Hd.
    + intros H. now contradiction H.
  - assert (Hthrow : exists e, await_data (A := option string) "Failed to export PPTX"
                                 (Refused status errorData) = Throw e).
    { cbn [await_data]. destruct errorData as [body |]; [| eauto].
      destruct (Js.prop body "detail") as [[v |] | e]; cbn [bind]; eauto.
      destruct (Js.truthy (Some v)); eauto. }
    destruct Hthrow as [e He]. rewrite He. cbn. rewrite ?Hp, ?Hs.
    repeat split; try reflexivity; try discriminate.
    + intros (d & Hd & _). discriminate Hd.
    + intros H. now contradiction H.
  - cbn. rewrite ?Hp, ?Hs. repeat split; try reflexivity.
    + intros [= <-]. eauto.
    + intros (d & [= <-] & ->). reflexivity.
Qed.

(* ===================================================================== *)
(** ** The results page *)
(* ===================================================================== *)

Section Results.

Import ResultsPage.

Lemma digit_not_dash (c : ascii) : is_decimal_digit c = true -> Ascii.eqb c "-" = false.
Proof.
  intros H. apply decimal_digit_cases in H. cbn [In] in H.
  repeat (destruct H as [<- | H]; [reflexivity |]). contradiction.
Qed.

Lemma split_from_digits (piece s : string) :
  all_digits s = true -> split_from "-" piece s = [piece ++ s].
Proof.
  revert piece. induction s as [| c r IH]; intros piece H; cbn [split_from].
  - f_equal. clear. induction piece as [| x p IHp]; cbn [append]; [reflexivity | now rewrite <- IHp].
  - cbn [all_digits] in H. apply andb_prop in H. destruct H as [Hc Hr].
    rewrite (digit_not_dash c Hc), (IH _ Hr), append_assoc. reflexivity.
Qed.

Lemma at_number_of_Z {A : Type} (l : list A) (n : nat) :
  at_number l (of_Z (Z.of_nat n)) = l !! n.
Proof.
  unfold at_number, of_Z, inject_Z. cbn [Qden Qnum Pos.eqb andb].
  destruct (Z.leb_spec 0 (Z.of_nat n)); [| lia]. now rewrite Nat2Z.id.
Qed.

End Results.

(** X7.  Clicking the card of the competitor at [index] makes the modal
    show the competitor at that position of the list, for every list and
    every position: the index written into the card's id is read back
    unchanged.  A click on the backdrop closes the modal; a click inside
    it leaves the same competitor on display. *)
Theorem competitor_card_roundtrip
  (players : list json) (index : nat) (expandedCard : option string) :
  let opened := ResultsPage.openCard (ResultsPage.competitor_card index) expandedCard in
  ResultsPage.expanded_competitor players opened = players !! index /\
  ResultsPage.expanded_competitor players (ResultsPage.handleOverlayClick false opened)
    = players !! index /\
  ResultsPage.expanded_competitor players (ResultsPage.handleOverlayClick true opened)
    = None.
Proof.
  cbv zeta.
  assert (H : ResultsPage.expanded_competitor players
                (Some (ResultsPage.competitor_card index)) = players !! index).
  { destruct (Z_to_string_digits (Z.of_nat index)) as (Hd & Hne & Hv); [lia |].
    unfold ResultsPage.expanded_competitor, ResultsPage.competitor_card, ResultsPage.split.
    set (ds := Js.Z_to_string (Z.of_nat index)) in *.
    assert (Hp : String.prefix "competitor-" ("competitor-" ++ ds) = true)
      by (cbn; now destruct ds).
    rewrite Hp.
    cbn [append ResultsPage.split_from Ascii.eqb Bool.eqb].
    rewrite (split_from_digits EmptyString ds Hd). cbn [append].
    assert (Hparse : parseInt ds = of_Z (int_value ds))
      by (apply (parseInt_numeral ds None); repeat split; assumption).
    rewrite Hparse, Hv. apply at_number_of_Z. }
  unfold ResultsPage.openCard, ResultsPage.handleOverlayClick, ResultsPage.closeCard.
  repeat split; exact H || reflexivity.
Qed.

Lemma render_competitors (data : json) (competitors : list json) :
  ResultsPage.render data = Done (Some competitors) ->
  Js.truthy (Some data) = true /\
  Js.prop data "competing_players" = Done (Some (JArr competitors)).
Proof.
  unfold ResultsPage.render.
  destruct (Js.truthy (Some data)) eqn:Ht; cbn [negb]; [| discriminate].
  destruct (Js.prop data "disclaimer") as [disclaimer | e]; cbn [bind]; [| discriminate].
  destruct (Js.prop data "competing_players") as [players | e]; cbn [bind];
    [| discriminate].
  destruct players as [[| | | | items |] |]; try discriminate.
  destruct (Api.mapM _ items) as [names | e]; cbn [bind]; [| discriminate].
  destruct (_ && _); [| discriminate].
  intros [= <-]. split; reflexivity.
Qed.

(** X8.  What the form page hands over when a submission succeeds reaches
    the deck-generation request through the results page, once that page
    has drawn its cards and its button for the analysis it was given: the
    request carries the business name chosen on submission, which is
    never empty, the trimmed idea, city and country of the form, which
    are never empty either, no tagline, the list of competitors that the
    page mapped to cards, and the market size of the analysis when it is
    a text that is not empty, null otherwise. *)
Theorem form_context_reaches_generation
  (countries : list string) (st : FormPage.State) (r : reply)
  (analysisData : json) (bc : FormPage.BusinessContext)
  (competitors : list json) (data : ResultsPage.Analysis) (f : PptFormData) :
  FormPage.navigated (snd (handleSubmit countries st r)) = Some (analysisData, bc) ->
  ResultsPage.render analysisData = Done (Some competitors) ->
  ResultsPage.analysis_of analysisData = Some data ->
  let req :=
    generateRequest (ResultsPage.forward (ResultsPage.received (Some bc)) data) f in
  gen_business_name req = FormPage.ctx_business_name bc /\
  gen_business_name req <> EmptyString /\
  gen_raw_idea req = trim (rawIdea (formData st)) /\
  gen_raw_idea req <> EmptyString /\
  gen_location_city req = Some (trim (city (formData st))) /\
  trim (city (formData st)) <> EmptyString /\
  gen_country req = Some (trim (FormPage.country (formData st))) /\
  trim (FormPage.country (formData st)) <> EmptyString /\
  gen_tagline req = None /\
  gen_competing_players req = Some (JArr competitors) /\
  gen_market_cap_or_target_revenue req
    = str_or_null (ResultsPage.an_market_cap_or_target_revenue data) /\
  (forall text,
     Js.prop analysisData "market_cap_or_target_revenue" = Done (Some (JStr text)) ->
     gen_market_cap_or_target_revenue req = or_null text).
Proof.
  intros Hnav Hrender Hdata. cbv zeta.
  destruct (render_competitors _ _ Hrender) as [_ Hplayers].
  assert (Han : ResultsPage.an_competing_players data = Some (JArr competitors) /\
                forall text,
                  Js.prop analysisData "market_cap_or_target_revenue"
                    = Done (Some (JStr text)) ->
                  ResultsPage.an_market_cap_or_target_revenue data = Some text).
  { unfold ResultsPage.analysis_of in Hdata. rewrite Hplayers in Hdata.
    destruct (Js.prop analysisData "market_cap_or_target_revenue") as [market | e];
      [| discriminate Hdata].
    destruct (Js.prop analysisData "undiscovered_addons") as [addons | e];
      [| discriminate Hdata].
    destruct market as [[| | | text | |] |]; try discriminate Hdata;
      injection Hdata as <-; (split; [reflexivity |]); intros text' [= <-];
      reflexivity. }
  destruct Han as [Hcomp Hmarket].
  destruct (snd (validateForm countries st)) eqn:Hv.
  2:{ rewrite (handleSubmit_invalid _ _ _ Hv) in Hnav. discriminate Hnav. }
  rewrite (handleSubmit_valid _ _ _ Hv) in Hnav.
  rewrite validateForm_valid in Hv.
  repeat (apply andb_prop in Hv; destruct Hv as [Hv ?]).
  destruct (after_fetch (formData st) r) as [payload | e] eqn:Ha;
    [| discriminate Hnav].
  cbn in Hnav. injection Hnav as ->.
  assert (Hbc : exists suggested,
            bc = FormPage.businessContext
                   (businessNameForPresentation suggested (formData st)) (formData st)).
  { unfold after_fetch in Ha. destruct r as [m | status body]; [discriminate Ha |].
    destruct (negb (Js.ok status)).
    - destruct (Js.prop _ "detail") as [detail | e]; cbn [bind] in Ha; [| discriminate Ha].
      destruct (Js.truthy detail); discriminate Ha.
    - destruct body as [a |]; [| discriminate Ha].
      destruct (suggested_name a) as [s | e]; cbn [bind] in Ha; [| discriminate Ha].
      injection Ha as _ <-. eauto. }
  destruct Hbc as [suggested ->].
  assert (Hname : businessNameForPresentation suggested (formData st) <> EmptyString).
  { unfold businessNameForPresentation, or_else.
    destruct (JsString.truthy (trim (businessName (formData st)))) eqn:E1.
    - apply truthy_true in E1.
      destruct suggested as [s |]; [| exact E1].
      destruct (JsString.truthy s) eqn:E2; [now apply truthy_true in E2 | exact E1].
    - destruct suggested as [s |]; [| discriminate].
      destruct (JsString.truthy s) eqn:E2; [now apply truthy_true in E2 | discriminate]. }
  assert (Hmarket_sent :
    gen_market_cap_or_target_revenue
      (generateRequest
         (ResultsPage.forward
            (ResultsPage.received
               (Some (FormPage.businessContext
                        (businessNameForPresentation suggested (formData st))
                        (formData st)))) data) f)
    = str_or_null (ResultsPage.an_market_cap_or_target_revenue data)).
  { unfold generateRequest, ResultsPage.forward, str_or_null, or_null.
    cbn [gen_market_cap_or_target_revenue market_cap_or_target_revenue].
    destruct (ResultsPage.an_market_cap_or_target_revenue data) as [s |]; cbn;
      [destruct (JsString.truthy s) eqn:E; cbn; rewrite ?E; reflexivity | reflexivity]. }
  unfold generateRequest, ResultsPage.forward, ResultsPage.received,
    FormPage.businessContext, str_or_null, json_or_null, or_null in *.
  cbn [gen_business_name gen_raw_idea gen_location_city gen_country gen_tagline
       gen_competing_players gen_market_cap_or_target_revenue
       business_name raw_idea tagline location_city PresentationPage.country
       competing_players market_cap_or_target_revenue
       FormPage.ctx_business_name FormPage.ctx_raw_idea FormPage.ctx_location_city
       FormPage.ctx_country] in *.
  repeat match goal with
         | H : JsString.truthy _ = true |- _ => rewrite H
         end.
  assert (Hn : JsString.truthy (businessNameForPresentation suggested (formData st)) = true)
    by now apply truthy_true.
  rewrite Hn.
  repeat match goal with
         | H : JsString.truthy _ = true |- _ => apply truthy_true in H
         end.
  rewrite Hcomp. cbn [Js.truthy].
  split_and!; try assumption; try reflexivity.
  intros text Htext. rewrite Hmarket_sent, (Hmarket text Htext). reflexivity.
Qed.

Lemma form_context_reaches_generation_witness :
  FormPage.navigated
    (snd (handleSubmit sample_countries (FormRules.fresh FormRules.bakery true)
            (Response 200 (Some Samples.one_rival))))
  = Some (Samples.one_rival, FormPage.businessContext "My Business" FormRules.bakery) /\
  ResultsPage.render Samples.one_rival
  = Done (Some [JObj [("name", JStr "Rival")]]) /\
  gen_competing_players
    (generateRequest
       (ResultsPage.forward
          (ResultsPage.received
             (Some (FormPage.businessContext "My Business" FormRules.bakery)))
          (ResultsPage.mkAnalysis (Some (JArr [JObj [("name", JStr "Rival")]]))
             (Some "2M") None))
       (mkPptFormData "10" "5"))
  = Some (JArr [JObj [("name", JStr "Rival")]]).
Proof.
  assert (E : FormPage.navigated
                (snd (handleSubmit sample_countries (FormRules.fresh FormRules.bakery true)
                        (Response 200 (Some Samples.one_rival))))
              = Some (Samples.one_rival,
                      FormPage.businessContext "My Business" FormRules.bakery))
    by (vm_compute; reflexivity).
  assert (R : ResultsPage.render Samples.one_rival
              = Done (Some [JObj [("name", JStr "Rival")]]))
    by (vm_compute; reflexivity).
  assert (A : ResultsPage.analysis_of Samples.one_rival
              = Some (ResultsPage.mkAnalysis
                        (Some (JArr [JObj [("name", JStr "Rival")]])) (Some "2M") None))
    by (vm_compute; reflexivity).
  split; [exact E |]. split; [exact R |].
  pose proof (form_context_reaches_generation sample_countries
                (FormRules.fresh FormRules.bakery true)
                (Response 200 (Some Samples.one_rival)) Samples.one_rival
                (FormPage.businessContext "My Business" FormRules.bakery)
                [JObj [("name", JStr "Rival")]]
                (ResultsPage.mkAnalysis
                   (Some (JArr [JObj [("name", JStr "Rival")]])) (Some "2M") None)
                (mkPptFormData "10" "5") E R A) as H.
  exact (proj1 (proj2 (proj2 (proj2 (proj2 (proj2 (proj2 (proj2 (proj2 (proj2 H)))))))))).
Defined.

(* ===================================================================== *)
(** ** What a submission can and cannot do *)
(* ===================================================================== *)

Section Submission.

Variable countries : list string.

Lemma after_fetch_done (d : FormData) (r : reply) (payload : json * BusinessContext) :
  after_fetch d r = Done payload ->
  exists status, r = Response status (Some (fst payload)) /\ Js.ok status = true.
Proof.
  unfold after_fetch. destruct r as [m | status body]; [discriminate |].
  destruct (Js.ok status) eqn:Hok; cbn [negb].
  - destruct body as [a |]; [| discriminate].
    destruct (suggested_name a) as [s | e]; cbn [bind]; [| discriminate].
    intros [= <-]. cbn [fst]. eauto.
  - destruct (Js.prop _ "detail") as [detail | e]; cbn [bind]; [| discriminate].
    destruct (Js.truthy detail); discriminate.
Qed.

Lemma catch_message_not_empty (err : js_error) :
  FormPage.catch_message err <> EmptyString.
Proof.
  unfold FormPage.catch_message, or_else.
  destruct (_ || _); [discriminate |].
  destruct (JsString.truthy (err_message err)) eqn:E; [| discriminate].
  now apply truthy_true in E.
Qed.

End Submission.

(** X9.  [handleSubmit] never changes what was typed nor the terms flag
    and finishes with the loading flag down.  It sends a request exactly
    when the form is valid, and then exactly one.  It navigates to the
    results only when the form is valid and a successful response with a
    body arrived, and then shows no error of either kind; when a request
    was sent and it does not navigate, it sets the banner to a text that
    is not empty.  A rejected form leaves the banner as it was. *)
Theorem handleSubmit_outcomes (countries : list string) (st : FormPage.State) (r : reply) :
  let out := handleSubmit countries st r in
  formData (fst out) = formData st /\
  termsAccepted (fst out) = termsAccepted st /\
  (snd (validateForm countries st) = true <->
     requests (snd out) = [requestBody (formData st)]) /\
  (snd (validateForm countries st) = false <-> requests (snd out) = []) /\
  (forall payload, navigated (snd out) = Some payload ->
     requests (snd out) <> [] /\
     apiError (fst out) = None /\ errors (fst out) = ∅ /\
     exists status, r = Response status (Some (fst payload)) /\ Js.ok status = true) /\
  (requests (snd out) <> [] -> isLoading (fst out) = false /\
     (navigated (snd out) = None <->
        exists message, apiError (fst out) = Some message /\ message <> EmptyString)) /\
  (requests (snd out) = [] ->
     navigated (snd out) = None /\ apiError (fst out) = apiError st /\
     isLoading (fst out) = isLoading st).
Proof.
  cbv zeta.
  pose proof (validateForm_keeps_inputs countries st) as (Kd & Kt).
  destruct (snd (validateForm countries st)) eqn:Hv.
  - rewrite (handleSubmit_valid _ _ _ Hv).
    destruct (after_fetch (formData st) r) as [payload | e] eqn:Ha; cbn;
      split_and!; try reflexivity; try (split; congruence).
    + intros p [= <-]. split_and!; try reflexivity; try discriminate.
      now apply (after_fetch_done (formData st)).
    + intros _. split; [reflexivity | split; [discriminate |]].
      intros (message & Hm & _). discriminate Hm.
    + intros _. split; [reflexivity | split; [| reflexivity]].
      intros _. eexists. split; [reflexivity |]. apply catch_message_not_empty.
  - rewrite (handleSubmit_invalid _ _ _ Hv). cbn.
    split_and!; try assumption; try reflexivity; try (split; congruence).
    intros _. split_and!; reflexivity.
Qed.

(* ===================================================================== *)
(** ** Editing the form and choosing the model *)
(* ===================================================================== *)

Section FormEdits.

Lemma field_name_inj (f g : field) : field_name f = field_name g -> f = g.
Proof. destruct f, g; intros H; try reflexivity; discriminate H. Qed.

Lemma set_field_comm (f g : field) (v w : string) (d : FormData) :
  f <> g -> set_field f v (set_field g w d) = set_field g w (set_field f v d).
Proof. destruct f, g; intros H; try reflexivity; now contradiction H. Qed.

Lemma has_error_blanked (e : gmap string string) (name : string) :
  has_error (if has_error e name then <[name := ""]> e else e) name = false.
Proof.
  destruct (has_error e name) eqn:E; [| exact E].
  unfold has_error. now rewrite lookup_insert_eq.
Qed.

Lemma has_error_other (e : gmap string string) (name other value : string) :
  name <> other -> has_error (<[name := value]> e) other = has_error e other.
Proof. intros H. unfold has_error. now rewrite lookup_insert_ne. Qed.

End FormEdits.

(** X10.  [handleChange] replaces the one input it is given and nothing
    else: every other input, the terms flag and the banner are as before,
    only the pending error of that input is blanked, and only the key
    [raw2ready_formData] of the storage is written.  Edits of two
    different inputs give the same state and the same storage in either
    order. *)
Theorem handleChange_one_input
  (JSON_stringify : json -> string) (name : field) (value : string)
  (st : FormPage.State) (store : Storage) :
  let after := handleChange JSON_stringify name value st store in
  get_field name (formData (fst after)) = value /\
  (forall other, other <> name ->
     get_field other (formData (fst after)) = get_field other (formData st)) /\
  termsAccepted (fst after) = termsAccepted st /\
  apiError (fst after) = apiError st /\
  has_error (errors (fst after)) (field_name name) = false /\
  (forall key, key <> field_name name ->
     errors (fst after) !! key = errors st !! key) /\
  (forall key, key <> "raw2ready_formData" -> snd after !! key = store !! key) /\
  (forall other value', other <> name ->
     handleChange JSON_stringify other value' (fst after) (snd after)
     = handleChange JSON_stringify name value
         (fst (handleChange JSON_stringify other value' st store))
         (snd (handleChange JSON_stringify other value' st store))).
Proof.
  cbv zeta. unfold handleChange. cbn [fst snd formData errors termsAccepted apiError isLoading].
  split_and!; try reflexivity.
  - rewrite get_set_field. now destruct (decide (field_name name = field_name name)).
  - intros other Ho. rewrite get_set_field.
    destruct (decide (field_name name = field_name other)) as [E |]; [| reflexivity].
    apply field_name_inj in E. congruence.
  - apply has_error_blanked.
  - intros key Hk. destruct (has_error (errors st) (field_name name)); [| reflexivity].
    now rewrite lookup_insert_ne.
  - intros key Hk. unfold setItem. now rewrite lookup_insert_ne.
  - intros other value' Ho.
    assert (Hn : field_name name <> field_name other)
      by (intros E; apply field_name_inj in E; congruence).
    assert (Hn' : field_name other <> field_name name) by congruence.
    rewrite (set_field_comm other name value' value (formData st) Ho).
    f_equal.
    + f_equal.
      destruct (has_error (errors st) (field_name name)) eqn:E1;
        destruct (has_error (errors st) (field_name other)) eqn:E2;
        rewrite ?has_error_other by assumption; rewrite ?E1, ?E2; try reflexivity.
      now apply insert_insert_ne.
    + unfold setItem. now rewrite !insert_insert_eq.
Qed.

(** X11.  The request asks for the Gemini model exactly when the [model]
    input holds the text [gemini].  Neither value of the model drop-down
    is that text, so whichever entry is chosen there, the request asks for
    [chatgpt-latest]. *)
Theorem model_selection_of_dropdown
  (JSON_stringify : json -> string) (choice : string)
  (st : FormPage.State) (store : Storage) :
  In choice Samples.model_options ->
  (forall d, req_model_selection (requestBody d) = "google-gemini-flash"
             <-> model d = "gemini") /\
  req_model_selection
    (requestBody (formData (fst (handleChange JSON_stringify Model choice st store))))
  = "chatgpt-latest".
Proof.
  intros Hin. split.
  - intros d. unfold requestBody, getModelSelection. cbn [req_model_selection].
    destruct (String.eqb_spec (model d) "gemini") as [E | E]; split;
      try discriminate; try tauto.
  - unfold Samples.model_options in Hin. cbn [In] in Hin.
    destruct Hin as [<- | [<- | []]]; reflexivity.
Qed.

Lemma model_selection_of_dropdown_witness :
  In "google-gemini-flash" Samples.model_options /\
  req_model_selection
    (requestBody
       (formData (fst (handleChange RefJson.stringify Model "google-gemini-flash"
                         (FormRules.fresh FormRules.bakery true) ∅))))
  = "chatgpt-latest".
Proof.
  assert (H : In "google-gemini-flash" Samples.model_options) by (right; left; reflexivity).
  exact (conj H (proj2 (model_selection_of_dropdown RefJson.stringify "google-gemini-flash"
                          (FormRules.fresh FormRules.bakery true) ∅ H))).
Defined.

(** X12.  A reply that did arrive can still be reported as an unreachable
    server: for a valid form, when the body of the reply is the JSON value
    [null], whatever the status, or when a successful reply gives a
    suggested business name that is neither a string nor [null], the
    banner shows the fixed text for a network failure and the page does
    not navigate. *)
Theorem handleSubmit_reply_reported_unreachable
  (countries : list string) (st : FormPage.State) :
  snd (validateForm countries st) = true ->
  (forall status,
     let out := handleSubmit countries st (Response status (Some JNull)) in
     apiError (fst out) = Some NETWORK_MESSAGE /\ navigated (snd out) = None) /\
  (forall status props v,
     Js.ok status = true ->
     Js.assoc "suggested_business_name" props = Some v ->
     v <> JNull -> (forall s, v <> JStr s) ->
     let out := handleSubmit countries st (Response status (Some (JObj props))) in
     apiError (fst out) = Some NETWORK_MESSAGE /\ navigated (snd out) = None).
Proof.
  intros Hv. split.
  - intros status. cbv zeta. rewrite (handleSubmit_valid _ _ _ Hv).
    unfold after_fetch. destruct (negb (Js.ok status)); cbn; split; reflexivity.
  - intros status props v Hok Hs Hnull Hstr. cbv zeta.
    rewrite (handleSubmit_valid _ _ _ Hv).
    unfold after_fetch. rewrite Hok. cbn [negb].
    unfold suggested_name. cbn [Js.prop bind]. rewrite Hs.
    destruct v; try (now contradiction Hnull); try (now contradiction (Hstr s));
      cbn; split; reflexivity.
Qed.

Lemma handleSubmit_reply_reported_unreachable_witness :
  snd (validateForm sample_countries (FormRules.fresh FormRules.bakery true)) = true /\
  apiError (fst (handleSubmit sample_countries (FormRules.fresh FormRules.bakery true)
                   Samples.null_body)) = Some NETWORK_MESSAGE.
Proof.
  assert (H : snd (validateForm sample_countries (FormRules.fresh FormRules.bakery true))
              = true) by (vm_compute; reflexivity).
  exact (conj H (proj1 (proj1 (handleSubmit_reply_reported_unreachable sample_countries
                                 (FormRules.fresh FormRules.bakery true) H) 500%Z))).
Defined.

(* ===================================================================== *)
(** ** The error message of the API service *)
(* ===================================================================== *)

Section ApiErrors.

Variable JSON_stringify : json -> string.

Lemma mapM_sub_error_text (items : list json) (msgs : list string) :
  Forall2 ApiRules.says items msgs ->
  Api.mapM (Api.sub_error_text JSON_stringify) items = Done (map JStr msgs).
Proof.
  induction 1 as [| item m items msgs (props & -> & Hm & Hne) _ IH]; [reflexivity |].
  cbn [Api.mapM map]. unfold Api.sub_error_text at 1. cbn [Js.prop bind].
  rewrite Hm. unfold Api.or_json. cbn [Js.truthy].
  apply truthy_true in Hne. rewrite Hne. cbn [bind]. now rewrite IH.
Qed.

Lemma map_ToString_JStr (msgs : list string) : map Js.ToString (map JStr msgs) = msgs.
Proof. induction msgs as [| m l IH]; cbn [map Js.ToString]; [reflexivity | now rewrite IH]. Qed.

End ApiErrors.

(** X13.  The message of the error thrown by [analyzeBusiness] for a
    refused request: when [detail] is a list of sub-errors that each carry
    a non-empty [msg], it is those texts, in order, separated by a
    semicolon and a space; when [detail] is a non-empty string it is that
    string; when the body has neither [detail] nor [message], or cannot be
    read at all, it is the status text of the response. *)
Theorem failure_message_readable
  (JSON_stringify : json -> string) (statusText : string) (props : list (string * json)) :
  (forall items msgs,
     Js.assoc "detail" props = Some (JArr items) ->
     Forall2 ApiRules.says items msgs ->
     Api.failure_message JSON_stringify statusText (Some (JObj props))
       = Done (Js.join "; " msgs)) /\
  (forall s,
     Js.assoc "detail" props = Some (JStr s) -> s <> EmptyString ->
     Api.failure_message JSON_stringify statusText (Some (JObj props)) = Done s) /\
  (Js.assoc "detail" props = None -> Js.assoc "message" props = None ->
     Api.failure_message JSON_stringify statusText (Some (JObj props)) = Done statusText) /\
  Api.failure_message JSON_stringify statusText None = Done statusText.
Proof.
  unfold Api.failure_message. cbn [Js.prop bind Js.assoc].
  split_and!.
  - intros items msgs Hd Hall. rewrite Hd. cbn [Api.or_json Js.truthy bind].
    rewrite (mapM_sub_error_text JSON_stringify items msgs Hall). cbn [bind].
    now rewrite map_ToString_JStr.
  - intros s Hd Hne. rewrite Hd. cbn [Api.or_json Js.truthy].
    apply truthy_true in Hne. rewrite Hne. reflexivity.
  - intros Hd Hm. rewrite Hd, Hm. cbn [Api.or_json bind]. reflexivity.
  - cbn [Api.or_json bind]. reflexivity.
Qed.

Lemma failure_message_readable_witness :
  Api.failure_message RefJson.stringify "Unprocessable Entity" (Some Samples.two_sub_errors)
  = Done "field required; value is not a valid integer".
Proof.
  refine (proj1 (failure_message_readable RefJson.stringify "Unprocessable Entity"
                   [("detail",
                     JArr [JObj [("msg", JStr "field required")];
                           JObj [("loc", JStr "body");
                                 ("msg", JStr "value is not a valid integer")]])])
            [JObj [("msg", JStr "field required")];
             JObj [("loc", JStr "body"); ("msg", JStr "value is not a valid integer")]]
            ["field required"; "value is not a valid integer"] eq_refl _).
  constructor; [| constructor; [| constructor]];
    unfold ApiRules.says; eexists; split_and!; try reflexivity; discriminate.
Defined.

(* ===================================================================== *)
(** ** Requests that fail, and what is sent *)
(* ===================================================================== *)

Section Failures.

Variable JSON_stringify : json -> string.
Variable ctx : PageContext.

Lemma await_data_throws {A : Type} (fallback : string) (a : answer A) :
  (forall data, a <> Accepted data) -> exists e, await_data fallback a = Throw e.
Proof.
  intros H. destruct a as [m | status errorData | data]; cbn [await_data].
  - eauto.
  - destruct errorData as [body |]; [| eauto].
    destruct (Js.prop body "detail") as [[v |] | e]; cbn [bind]; eauto.
    destruct (Js.truthy (Some v)); eauto.
  - now contradiction (H data).
Qed.

Lemma handleCreatePresentation_failed (st : DeckState) (store : Storage)
  (a : answer PresentationDeck) :
  (forall data, a <> Accepted data) ->
  let out := handleCreatePresentation JSON_stringify ctx st store a in
  presentation (fst (fst out)) = presentation st /\
  currentSlide (fst (fst out)) = currentSlide st /\
  pptFormData (fst (fst out)) = pptFormData st /\
  snd (fst out) = store.
Proof.
  intros H. cbv zeta. unfold handleCreatePresentation.
  destruct (await_data_throws "Failed to generate presentation" a H) as [e ->].
  unfold validatePptForm.
  match goal with |- context [Nat.eqb ?n 0] => destruct (Nat.eqb n 0) end;
    cbn; repeat split; reflexivity.
Qed.

Lemma handleEditPresentation_failed (st : DeckState) (store : Storage)
  (a : answer PresentationDeck) :
  (forall data, a <> Accepted data) ->
  let out := handleEditPresentation JSON_stringify ctx st store a in
  presentation (fst (fst out)) = presentation st /\
  currentSlide (fst (fst out)) = currentSlide st /\
  pptFormData (fst (fst out)) = pptFormData st /\
  editPrompt (fst (fst out)) = editPrompt st /\
  snd (fst out) = store.
Proof.
  intros H. cbv zeta. unfold handleEditPresentation.
  destruct (await_data_throws "Failed to edit presentation" a H) as [e ->].
  destruct (presentation st) as [deck |] eqn:Hp;
    [| cbn; rewrite ?Hp; repeat split; reflexivity].
  destruct (negb (JsString.truthy (trim (editPrompt st))));
    cbn; rewrite ?Hp; repeat split; reflexivity.
Qed.

Lemma handleGenerateVideo_failed (st : VideoState) (store : Storage)
  (a : answer GeneratedVideo) :
  (forall data, a <> Accepted data) ->
  let out := handleGenerateVideo JSON_stringify ctx st store a in
  generatedVideo (fst (fst out)) = generatedVideo st /\
  videoFormData (fst (fst out)) = videoFormData st /\
  snd (fst out) = store.
Proof.
  intros H. cbv zeta. unfold handleGenerateVideo.
  destruct (await_data_throws "Failed to generate video" a H) as [e ->].
  unfold validateVideoForm.
  match goal with |- context [Nat.eqb ?n 0] => destruct (Nat.eqb n 0) end;
    cbn; repeat split; reflexivity.
Qed.

End Failures.

(** X14.  A generation, an edit or a video request that does not come
    back with a successful response changes nothing that lasts: the deck
    on display, the slide index, the typed configuration, the edit
    instruction, the video generated earlier and the whole storage are as
    they were before. *)
Theorem failed_requests_keep_everything
  (JSON_stringify : json -> string) (ctx : PageContext) (store : Storage) :
  (forall (st : DeckState) (a : answer PresentationDeck),
     (forall data, a <> Accepted data) ->
     let out := handleCreatePresentation JSON_stringify ctx st store a in
     presentation (fst (fst out)) = presentation st /\
     currentSlide (fst (fst out)) = currentSlide st /\
     pptFormData (fst (fst out)) = pptFormData st /\
     snd (fst out) = store) /\
  (forall (st : DeckState) (a : answer PresentationDeck),
     (forall data, a <> Accepted data) ->
     let out := handleEditPresentation JSON_stringify ctx st store a in
     presentation (fst (fst out)) = presentation st /\
     currentSlide (fst (fst out)) = currentSlide st /\
     pptFormData (fst (fst out)) = pptFormData st /\
     editPrompt (fst (fst out)) = editPrompt st /\
     snd (fst out) = store) /\
  (forall (st : VideoState) (a : answer GeneratedVideo),
     (forall data, a <> Accepted data) ->
     let out := handleGenerateVideo JSON_stringify ctx st store a in
     generatedVideo (fst (fst out)) = generatedVideo st /\
     videoFormData (fst (fst out)) = videoFormData st /\
     snd (fst out) = store).
Proof.
  split_and!.
  - intros st a H. now apply handleCreatePresentation_failed.
  - intros st a H. now apply handleEditPresentation_failed.
  - intros st a H. now apply handleGenerateVideo_failed.
Qed.

(** X15.  Every video request that is issued carries a time, in minutes,
    from a tenth to a sixth (the typed seconds divided by sixty), and a
    prompt that is the typed one without the white space around it and is
    not empty. *)
Theorem video_request_bounds
  (JSON_stringify : json -> string) (ctx : PageContext) (st : VideoState)
  (store : Storage) (a : answer GeneratedVideo) (req : VideoRequest) :
  In req (snd (handleGenerateVideo JSON_stringify ctx st store a)) ->
  (exists seconds,
     ToNumber (videoTimeRequired (videoFormData st)) = Fin seconds /\
     time req = Fin (seconds / 60) /\
     (1 # 10 <= seconds / 60)%Q /\ (seconds / 60 <= 1 # 6)%Q) /\
  prompt req = trim (videoPrompt (videoFormData st)) /\
  prompt req <> EmptyString.
Proof.
  rewrite handleGenerateVideo_requests.
  destruct (snd (validateVideoForm st)) eqn:Hv; [| intros []].
  intros [<- | []].
  rewrite validateVideoForm_valid in Hv.
  repeat (apply andb_prop in Hv; destruct Hv as [Hv ?]).
  repeat match goal with
         | K : negb _ = true |- _ => apply negb_true_iff in K
         end.
  destruct (number_within (videoTimeRequired (videoFormData st)) 6 10)
    as (q & Hn & Hp & Hlo & Hhi); try assumption; [lia |].
  split; [| split; [reflexivity | now apply truthy_true]].
  exists q. split; [exact Hn |].
  unfold videoRequest. cbn [time]. rewrite Hp. cbn [div_by].
  split; [reflexivity |].
  unfold Qle, Qdiv, Qmult, Qinv, inject_Z in *. cbn [Qnum Qden] in *.
  destruct q as [n d]. cbn [Qnum Qden] in *. split; lia.
Qed.

Lemma video_request_bounds_witness :
  In (videoRequest no_context (videoFormData eight_seconds))
     (snd (handleGenerateVideo RefJson.stringify no_context eight_seconds ∅
             (Unreachable "Failed to fetch"))) /\
  prompt (videoRequest no_context (videoFormData eight_seconds)) <> EmptyString.
Proof.
  assert (H : In (videoRequest no_context (videoFormData eight_seconds))
                (snd (handleGenerateVideo RefJson.stringify no_context eight_seconds ∅
                        (Unreachable "Failed to fetch"))))
    by (left; reflexivity).
  exact (conj H (proj2 (proj2 (video_request_bounds RefJson.stringify no_context
                                 eight_seconds ∅ (Unreachable "Failed to fetch") _ H)))).
Defined.

(** X16.  The check of the slide count reads the input twice, with
    [Number] and with [parseInt].  An input that is not blank, that
    [Number] reads as a number and in which [parseInt] finds no digits
    gets no error; when the duration is accepted as well, the request is
    issued and carries NaN as [num_slides]. *)
Theorem validatePptForm_count_without_digits
  (JSON_stringify : json -> string) (ctx : PageContext) (st : DeckState)
  (store : Storage) (a : answer PresentationDeck) :
  JsString.truthy (trim (numberOfSlides (pptFormData st))) = true ->
  isNaN (numberOfSlides (pptFormData st)) = false ->
  parseInt (numberOfSlides (pptFormData st)) = NaN ->
  pptErrors (fst (validatePptForm st)) !! "numberOfSlides" = None /\
  (pptErrors (fst (validatePptForm st)) !! "timeRequired" = None ->
   exists req,
     snd (handleCreatePresentation JSON_stringify ctx st store a) = [req] /\
     num_slides req = NaN).
Proof.
  intros Ht Hn Hp.
  assert (Hcount :
    negb (JsString.truthy (trim (numberOfSlides (pptFormData st))))
    || isNaN (numberOfSlides (pptFormData st))
    || lt (parseInt (numberOfSlides (pptFormData st))) (of_Z 5)
    || gt (parseInt (numberOfSlides (pptFormData st))) (of_Z 15) = false).
  { rewrite Ht, Hn, Hp. reflexivity. }
  split.
  - unfold validatePptForm. cbn [fst pptErrors]. rewrite Hcount.
    match goal with |- context [if ?b then _ else _] => destruct b end;
      [now rewrite lookup_insert_ne | reflexivity].
  - intros Htime. rewrite handleCreatePresentation_requests.
    assert (Hv : snd (validatePptForm st) = true).
    { rewrite validatePptForm_valid, Hcount. cbn [negb andb].
      revert Htime. unfold validatePptForm. cbn [fst pptErrors]. rewrite Hcount.
      match goal with |- context [if ?b then _ else _] => destruct b end;
        [rewrite lookup_insert_eq; discriminate | reflexivity]. }
    rewrite Hv. eexists. split; [reflexivity |]. exact Hp.
Qed.

Lemma validatePptForm_count_without_digits_witness :
  let st := mkDeckState (mkPptFormData "Infinity" "5") ∅ false None 0 "" false None in
  JsString.truthy (trim (numberOfSlides (pptFormData st))) = true /\
  isNaN (numberOfSlides (pptFormData st)) = false /\
  parseInt (numberOfSlides (pptFormData st)) = NaN /\
  pptErrors (fst (validatePptForm st)) !! "numberOfSlides" = None.
Proof.
  cbv zeta.
  set (st := mkDeckState (mkPptFormData "Infinity" "5") ∅ false None 0 "" false None).
  assert (H1 : JsString.truthy (trim (numberOfSlides (pptFormData st))) = true)
    by (vm_compute; reflexivity).
  assert (H2 : isNaN (numberOfSlides (pptFormData st)) = false)
    by (vm_compute; reflexivity).
  assert (H3 : parseInt (numberOfSlides (pptFormData st)) = NaN)
    by (vm_compute; reflexivity).
  exact (conj H1 (conj H2 (conj H3
           (proj1 (validatePptForm_count_without_digits RefJson.stringify no_context st ∅
                     (Unreachable "Failed to fetch") H1 H2 H3))))).
Defined.

(** X17.  Going back to the card selection forgets the deck: nothing is
    on display, a reload finds no deck and starts at the first slide,
    whatever the parser does.  The typed configuration stays, in the page
    and in the storage, and no storage key other than those of the deck
    and the slide index is touched. *)
Theorem handleBackToCardSelection_forgets_deck
  (JSON_parse : string -> outcome json) (st : DeckState) (store : Storage) :
  let after := handleBackToCardSelection st store in
  displayed_slide (fst after) = None /\
  loadSavedPresentation JSON_parse (snd after) = Done JNull /\
  SlideStore.initialSlide (snd after) = of_Z 0 /\
  pptFormData (fst after) = pptFormData st /\
  PresentationForms.loadSavedPptData JSON_parse (snd after)
    = PresentationForms.loadSavedPptData JSON_parse store /\
  (forall key, key <> "raw2ready_presentation" -> key <> "raw2ready_currentSlide" ->
     snd after !! key = store !! key).
Proof.
  cbv zeta. unfold handleBackToCardSelection. cbn [fst snd pptFormData].
  assert (Hother : forall key,
            key <> "raw2ready_presentation" -> key <> "raw2ready_currentSlide" ->
            delete "raw2ready_currentSlide" (delete "raw2ready_presentation" store) !! key
            = store !! key).
  { intros key H1 H2. now rewrite !lookup_delete_ne. }
  split_and!; try reflexivity.
  - unfold loadSavedPresentation, loadSavedOrNull, getItem.
    rewrite lookup_delete_ne by discriminate. rewrite lookup_delete_eq. reflexivity.
  - unfold SlideStore.initialSlide, getItem. rewrite lookup_delete_eq. reflexivity.
  - unfold PresentationForms.loadSavedPptData, PresentationForms.loadSavedOr, getItem.
    rewrite Hother by discriminate. reflexivity.
  - exact Hother.
Qed.

(* ===================================================================== *)
(** ** Attachments *)
(* ===================================================================== *)

Section Files.

Import Attachments.

Lemma filter_index_past {A : Type} (k base : nat) (l : list A) :
  (k < base)%nat -> filter_index (fun j => negb (Nat.eqb j k)) base l = l.
Proof.
  revert base. induction l as [| x r IH]; intros base H; cbn [filter_index];
    [reflexivity |].
  destruct (Nat.eqb_spec base k) as [E | _]; [lia |]. cbn [negb].
  f_equal. apply IH. lia.
Qed.

Lemma filter_index_delete {A : Type} (index base : nat) (l : list A) :
  filter_index (fun j => negb (Nat.eqb j (base + index))) base l = delete index l.
Proof.
  revert index base. induction l as [| x r IH]; intros index base; [reflexivity |].
  cbn [filter_index]. destruct index as [| index].
  - rewrite Nat.add_0_r, Nat.eqb_refl. cbn [negb]. apply filter_index_past. lia.
  - destruct (Nat.eqb_spec base (base + S index)) as [E | _]; [lia |]. cbn [negb].
    replace (base + S index)%nat with (S base + index)%nat by lia.
    now rewrite IH.
Qed.

Lemma toLowerCase_append (a b : string) :
  toLowerCase (a ++ b) = toLowerCase a ++ toLowerCase b.
Proof. induction a as [| c a IH]; cbn [append toLowerCase]; [reflexivity | now rewrite IH]. Qed.

Lemma endsWith_append (a b : string) : endsWith (a ++ b) b = true.
Proof.
  induction a as [| c a IH]; cbn [append].
  - destruct b; cbn [endsWith]; rewrite String.eqb_refl; reflexivity.
  - cbn [endsWith]. rewrite IH. apply orb_true_r.
Qed.

Lemma find_first {A : Type} (p : A -> bool) (before after : list A) (x : A) :
  Forall (fun y => p y = false) before -> p x = true ->
  find p (before ++ x :: after)%list = Some x.
Proof.
  induction 1 as [| y l Hy _ IH]; intros Hx; cbn [app find].
  - now rewrite Hx.
  - rewrite Hy. now apply IH.
Qed.

Lemma find_none {A : Type} (p : A -> bool) (l : list A) :
  Forall (fun y => p y = false) l -> find p l = None.
Proof. induction 1 as [| y l Hy _ IH]; cbn [find]; [reflexivity | now rewrite Hy]. Qed.

End Files.

(** X18.  [handleRemoveFile] removes the attachment at the position
    clicked and no other: the attachments before it keep their position,
    those after it move up by one, and the list is one shorter; a position
    beyond the list removes nothing.  Removing the file that was attached
    last gives back the list as it was before attaching it. *)
Theorem handleRemoveFile_removes_one
  (index : nat) (attachments : list Attachments.File) :
  (forall i, Attachments.handleRemoveFile index attachments !! i
             = if (i <? index)%nat then attachments !! i else attachments !! S i) /\
  length (Attachments.handleRemoveFile index attachments)
    = (if (index <? length attachments)%nat then pred (length attachments)
       else length attachments) /\
  (forall f, Attachments.handleRemoveFile (length attachments)
               (Attachments.addFiles [f] attachments) = attachments).
Proof.
  assert (Hdel : forall l : list Attachments.File,
            Attachments.handleRemoveFile index l = delete index l)
    by (intros l; apply (filter_index_delete index 0)).
  split_and!.
  - intros i. rewrite Hdel. destruct (Nat.ltb_spec i index) as [Hi | Hi].
    + now apply list_lookup_delete_lt.
    + now apply list_lookup_delete_ge.
  - rewrite Hdel, delete_take_drop, length_app, length_take, length_drop.
    destruct (Nat.ltb_spec index (length attachments)) as [Hi | Hi]; lia.
  - intros f. unfold Attachments.addFiles, Attachments.handleRemoveFile.
    rewrite (filter_index_delete (length attachments) 0), delete_middle.
    apply app_nil_r.
Qed.

(** X19.  The [file_content] of a request is the text of the first
    attachment whose name ends in [.txt], [.md] or [.csv], whatever the
    case of the letters, and it is never the empty string.  Attachments
    before it that have no such ending are skipped, and attachments after
    it are never read, also when that first text file cannot be read or
    is empty: then the content sent is null.  Without any text file it is
    null as well. *)
Theorem readFileContent_first_text_file
  (before after : list Attachments.File) (f : Attachments.File) :
  Forall (fun g => Attachments.is_text g = false) before ->
  Attachments.is_text f = true ->
  Attachments.readFileContent (before ++ f :: after)%list = Attachments.result f /\
  Attachments.file_content (before ++ f :: after)%list
    = match Attachments.result f with
      | Some text => if JsString.truthy text then Some text else None
      | None => None
      end /\
  Attachments.file_content (before ++ f :: after)%list <> Some EmptyString /\
  Attachments.file_content before = None /\
  (forall base ext text,
     In (Attachments.toLowerCase ext) Attachments.textExtensions ->
     Attachments.is_text (Attachments.mkFile (base ++ ext) text) = true).
Proof.
  intros Hb Hf.
  assert (Hread : Attachments.readFileContent (before ++ f :: after)%list
                  = Attachments.result f).
  { unfold Attachments.readFileContent.
    rewrite (find_first _ before after f Hb Hf).
    now destruct before. }
  assert (Hcontent : Attachments.file_content (before ++ f :: after)%list
    = match Attachments.result f with
      | Some text => if JsString.truthy text then Some text else None
      | None => None
      end).
  { unfold Attachments.file_content. rewrite Hread. reflexivity. }
  split_and!; try assumption.
  - rewrite Hcontent. destruct (Attachments.result f) as [text |]; [| discriminate].
    destruct (JsString.truthy text) eqn:E; [| discriminate].
    apply truthy_true in E. congruence.
  - unfold Attachments.file_content, Attachments.readFileContent.
    rewrite (find_none _ before Hb). now destruct (is_nil before).
  - intros base ext text Hin. unfold Attachments.is_text. cbn [Attachments.name].
    rewrite toLowerCase_append. apply existsb_exists.
    exists (Attachments.toLowerCase ext). split; [exact Hin | apply endsWith_append].
Qed.

Lemma readFileContent_first_text_file_witness :
  Attachments.file_content Samples.three_files = None.
Proof.
  assert (Hb : Forall (fun g => Attachments.is_text g = false)
                 [Attachments.mkFile "logo.PNG" (Some "binary")])
    by (repeat constructor).
  assert (Hf : Attachments.is_text (Attachments.mkFile "Notes.TXT" None) = true)
    by reflexivity.
  exact (proj1 (proj2
           (readFileContent_first_text_file
              [Attachments.mkFile "logo.PNG" (Some "binary")]
              [Attachments.mkFile "sales.csv" (Some "q1,q2")]
              (Attachments.mkFile "Notes.TXT" None) Hb Hf))).
Defined.

(** X20.  Attachments are never restored: whatever the storage holds and
    whatever the parser makes of it, [loadSavedFormData] of the form with
    attachments returns an object whose [fileAttachments] is the empty
    list.  Every other property of a stored object is restored as it was
    stored. *)
Theorem loadSavedFormData_drops_attachments
  (JSON_parse : string -> outcome json) (store : Storage) :
  exists props,
    Attachments.loadSavedFormData JSON_parse store = Done (JObj props) /\
    Js.prop (JObj props) "fileAttachments" = Done (Some (JArr [])) /\
    (forall saved stored key,
       getItem store "raw2ready_formData" = Some saved ->
       saved <> EmptyString ->
       JSON_parse saved = Done (JObj stored) ->
       key <> "fileAttachments" ->
       Js.prop (JObj props) key = Js.prop (JObj stored) key).
Proof.
  assert (Hset : forall k v p, Js.assoc k (Attachments.set_prop k v p) = Some v).
  { intros k v p. induction p as [| [k' v'] r IH]; cbn [Attachments.set_prop Js.assoc].
    - now rewrite String.eqb_refl.
    - destruct (String.eqb_spec k k') as [<- | Hk]; cbn [Js.assoc].
      + now rewrite String.eqb_refl.
      + destruct (String.eqb_spec k k'); [contradiction | exact IH]. }
  assert (Hother : forall k v p key, key <> k ->
            Js.assoc key (Attachments.set_prop k v p) = Js.assoc key p).
  { intros k v p key Hk. induction p as [| [k' v'] r IH]; cbn [Attachments.set_prop Js.assoc].
    - destruct (String.eqb_spec key k); [contradiction | reflexivity].
    - destruct (String.eqb_spec k k') as [<- | Hkk]; cbn [Js.assoc].
      + destruct (String.eqb_spec key k); [contradiction | reflexivity].
      + destruct (String.eqb_spec key k'); [reflexivity | exact IH]. }
  unfold Attachments.loadSavedFormData.
  destruct (getItem store "raw2ready_formData") as [saved |] eqn:Hs; cbn [saved_truthy].
  2:{ eexists. split; [reflexivity |]. split; [reflexivity |]. discriminate. }
  destruct (JsString.truthy saved) eqn:Ht.
  2:{ eexists. split; [reflexivity |]. split; [reflexivity |].
      intros saved' stored key [= <-] Hne. apply truthy_true in Hne. congruence. }
  change (default "" (Some saved)) with saved.
  destruct (JSON_parse saved) as [parsed | e] eqn:Hp; cbn [bind try_catch].
  - eexists. split; [reflexivity |]. cbn [Js.prop]. split; [now rewrite Hset |].
    intros saved' stored key [= <-] _ Hparsed Hk.
    rewrite Hp in Hparsed. injection Hparsed as ->.
    cbn [Attachments.spread]. now rewrite Hother.
  - eexists. split; [reflexivity |]. split; [reflexivity |].
    intros saved' stored key [= <-] _ Hparsed. rewrite Hp in Hparsed. discriminate.
Qed.
